(** * tpm_i2c_atmel: the transport core of the ATMEL AT97SC3204T I2C driver

    A shallow embedding of [src/tpm_i2c_atmel.c]: the bounded-retry bus read
    [tpm_i2c_read], the two-phase response read [tpm_tis_i2c_read] and the
    write path [tpm_tis_i2c_write], over an explicit model of the device
    structure [tpm_dev], of the I2C adapter and of the user buffer.

    C integers are [Z]; a conversion to a narrower or unsigned type is
    written out ([to_u8], [to_u16], [to_u32]).  Bytes are [Byte.byte]. *)

From Stdlib Require Import ZArith List Bool Lia.
From Stdlib Require Import Strings.Byte.
From Stdlib Require Strings.String.
Import ListNotations.
Local Open Scope Z_scope.

(** ** Constants *)

Module Const.

(** [#define TPM_BUFSIZE 1024] (line 52). *)
Definition TPM_BUFSIZE : Z := 1024.

(** Modelled from the spec: [TPM_HEADER_SIZE] comes from [tpm_i2c.h], which
    is not part of the sources; the specification gives
    [HEADER_SIZE = 6] bytes. *)
Definition TPM_HEADER_SIZE : Z := 6.

(** [I2C_M_RD] of [<linux/i2c.h>]: the message is a read. *)
Definition I2C_M_RD : Z := 1.

(** The error numbers of [<asm/errno.h>] the driver returns negated. *)
Definition EIO : Z := 5.
Definition EFAULT : Z := 14.
Definition EINVAL : Z := 22.
Definition EOPNOTSUPP : Z := 95.

(** [const u32 trapdoor_limit = 60000] (line 79). *)
Definition trapdoor_limit : Z := 60000.

End Const.
Import Const.

(** ** Integer conversions *)

(** Conversion of an [int] to [u8], [__u16] and [u32]: reduction modulo
    the width. *)
Definition to_u8 (z : Z) : Z := z mod 2 ^ 8.
Definition to_u16 (z : Z) : Z := z mod 2 ^ 16.
Definition to_u32 (z : Z) : Z := z mod 2 ^ 32.

(** The value of a byte of the buffer once promoted to [int]. *)
Definition u8_val (b : byte) : Z := Z.of_N (Byte.to_N b).

(** ** The device, the adapter and the world *)

(** [struct i2c_msg]: [{ addr, flags, len, buf }]; [len] is a [__u16];
    [buf] is kept as the offset of the pointer from [tpm_dev.buf]. *)
Record i2c_msg := mk_msg {
  msg_addr : Z;
  msg_flags : Z;
  msg_len : Z;
  msg_buf : Z
}.

(** What the adapter answers to one transfer of one message: the
    [int] that [i2c_transfer] returns, and the bytes the device put on the
    bus (they only matter to a read message). *)
Record xfer_reply := mk_reply {
  reply_rc : Z;
  reply_data : list byte
}.

(** [adapter->algo->master_xfer]: a null pointer, or the transfer routine.
    The routine is a script: the answer to the [n]-th transfer performed
    since the adapter exists. *)
Record i2c_adapter := mk_adapter {
  master_xfer : option (nat -> xfer_reply)
}.

Record i2c_client := mk_client {
  addr : Z;
  adapter : i2c_adapter
}.

(** [struct tpm_i2c_atmel_dev] (lines 54-58).  [buf] is the memory found at
    the address [tpm_dev.buf]: its first [TPM_BUFSIZE] bytes are the array
    [u8 buf[TPM_BUFSIZE]], the bytes after them are what the kernel keeps
    behind the array (the [chip] pointer and what follows the structure).
    No function of the driver reads the field [chip]. *)
Record tpm_i2c_atmel_dev := mk_dev {
  client : i2c_client;
  buf : list byte
}.

(** What an operation does to the memory at [tpm_dev.buf] and to the bus, in
    the order it does it. *)
Inductive event :=
| EvMemset (off len : Z)          (* memset(tpm_dev.buf + off, 0, len) *)
| EvRetryRead (buffer len : Z)    (* a call of tpm_i2c_read(buffer, len) *)
| EvXfer (m : i2c_msg)            (* one raw transfer of message m *)
| EvCopyToUser (off n : Z)        (* copy_to_user(_, tpm_dev.buf + off, n) *)
| EvCopyFromUser (off n : Z).     (* copy_from_user(tpm_dev.buf + off, _, n) *)

(** The global [tpm_dev], the number of raw transfers the adapter has
    performed, the milliseconds slept, and the events so far (latest
    first). *)
Record world := mk_world {
  tpm_dev : tpm_i2c_atmel_dev;
  xfers : nat;
  slept : Z;
  trace : list event
}.

(** The first [TPM_BUFSIZE] bytes at [tpm_dev.buf]: the array itself. *)
Definition device_buffer (w : world) : list byte :=
  firstn (Z.to_nat TPM_BUFSIZE) (buf (tpm_dev w)).

(** ** Memory at [tpm_dev.buf] *)

(** Overwrite [data] at offset [off]. *)
Definition store (off : Z) (data : list byte) (m : list byte) : list byte :=
  firstn (Z.to_nat off) m ++ data
    ++ skipn (Z.to_nat off + length data) m.

(** The [n] bytes at offset [off]. *)
Definition load (off n : Z) (m : list byte) : list byte :=
  firstn (Z.to_nat n) (skipn (Z.to_nat off) m).

Definition zeros (n : Z) : list byte := repeat x00 (Z.to_nat n).

(** ** A state and failure monad

    [None] is only produced by a loop that ran out of fuel. *)
Definition M (A : Type) : Type := world -> option (A * world).

Definition ret {A} (a : A) : M A := fun w => Some (a, w).

Definition bind {A B} (m : M A) (k : A -> M B) : M B :=
  fun w => match m w with
           | Some (a, w') => k a w'
           | None => None
           end.

Declare Scope io_scope.
Delimit Scope io_scope with io.
Notation "x <- m ;; k" := (bind m (fun x => k))
  (at level 61, m at next level, right associativity) : io_scope.
Notation "' pat <- m ;; k" := (bind m (fun x => match x with pat => k end))
  (at level 61, pat pattern, m at next level, right associativity) : io_scope.
Notation "m ;; k" := (bind m (fun _ => k))
  (at level 61, right associativity) : io_scope.
Local Open Scope io_scope.

Definition gets {A} (f : world -> A) : M A := fun w => Some (f w, w).

(** The world [w] after one more event. *)
Definition push (e : event) (w : world) : world :=
  mk_world (tpm_dev w) (xfers w) (slept w) (e :: trace w).

(** The world [w] with other bytes at [tpm_dev.buf]. *)
Definition with_buf (m : list byte) (w : world) : world :=
  mk_world (mk_dev (client (tpm_dev w)) m) (xfers w) (slept w) (trace w).

Definition log (e : event) : M unit := fun w => Some (tt, push e w).

Definition set_buf (m : list byte) : M unit :=
  fun w => Some (tt, with_buf m w).

(** ** Kernel services the driver calls *)

(** [memset(tpm_dev.buf + off, 0x00, n)]. *)
Definition memset (off n : Z) : M unit :=
  log (EvMemset off n) ;;
  m <- gets (fun w => buf (tpm_dev w)) ;;
  set_buf (store off (zeros n) m).

(** [msleep(ms)]. *)
Definition msleep (ms : Z) : M unit :=
  fun w => Some (tt, mk_world (tpm_dev w) (xfers w) (slept w + ms) (trace w)).

(** What a transfer of message [m] answered by [r] leaves in the memory
    [mem]: for a read message ([I2C_M_RD], bit 0 of the flags) the adapter
    stores at most [msg_len] of the bytes received at [msg_buf]; a write
    message leaves the memory as it is. *)
Definition deliver (m : i2c_msg) (r : xfer_reply) (mem : list byte)
  : list byte :=
  if Z.testbit (msg_flags m) 0
  then store (msg_buf m) (firstn (Z.to_nat (msg_len m)) (reply_data r)) mem
  else mem.

(** [i2c_transfer(tpm_dev.client->adapter, &m, 1)].  Without a transfer
    routine the kernel answers [-EOPNOTSUPP] and touches nothing.  With one,
    the next answer of the script is consumed. *)
Definition i2c_transfer (m : i2c_msg) : M Z :=
  fun w =>
    match master_xfer (adapter (client (tpm_dev w))) with
    | None => Some (- EOPNOTSUPP, w)
    | Some script =>
        let r := script (xfers w) in
        Some (reply_rc r,
              mk_world (mk_dev (client (tpm_dev w))
                               (deliver m r (buf (tpm_dev w))))
                       (S (xfers w)) (slept w) (EvXfer m :: trace w))
    end.

(** [copy_to_user(ubuf, tpm_dev.buf + off, n)], where [ubuf] is the memory
    the caller can write at the pointer it passed.  The bytes that fit are
    copied; the result is the number of bytes not copied, with the caller's
    memory after the copy. *)
Definition copy_to_user (ubuf : list byte) (off n : Z) : M (Z * list byte) :=
  log (EvCopyToUser off n) ;;
  m <- gets (fun w => buf (tpm_dev w)) ;;
  let k := Z.min n (Z.of_nat (length ubuf)) in
  ret (n - k, load off k m ++ skipn (Z.to_nat k) ubuf).

(** [copy_from_user(tpm_dev.buf + off, ubuf, n)], where [ubuf] is the memory
    the caller can read at the pointer it passed.  The bytes that can be
    read are copied and the rest of the [n] bytes of the destination is
    zeroed; the result is the number of bytes not copied. *)
Definition copy_from_user (off : Z) (ubuf : list byte) (n : Z) : M Z :=
  log (EvCopyFromUser off n) ;;
  m <- gets (fun w => buf (tpm_dev w)) ;;
  let k := Z.min n (Z.of_nat (length ubuf)) in
  set_buf (store off (firstn (Z.to_nat k) ubuf ++ zeros (n - k)) m) ;;
  ret (n - k).

(** ** The driver *)

(** The [do ... while (trapdoor < trapdoor_limit)] loop of [tpm_i2c_read]
    (lines 91-97), from the value of [trapdoor] at the top of the body; it
    yields the last [rc] and the final [trapdoor].  [fuel] bounds the number
    of iterations. *)
Fixpoint retry_loop (fuel : nat) (msg1 : i2c_msg) (trapdoor : Z)
  : M (Z * Z) :=
  match fuel with
  | O => fun _ => None
  | S fuel' =>
      rc <- i2c_transfer msg1 ;;
      if 0 <? rc then ret (rc, trapdoor)
      else
        let trapdoor := to_u32 (trapdoor + 1) in
        msleep 5 ;;
        if trapdoor <? trapdoor_limit
        then retry_loop fuel' msg1 trapdoor
        else ret (rc, trapdoor)
  end.

(** [static u8 tpm_i2c_read(u8 *buffer, size_t len)] (lines 75-107).
    [buffer] is the offset of the pointer from [tpm_dev.buf].  The result is
    converted to the return type [u8].  The call itself is recorded among
    the events.  Locking and unlocking the adapter has no effect on a
    sequential run. *)
Definition tpm_i2c_read (buffer len : Z) : M Z :=
  log (EvRetryRead buffer len) ;;
  dev <- gets tpm_dev ;;
  let msg1 := mk_msg (addr (client dev)) I2C_M_RD (to_u16 len) buffer in
  match master_xfer (adapter (client dev)) with
  | None => ret (to_u8 (- EOPNOTSUPP))
  | Some _ =>
      ' (rc, trapdoor) <- retry_loop (Z.to_nat trapdoor_limit) msg1 0 ;;
      if trapdoor_limit <=? trapdoor
      then ret (to_u8 (- EFAULT))
      else ret (to_u8 rc)
  end.

(** Lines 120-122: [expected = buf[4]; expected <<= 8; expected += buf[5]]. *)
Definition decode_expected (m : list byte) : Z :=
  let expected := u8_val (nth 4 m x00) in
  let expected := Z.shiftl expected 8 in
  expected + u8_val (nth 5 m x00).

(** [tpm_tis_i2c_read(file, buf, count, offp)] (lines 109-145).  [ubuf] is
    the memory writable at the caller's [buf]; [file] and [offp] are not
    used by the function.  The result is the [ssize_t] returned and the
    caller's memory afterwards. *)
Definition tpm_tis_i2c_read (ubuf : list byte) (count : Z)
  : M (Z * list byte) :=
  memset 0 TPM_BUFSIZE ;;
  rc <- tpm_i2c_read 0 TPM_HEADER_SIZE ;;
  m <- gets (fun w => buf (tpm_dev w)) ;;
  let expected := decode_expected m in
  rc <- (if expected <=? TPM_HEADER_SIZE
         then ret rc
         else tpm_i2c_read 0 expected) ;;
  ' (uncopied, ubuf') <- copy_to_user ubuf 0 expected ;;
  if negb (uncopied =? 0)
  then ret (- EFAULT, ubuf')
  else ret (expected, ubuf').

(** [tpm_tis_i2c_write(file, buf, count, offp)] (lines 147-175).  [ubuf] is
    the memory readable at the caller's [buf]. *)
Definition tpm_tis_i2c_write (ubuf : list byte) (count : Z) : M Z :=
  dev <- gets tpm_dev ;;
  let msg1 := mk_msg (addr (client dev)) 0 (to_u16 count) 0 in
  if TPM_BUFSIZE <? count
  then ret (- EINVAL)
  else
    memset 0 TPM_BUFSIZE ;;
    uncopied <- copy_from_user 0 ubuf count ;;
    if negb (uncopied =? 0)
    then ret (- EFAULT)
    else
      rc <- i2c_transfer msg1 ;;
      if rc <=? 0
      then ret (- EIO)
      else ret count.

(** [tpm_tis_i2c_open] and [tpm_tis_i2c_release] (lines 177-185). *)
Definition tpm_tis_i2c_open : M Z := ret 0.
Definition tpm_tis_i2c_release : M Z := ret 0.

(** Lines 116-117 of [tpm_tis_i2c_read] on their own: the zero fill and the
    header read, after which the length is decoded. *)
Definition header_phase : M Z :=
  memset 0 TPM_BUFSIZE ;;
  tpm_i2c_read 0 TPM_HEADER_SIZE.

(** ** Observations on a run *)

(** The events that happened between the world [w] and a later world
    [w'], oldest first. *)
Definition since (w w' : world) : list event :=
  rev (firstn (length (trace w') - length (trace w)) (trace w')).

(** The calls of [tpm_i2c_read] among some events: [(buffer, len)]. *)
Fixpoint read_calls (es : list event) : list (Z * Z) :=
  match es with
  | [] => []
  | EvRetryRead b l :: es' => (b, l) :: read_calls es'
  | _ :: es' => read_calls es'
  end.

(** The raw transfers among some events. *)
Fixpoint raw_xfers (es : list event) : list i2c_msg :=
  match es with
  | [] => []
  | EvXfer m :: es' => m :: raw_xfers es'
  | _ :: es' => raw_xfers es'
  end.

(** One past the last byte of the memory at [tpm_dev.buf] an event touches;
    a call of [tpm_i2c_read] touches nothing by itself. *)
Definition extent (e : event) : Z :=
  match e with
  | EvMemset off n => off + n
  | EvRetryRead _ _ => 0
  | EvXfer m => msg_buf m + msg_len m
  | EvCopyToUser off n => off + n
  | EvCopyFromUser off n => off + n
  end.

(** The event stays inside [u8 buf[TPM_BUFSIZE]]. *)
Definition in_bounds (e : event) : bool := extent e <=? TPM_BUFSIZE.

(** The answer of the adapter to the next raw transfer from [w]. *)
Definition next_rc (w : world) : Z :=
  match master_xfer (adapter (client (tpm_dev w))) with
  | None => - EOPNOTSUPP
  | Some script => reply_rc (script (xfers w))
  end.

(** The message [tpm_i2c_read(buffer, len)] builds on line 82. *)
Definition read_msg (w : world) (buffer len : Z) : i2c_msg :=
  mk_msg (addr (client (tpm_dev w))) I2C_M_RD (to_u16 len) buffer.

(** What the caller's memory [ubuf] holds once [copy_to_user] was asked
    to put there the [n] first bytes of the memory [m]. *)
Definition delivered (ubuf : list byte) (n : Z) (m : list byte)
  : list byte :=
  let k := Z.min n (Z.of_nat (length ubuf)) in
  load 0 k m ++ skipn (Z.to_nat k) ubuf.

(** The events of a run of [tpm_tis_i2c_read] on a client at address [a]
    that decodes the length [expected]: the zero fill, the header read with
    its [k1] raw transfers, the second read with its [k2] raw transfers when
    [expected] is above [TPM_HEADER_SIZE], and the copy to the caller. *)
Definition read_events (a : Z) (k1 k2 : nat) (expected : Z) : list event :=
  EvMemset 0 TPM_BUFSIZE
  :: EvRetryRead 0 TPM_HEADER_SIZE
  :: repeat (EvXfer (mk_msg a I2C_M_RD TPM_HEADER_SIZE 0)) k1
  ++ (if expected <=? TPM_HEADER_SIZE
      then []
      else EvRetryRead 0 expected
           :: repeat (EvXfer (mk_msg a I2C_M_RD expected 0)) k2)
  ++ [EvCopyToUser 0 expected].

(** The message [tpm_tis_i2c_write] builds on line 152. *)
Definition write_msg (w : world) (count : Z) : i2c_msg :=
  mk_msg (addr (client (tpm_dev w))) 0 (to_u16 count) 0.

(** The world once [tpm_tis_i2c_write] has zeroed the array and copied the
    caller's [count] bytes into it (lines 161-162), before the transfer. *)
Definition staged (ubuf : list byte) (count : Z) (w : world) : world :=
  let k := Z.min count (Z.of_nat (length ubuf)) in
  with_buf
    (store 0 (firstn (Z.to_nat k) ubuf ++ zeros (count - k))
       (zeros TPM_BUFSIZE ++ skipn (Z.to_nat TPM_BUFSIZE) (buf (tpm_dev w))))
    (push (EvCopyFromUser 0 count) (push (EvMemset 0 TPM_BUFSIZE) w)).

(** ** Concrete devices

    The client the module creates on line 255 has address [0x29].  After
    [tpm_tis_i2c_init] the array is zero (line 275); the eight bytes [0xaa]
    stand for what lies behind it. *)
Definition boot (a : i2c_adapter) : world :=
  mk_world (mk_dev (mk_client 41 a) (zeros TPM_BUFSIZE ++ repeat xaa 8))
           0 0 [].

(** A six byte response header with the length field [hi, lo]. *)
Definition header (hi lo : byte) : list byte :=
  [x00; x00; x00; x00; hi; lo].

(** A chip that answers the first transfer with [first] and every later
    one with [then_]; each answer reports one message transferred. *)
Definition chip (first then_ : list byte) : i2c_adapter :=
  mk_adapter (Some (fun n => match n with
                             | O => mk_reply 1 first
                             | S _ => mk_reply 1 then_
                             end)).

(** A chip that never acknowledges: every transfer fails with
    [-ENXIO = -6] and moves no byte. *)
Definition chip_nack : i2c_adapter :=
  mk_adapter (Some (fun _ => mk_reply (-6) [])).

(** A chip whose transfers report [rc] and move no byte. *)
Definition chip_rc (rc : Z) : i2c_adapter :=
  mk_adapter (Some (fun _ => mk_reply rc [])).

(** An adapter without a transfer routine. *)
Definition no_xfer : i2c_adapter := mk_adapter None.

(** A chip that announces a response of [0x0401 = 1025] bytes, one more
    than the array holds, and the memory of a caller that can take 2048
    bytes. *)
Definition chip_1025 : i2c_adapter := chip (header x04 x01) [].
Definition caller_2048 : list byte := zeros 2048.

(** A chip whose whole response is its six byte header. *)
Definition chip_6 : i2c_adapter := chip (header x00 x06) [].

(** A chip that announces a response of 30 bytes and sends it. *)
Definition chip_30 : i2c_adapter :=
  chip (header x00 x1e) (header x00 x1e ++ repeat x07 24).

(** A chip whose header carries the largest length field, [0xffff]. *)
Definition chip_ffff : i2c_adapter := chip (header xff xff) [].

(** The memory of a caller that can take (or give) 64 bytes, and a four
    byte request. *)
Definition caller_64 : list byte := zeros 64.
Definition request_4 : list byte := [x01; x02; x03; x04].

(** The world after the header phase from [w] (or [w] itself, should the
    phase not return). *)
Definition after_header (w : world) : world :=
  match header_phase w with
  | Some (_, w1) => w1
  | None => w
  end.

(** The status the header phase from [w] yields. *)
Definition header_status (w : world) : Z :=
  match header_phase w with
  | Some (rc, _) => rc
  | None => 0
  end.

(** ** Worlds reached by the reads *)

(** The world once the array has been zeroed (line 116 and line 161). *)
Definition zeroed (w : world) : world :=
  with_buf (zeros TPM_BUFSIZE
              ++ skipn (Z.to_nat TPM_BUFSIZE) (buf (tpm_dev w)))
           (push (EvMemset 0 TPM_BUFSIZE) w).

(** The world after a call [tpm_i2c_read(buffer, len)] from [w] whose
    first [k] attempts failed without storing a byte and whose next attempt
    was answered by [r]: [k + 1] transfers, [k] sleeps of 5 ms, and the
    bytes of [r] in memory. *)
Definition after_read (w : world) (buffer len : Z) (k : nat)
           (r : xfer_reply) : world :=
  mk_world
    (mk_dev (client (tpm_dev w))
            (deliver (read_msg w buffer len) r (buf (tpm_dev w))))
    (xfers w + S k) (slept w + 5 * Z.of_nat k)
    (repeat (EvXfer (read_msg w buffer len)) (S k)
     ++ EvRetryRead buffer len :: trace w).

(** The world after a call [tpm_i2c_read(buffer, len)] from [w] whose
    [trapdoor_limit] attempts all failed without storing a byte. *)
Definition after_giving_up (w : world) (buffer len : Z) : world :=
  mk_world
    (mk_dev (client (tpm_dev w)) (buf (tpm_dev w)))
    (xfers w + Z.to_nat trapdoor_limit) (slept w + 5 * trapdoor_limit)
    (repeat (EvXfer (read_msg w buffer len)) (Z.to_nat trapdoor_limit)
     ++ EvRetryRead buffer len :: trace w).

(** The adapter's script from [w] answers attempt [k] with a positive
    result after [k] failures that stored nothing. *)
Definition answers_at (script : nat -> xfer_reply) (from k : nat) : Prop :=
  (k < Z.to_nat trapdoor_limit)%nat /\
  (forall i, (i < k)%nat ->
             reply_rc (script (from + i)%nat) <= 0 /\
             reply_data (script (from + i)%nat) = []) /\
  0 < reply_rc (script (from + k)%nat).

(** The adapter's script never answers with a positive result in the
    [trapdoor_limit] attempts from [from], and stores nothing. *)
Definition never_answers (script : nat -> xfer_reply) (from : nat) : Prop :=
  forall i, (i < Z.to_nat trapdoor_limit)%nat ->
            reply_rc (script (from + i)%nat) <= 0 /\
            reply_data (script (from + i)%nat) = [].

(** A chip that answers the header read at once and then stays silent. *)
Definition chip_header_only (hi lo : byte) : i2c_adapter :=
  mk_adapter (Some (fun n => match n with
                             | O => mk_reply 1 (header hi lo)
                             | S _ => mk_reply (-6) []
                             end)).

(** A chip that fails twice before each of its two answers. *)
Definition chip_slow : i2c_adapter :=
  mk_adapter (Some (fun n => match n with
                             | 2%nat => mk_reply 1 (header x00 x08)
                             | 5%nat =>
                                 mk_reply 1 (header x00 x08 ++ [x11; x22])
                             | _ => mk_reply (-6) []
                             end)).

(** The script of an adapter that has a transfer routine. *)
Definition script_of (a : i2c_adapter) : nat -> xfer_reply :=
  match master_xfer a with
  | Some script => script
  | None => fun _ => mk_reply (- EOPNOTSUPP) []
  end.

(** A chip that announces 1026 bytes and sends them: 1024 bytes [0x55]
    (the header aside) and two bytes [0xee]. *)
Definition chip_1026 : i2c_adapter :=
  chip (header x04 x02)
       (header x04 x02 ++ repeat x55 1018 ++ [xee; xee]).

(** A chip that announces 1026 bytes and sends them once, ending in two
    bytes [0xee]; asked again it announces 1026 bytes and then stays
    silent. *)
Definition chip_1026_once : i2c_adapter :=
  mk_adapter
    (Some (fun n => match n with
                    | 0%nat | 2%nat => mk_reply 1 (header x04 x02)
                    | 1%nat =>
                        mk_reply 1 (header x04 x02 ++ repeat x55 1018
                                      ++ [xee; xee])
                    | _ => mk_reply (-6) []
                    end)).

(** What a run returns, without the world it leaves. *)
Definition outcome {A} (run : option (A * world)) : option A :=
  match run with
  | Some (a, _) => Some a
  | None => None
  end.

(** The world a run leaves from [w] (or [w] itself, should the run not
    return). *)
Definition world_after {A} (m : M A) (w : world) : world :=
  match m w with
  | Some (_, w') => w'
  | None => w
  end.

(** The world after a read from the booted [chip_1026_once] by a caller
    whose memory takes only 64 bytes. *)
Definition after_failed_read : world :=
  world_after (tpm_tis_i2c_read caller_64 64) (boot chip_1026_once).

(** How many of the [n] answers of the script from transfer [from] on are
    failures, that is, results that are not positive (line 93). *)
Fixpoint failed_attempts (script : nat -> xfer_reply) (from n : nat) : nat :=
  match n with
  | O => O
  | S n' =>
      ((if (0 <? reply_rc (script from))%Z then 0 else 1)
       + failed_attempts script (S from) n')%nat
  end.

(** ** Module load and unload

    [tpm_tis_i2c_init] and [tpm_tis_i2c_exit] (lines 235-284) only call
    kernel services.  The kernel is a record of what these services answer
    during a load; the module's footprint in the kernel is kept as
    counters (registrations minus removals), so that an unbalanced removal
    shows as a negative count. *)
Module Lifecycle.
Import Strings.String.

(** [ENODEV] of [<asm/errno.h>]. *)
Definition ENODEV : Z := 19.

(** What the kernel answers while the module loads: the result of
    [i2c_add_driver], the adapter [i2c_get_adapter(0x03)] finds (or null),
    whether [i2c_new_device] creates the client (or returns null), and the
    result of [misc_register]. *)
Record kernel := mk_kernel {
  add_driver_rc : Z;
  adapter_3 : option i2c_adapter;
  new_device_ok : bool;
  misc_register_rc : Z
}.

(** The calls of kernel services, with the arguments the source gives. *)
Inductive kcall :=
| Printk (msg : String.string)
| AddDriver
| DelDriver
| GetAdapter (nr : Z)
| PutAdapter
| NewDevice (addr : Z) (type : String.string)
| UnregisterDevice (c : option i2c_client)
| MiscRegister (name : String.string)
| MiscDeregister (name : String.string).

(** The footprint of the module: registrations of [tpm_tis_i2c_driver],
    references held on the adapter, clients created, registrations of
    the misc device [tis_device], the pointer [tpm_dev.client] (null or a
    client), the memory at [tpm_dev.buf], and the calls made (latest
    first). *)
Record module_state := mk_state {
  drivers : Z;
  adapter_refs : Z;
  devices : Z;
  misc_devices : Z;
  dev_client : option i2c_client;
  dev_buf : list byte;
  calls : list kcall
}.

Definition call (c : kcall) (s : module_state) : module_state :=
  mk_state (drivers s) (adapter_refs s) (devices s) (misc_devices s)
           (dev_client s) (dev_buf s) (c :: calls s).

(** The name of the misc device [tis_device] (line 198) and the type of
    the client (line 256). *)
Definition tis_device_name : String.string := "tpm0"%string.
Definition client_type : String.string := "tpm_i2c_atmel"%string.

(** [printk(KERN_INFO msg)]. *)
Definition printk (msg : String.string) (s : module_state) : module_state :=
  call (Printk msg) s.

(** [i2c_add_driver]: the driver is registered when the result is 0. *)
Definition i2c_add_driver (k : kernel) (s : module_state)
  : Z * module_state :=
  let s := call AddDriver s in
  (add_driver_rc k,
   if add_driver_rc k =? 0
   then mk_state (drivers s + 1) (adapter_refs s) (devices s)
                 (misc_devices s) (dev_client s) (dev_buf s) (calls s)
   else s).

(** [i2c_del_driver]. *)
Definition i2c_del_driver (s : module_state) : module_state :=
  let s := call DelDriver s in
  mk_state (drivers s - 1) (adapter_refs s) (devices s) (misc_devices s)
           (dev_client s) (dev_buf s) (calls s).

(** [i2c_get_adapter(nr)]: a reference is taken when the adapter exists. *)
Definition i2c_get_adapter (k : kernel) (nr : Z) (s : module_state)
  : option i2c_adapter * module_state :=
  let s := call (GetAdapter nr) s in
  (adapter_3 k,
   match adapter_3 k with
   | Some _ =>
       mk_state (drivers s) (adapter_refs s + 1) (devices s)
                (misc_devices s) (dev_client s) (dev_buf s) (calls s)
   | None => s
   end).

(** [i2c_put_adapter]. *)
Definition i2c_put_adapter (s : module_state) : module_state :=
  let s := call PutAdapter s in
  mk_state (drivers s) (adapter_refs s - 1) (devices s) (misc_devices s)
           (dev_client s) (dev_buf s) (calls s).

(** [i2c_new_device(adapter, &info)] with [info.addr] and [info.type]:
    a client at that address on that adapter, or null. *)
Definition i2c_new_device (k : kernel) (a : i2c_adapter) (addr : Z)
           (type : String.string) (s : module_state)
  : option i2c_client * module_state :=
  let s := call (NewDevice addr type) s in
  if new_device_ok k
  then (Some (mk_client addr a),
        mk_state (drivers s) (adapter_refs s) (devices s + 1)
                 (misc_devices s) (dev_client s) (dev_buf s) (calls s))
  else (None, s).

(** [i2c_unregister_device(client)]; a null [client] is recorded in the
    call and removes nothing. *)
Definition i2c_unregister_device (c : option i2c_client) (s : module_state)
  : module_state :=
  let s := call (UnregisterDevice c) s in
  match c with
  | Some _ =>
      mk_state (drivers s) (adapter_refs s) (devices s - 1)
               (misc_devices s) (dev_client s) (dev_buf s) (calls s)
  | None => s
  end.

(** [misc_register(&tis_device)]: registered when the result is 0. *)
Definition misc_register (k : kernel) (name : String.string)
           (s : module_state) : Z * module_state :=
  let s := call (MiscRegister name) s in
  (misc_register_rc k,
   if misc_register_rc k =? 0
   then mk_state (drivers s) (adapter_refs s) (devices s)
                 (misc_devices s + 1) (dev_client s) (dev_buf s) (calls s)
   else s).

(** [misc_deregister(&tis_device)]. *)
Definition misc_deregister (name : String.string) (s : module_state)
  : module_state :=
  let s := call (MiscDeregister name) s in
  mk_state (drivers s) (adapter_refs s) (devices s) (misc_devices s - 1)
           (dev_client s) (dev_buf s) (calls s).

(** [tpm_dev.client = c]. *)
Definition set_client (c : option i2c_client) (s : module_state)
  : module_state :=
  mk_state (drivers s) (adapter_refs s) (devices s) (misc_devices s)
           c (dev_buf s) (calls s).

(** [memset(tpm_dev.buf, 0x00, TPM_BUFSIZE)] (line 275). *)
Definition memset_buf (s : module_state) : module_state :=
  mk_state (drivers s) (adapter_refs s) (devices s) (misc_devices s)
           (dev_client s) (store 0 (zeros TPM_BUFSIZE) (dev_buf s))
           (calls s).

(** [tpm_tis_i2c_init] (lines 235-277).  The adapter number [0x03], the
    address [0x29], the type and the messages are those of the source. *)
Definition tpm_tis_i2c_init (k : kernel) (s : module_state)
  : Z * module_state :=
  let (rc, s) := i2c_add_driver k s in
  if negb (rc =? 0)
  then (rc, printk "tpm_i2c_atmel: driver failue."%string s)
  else
    let (adapter, s) := i2c_get_adapter k 3 s in
    match adapter with
    | None =>
        let s :=
          printk "tpm_i2c_atmel: failed to get adapter."%string s in
        let s := i2c_del_driver s in
        let rc := - ENODEV in
        (rc, s)
    | Some a =>
        let (c, s) := i2c_new_device k a 41 client_type s in
        let s := set_client c s in
        match c with
        | None =>
            let s :=
              printk "tpm_i2c_atmel: failed to create client."%string s in
            let s := i2c_del_driver s in
            (rc, s)
        | Some _ =>
            let s := i2c_put_adapter s in
            let (rc, s) := misc_register k tis_device_name s in
            if negb (rc =? 0)
            then
              (rc,
               printk "tpm_i2c_atmel: failed to creat misc device."%string
                      s)
            else
              let s := memset_buf s in
              (rc, s)
        end
    end.

(** [tpm_tis_i2c_exit] (lines 279-284). *)
Definition tpm_tis_i2c_exit (s : module_state) : module_state :=
  let s := misc_deregister tis_device_name s in
  let s := i2c_unregister_device (dev_client s) s in
  let s := i2c_del_driver s in
  printk "tpm_tis_atmel: removed i2c driver."%string s.

(** [tpm_tis_i2c_probe] (lines 217-228), from the value
    [i2c_smbus_read_byte(client)] returned: the byte read, or a negative
    error number. *)
Definition tpm_tis_i2c_probe (smbus_read_byte : Z) : Z :=
  let rc := smbus_read_byte in
  if rc <? 0 then - ENODEV else rc.

(** [tpm_tis_i2c_remove] (lines 230-233). *)
Definition tpm_tis_i2c_remove : Z := 0.

(** The world the file operations run in once the module is loaded:
    [tpm_dev] with its client and its memory, no transfer made yet.  There
    is none while [tpm_dev.client] is null. *)
Definition device_world (s : module_state) : option world :=
  match dev_client s with
  | Some c => Some (mk_world (mk_dev c (dev_buf s)) 0 0 [])
  | None => None
  end.

(** A module that is not loaded: nothing registered, a null client, and
    1024 bytes [0xff] followed by eight bytes [0xaa] at [tpm_dev.buf]. *)
Definition unloaded : module_state :=
  mk_state 0 0 0 0 None (repeat xff 1024 ++ repeat xaa 8) [].

(** Kernels: one where every step of the load succeeds on the adapter
    [a], one where the client cannot be created, one where the misc device
    cannot be registered ([-EBUSY = -16]). *)
Definition kernel_ok (a : i2c_adapter) : kernel :=
  mk_kernel 0 (Some a) true 0.
Definition kernel_no_client (a : i2c_adapter) : kernel :=
  mk_kernel 0 (Some a) false 0.
Definition kernel_no_misc (a : i2c_adapter) : kernel :=
  mk_kernel 0 (Some a) true (-16).
Definition kernel_no_adapter : kernel :=
  mk_kernel 0 None true 0.

End Lifecycle.

(** ** Arithmetic of the conversions *)

Lemma to_u8_EFAULT : to_u8 (- EFAULT) = 242.
Proof. reflexivity. Qed.

Lemma to_u8_EOPNOTSUPP : to_u8 (- EOPNOTSUPP) = 161.
Proof. reflexivity. Qed.

Lemma to_u8_small (z : Z) : 0 <= z < 256 -> to_u8 z = z.
Proof. intros H. unfold to_u8. apply Z.mod_small. lia. Qed.

Lemma to_u16_small (z : Z) : 0 <= z < 65536 -> to_u16 z = z.
Proof. intros H. unfold to_u16. apply Z.mod_small. lia. Qed.

Lemma to_u32_small (z : Z) : 0 <= z < 2 ^ 32 -> to_u32 z = z.
Proof. intros H. unfold to_u32. apply Z.mod_small. lia. Qed.

Lemma u8_val_range (b : byte) : 0 <= u8_val b <= 255.
Proof.
  unfold u8_val. pose proof (Byte.to_N_bounded b) as Hb.
  split; [apply N2Z.is_nonneg | lia].
Qed.

Lemma decode_expected_eq (m : list byte) :
  decode_expected m = u8_val (nth 4 m x00) * 256 + u8_val (nth 5 m x00).
Proof.
  unfold decode_expected. rewrite Z.shiftl_mul_pow2 by lia. reflexivity.
Qed.

Lemma decode_expected_range (m : list byte) :
  0 <= decode_expected m <= 65535.
Proof.
  rewrite decode_expected_eq.
  pose proof (u8_val_range (nth 4 m x00)).
  pose proof (u8_val_range (nth 5 m x00)). lia.
Qed.

(** ** The memory operations *)

Lemma store_nil (off : Z) (m : list byte) : store off [] m = m.
Proof.
  unfold store. simpl. rewrite Nat.add_0_r. apply firstn_skipn.
Qed.

Lemma store_0 (data m : list byte) :
  store 0 data m = data ++ skipn (length data) m.
Proof. reflexivity. Qed.

Lemma store_length_ge (off : Z) (data m : list byte) :
  (length m <= length (store off data m))%nat.
Proof.
  unfold store. rewrite !length_app, length_firstn, length_skipn. lia.
Qed.

Lemma zeros_length (n : Z) : length (zeros n) = Z.to_nat n.
Proof. apply repeat_length. Qed.

Lemma since_app (w w' : world) (es : list event) :
  trace w' = es ++ trace w -> since w w' = rev es.
Proof.
  intros H. unfold since. rewrite H, length_app.
  replace (length es + length (trace w) - length (trace w))%nat
    with (length es) by lia.
  rewrite firstn_app, Nat.sub_diag, firstn_all. simpl.
  now rewrite app_nil_r.
Qed.

Lemma read_calls_app (a b : list event) :
  read_calls (a ++ b) = read_calls a ++ read_calls b.
Proof.
  induction a as [|e a IH]; simpl; [reflexivity|].
  destruct e; simpl; now rewrite IH.
Qed.

Lemma raw_xfers_app (a b : list event) :
  raw_xfers (a ++ b) = raw_xfers a ++ raw_xfers b.
Proof.
  induction a as [|e a IH]; simpl; [reflexivity|].
  destruct e; simpl; now rewrite IH.
Qed.

Lemma read_calls_xfers (m : i2c_msg) (k : nat) :
  read_calls (repeat (EvXfer m) k) = [].
Proof. induction k; simpl; auto. Qed.

Lemma raw_xfers_repeat (m : i2c_msg) (k : nat) :
  raw_xfers (repeat (EvXfer m) k) = repeat m k.
Proof. induction k; simpl; congruence. Qed.

Lemma rev_repeat {A} (x : A) (k : nat) : rev (repeat x k) = repeat x k.
Proof.
  induction k; simpl; [reflexivity|].
  rewrite IHk. symmetry. apply repeat_cons.
Qed.

(** ** The raw transfer and the retry loop *)

Lemma deliver_length_ge (m : i2c_msg) (r : xfer_reply) (mem : list byte) :
  (length mem <= length (deliver m r mem))%nat.
Proof.
  unfold deliver. destruct (Z.testbit (msg_flags m) 0);
    [apply store_length_ge | lia].
Qed.

Lemma deliver_no_data (m : i2c_msg) (r : xfer_reply) (mem : list byte) :
  reply_data r = [] -> deliver m r mem = mem.
Proof.
  intros H. unfold deliver. rewrite H, firstn_nil, store_nil.
  now destruct (Z.testbit (msg_flags m) 0).
Qed.

Lemma i2c_transfer_some (m : i2c_msg) (w : world) script :
  master_xfer (adapter (client (tpm_dev w))) = Some script ->
  i2c_transfer m w =
  Some (reply_rc (script (xfers w)),
        mk_world
          (mk_dev (client (tpm_dev w))
             (deliver m (script (xfers w)) (buf (tpm_dev w))))
          (S (xfers w)) (slept w) (EvXfer m :: trace w)).
Proof. intros H. unfold i2c_transfer. now rewrite H. Qed.

Lemma i2c_transfer_none (m : i2c_msg) (w : world) :
  master_xfer (adapter (client (tpm_dev w))) = None ->
  i2c_transfer m w = Some (- EOPNOTSUPP, w).
Proof. intros H. unfold i2c_transfer. now rewrite H. Qed.

Lemma i2c_transfer_rc (m : i2c_msg) (w : world) :
  exists w', i2c_transfer m w = Some (next_rc w, w').
Proof.
  unfold i2c_transfer, next_rc.
  destruct (master_xfer (adapter (client (tpm_dev w)))); eauto.
Qed.

Section RetryLoop.

Variable msg1 : i2c_msg.

(** With enough fuel the loop ends, after [S k] transfers: the first [k]
    answers were not positive, and either the last one is positive and
    [trapdoor] stayed below the limit, or none was and [trapdoor] reached
    the limit. *)
Lemma retry_loop_spec :
  forall (fuel : nat) (t : Z) (w : world) script,
    master_xfer (adapter (client (tpm_dev w))) = Some script ->
    0 <= t < trapdoor_limit ->
    (Z.to_nat (trapdoor_limit - t) <= fuel)%nat ->
    exists rc t' w' k,
      retry_loop fuel msg1 t w = Some ((rc, t'), w') /\
      xfers w' = (xfers w + S k)%nat /\
      client (tpm_dev w') = client (tpm_dev w) /\
      trace w' = repeat (EvXfer msg1) (S k) ++ trace w /\
      (length (buf (tpm_dev w)) <= length (buf (tpm_dev w')))%nat /\
      rc = reply_rc (script (xfers w + k)%nat) /\
      (forall i, (i < k)%nat -> reply_rc (script (xfers w + i)%nat) <= 0) /\
      ((0 < rc /\ t' = t + Z.of_nat k /\ t' < trapdoor_limit) \/
       (rc <= 0 /\ t' = trapdoor_limit /\
        t + Z.of_nat (S k) = trapdoor_limit)).
Proof.
  induction fuel as [|fuel IH]; intros t w script Hx Ht Hfuel.
  - exfalso. unfold trapdoor_limit in *. lia.
  - cbn [retry_loop]. unfold bind at 1.
    rewrite (i2c_transfer_some msg1 w script Hx).
    set (w1 := mk_world _ _ _ _).
    destruct (0 <? reply_rc (script (xfers w))) eqn:Hrc.
    + apply Z.ltb_lt in Hrc.
      exists (reply_rc (script (xfers w))), t, w1, 0%nat.
      subst w1. cbn -[deliver]. rewrite Nat.add_0_r, Z.add_0_r.
      repeat split; try reflexivity.
      * lia.
      * apply deliver_length_ge.
      * intros i Hi. lia.
      * left. repeat split; lia.
    + apply Z.ltb_ge in Hrc.
      rewrite to_u32_small by (unfold trapdoor_limit in Ht; lia).
      unfold bind at 1. unfold msleep at 1.
      set (w2 := mk_world _ _ _ _).
      destruct (t + 1 <? trapdoor_limit) eqn:Hlim.
      * apply Z.ltb_lt in Hlim.
        destruct (IH (t + 1) w2 script) as
          (rc & t' & w' & k & Hrun & Hxf & Hcl & Htr & Hlen & Hlast
           & Hfail & Hend).
        { exact Hx. }
        { lia. }
        { unfold trapdoor_limit in *. lia. }
        exists rc, t', w', (S k).
        rewrite Hrun. subst w2 w1.
        cbn -[deliver] in Hxf, Hcl, Htr, Hlen, Hlast, Hfail.
        repeat split.
        -- rewrite Hxf. lia.
        -- exact Hcl.
        -- rewrite Htr. cbn [repeat]. rewrite (repeat_cons k).
           cbn [app]. rewrite <- app_assoc. reflexivity.
        -- etransitivity; [|exact Hlen]. apply deliver_length_ge.
        -- rewrite Hlast. f_equal. f_equal. lia.
        -- intros i Hi. destruct i as [|i].
           ++ now rewrite Nat.add_0_r.
           ++ replace (xfers w + S i)%nat with (S (xfers w + i)) by lia.
              apply Hfail. lia.
        -- destruct Hend as [(H1 & H2 & H3) | (H1 & H2 & H3)].
           ++ left. repeat split; lia.
           ++ right. repeat split; lia.
      * apply Z.ltb_ge in Hlim.
        exists (reply_rc (script (xfers w))), (t + 1), w2, 0%nat.
        subst w2 w1. cbn -[deliver]. rewrite Nat.add_0_r.
        repeat split; try reflexivity.
        -- lia.
        -- apply deliver_length_ge.
        -- intros i Hi. lia.
        -- right. repeat split; lia.
Qed.

(** A loop whose answers carry no bytes leaves the memory as it is. *)
Lemma retry_loop_no_data :
  forall (fuel : nat) (t : Z) (w : world) script r w',
    master_xfer (adapter (client (tpm_dev w))) = Some script ->
    (forall i, (i < fuel)%nat ->
               reply_data (script (xfers w + i)%nat) = []) ->
    retry_loop fuel msg1 t w = Some (r, w') ->
    buf (tpm_dev w') = buf (tpm_dev w).
Proof.
  induction fuel as [|fuel IH]; intros t w script r w' Hx Hnil Hrun.
  - discriminate.
  - cbn [retry_loop] in Hrun. unfold bind at 1 in Hrun.
    rewrite (i2c_transfer_some msg1 w script Hx) in Hrun.
    assert (H0 : reply_data (script (xfers w)) = []).
    { rewrite <- (Nat.add_0_r (xfers w)). apply Hnil. lia. }
    rewrite (deliver_no_data _ _ _ H0) in Hrun.
    destruct (0 <? reply_rc (script (xfers w))).
    + inversion Hrun; subst. reflexivity.
    + unfold bind at 1 in Hrun. unfold msleep at 1 in Hrun.
      destruct (to_u32 (t + 1) <? trapdoor_limit).
      * apply IH with (script := script) in Hrun.
        -- rewrite Hrun. reflexivity.
        -- exact Hx.
        -- intros i Hi. cbn [xfers].
           replace (S (xfers w) + i)%nat with (xfers w + S i)%nat by lia.
           apply Hnil. lia.
      * inversion Hrun; subst. reflexivity.
Qed.

End RetryLoop.

(** ** The bounded-retry read *)

(** Without a transfer routine the call returns at once, with
    [-EOPNOTSUPP] converted to [u8]. *)
Lemma tpm_i2c_read_unsupported (buffer len : Z) (w : world) :
  master_xfer (adapter (client (tpm_dev w))) = None ->
  tpm_i2c_read buffer len w =
  Some (to_u8 (- EOPNOTSUPP), push (EvRetryRead buffer len) w).
Proof.
  intros H. unfold tpm_i2c_read, bind, log, gets, push. cbn [tpm_dev].
  now rewrite H.
Qed.

Lemma tpm_i2c_read_spec (buffer len : Z) (w : world) script :
  master_xfer (adapter (client (tpm_dev w))) = Some script ->
  exists rc t' w' k,
    tpm_i2c_read buffer len w =
      Some (if trapdoor_limit <=? t' then to_u8 (- EFAULT) else to_u8 rc,
            w') /\
    xfers w' = (xfers w + S k)%nat /\
    client (tpm_dev w') = client (tpm_dev w) /\
    trace w' =
      repeat (EvXfer (mk_msg (addr (client (tpm_dev w))) I2C_M_RD
                             (to_u16 len) buffer)) (S k)
      ++ EvRetryRead buffer len :: trace w /\
    (length (buf (tpm_dev w)) <= length (buf (tpm_dev w')))%nat /\
    rc = reply_rc (script (xfers w + k)%nat) /\
    (forall i, (i < k)%nat -> reply_rc (script (xfers w + i)%nat) <= 0) /\
    ((0 < rc /\ t' < trapdoor_limit /\ (k < Z.to_nat trapdoor_limit)%nat) \/
     (rc <= 0 /\ t' = trapdoor_limit /\ S k = Z.to_nat trapdoor_limit)).
Proof.
  intros Hx.
  set (w0 := mk_world (tpm_dev w) (xfers w) (slept w)
                      (EvRetryRead buffer len :: trace w)).
  destruct (retry_loop_spec
              (mk_msg (addr (client (tpm_dev w))) I2C_M_RD (to_u16 len) buffer)
              (Z.to_nat trapdoor_limit) 0 w0 script)
    as (rc & t' & w' & k & Hrun & Hxf & Hcl & Htr & Hlen & Hlast & Hfail
        & Hend).
  { exact Hx. }
  { unfold trapdoor_limit. lia. }
  { unfold trapdoor_limit. lia. }
  exists rc, t', w', k.
  split.
  { unfold tpm_i2c_read, bind, log, gets, push. cbn [tpm_dev]. rewrite Hx.
    fold w0. rewrite Hrun.
    destruct (trapdoor_limit <=? t'); reflexivity. }
  subst w0. cbn [xfers tpm_dev trace] in *.
  repeat split; try assumption.
  destruct Hend as [(H1 & H2 & H3) | (H1 & H2 & H3)].
  - left. repeat split; try assumption. unfold trapdoor_limit in *. lia.
  - right. repeat split; try assumption. unfold trapdoor_limit in *. lia.
Qed.

(** [tpm_i2c_read] always returns; it only adds its own call and raw
    transfers of its message to the events, leaves the client alone and
    does not shrink the memory. *)
Lemma tpm_i2c_read_total (buffer len : Z) (w : world) :
  exists rc w' k,
    tpm_i2c_read buffer len w = Some (rc, w') /\
    xfers w' = (xfers w + k)%nat /\
    client (tpm_dev w') = client (tpm_dev w) /\
    trace w' =
      repeat (EvXfer (mk_msg (addr (client (tpm_dev w))) I2C_M_RD
                             (to_u16 len) buffer)) k
      ++ EvRetryRead buffer len :: trace w /\
    (length (buf (tpm_dev w)) <= length (buf (tpm_dev w')))%nat.
Proof.
  destruct (master_xfer (adapter (client (tpm_dev w)))) as [script|] eqn:Hx.
  - destruct (tpm_i2c_read_spec buffer len w script Hx)
      as (rc & t' & w' & k & Hrun & Hxf & Hcl & Htr & Hlen & _).
    eexists _, w', (S k). repeat split; eassumption.
  - rewrite (tpm_i2c_read_unsupported buffer len w Hx).
    eexists _, _, 0%nat. cbn. repeat split; auto.
Qed.

(** Every one of the [trapdoor_limit] attempts fails: the loop gives up
    after exactly that many transfers and the [u8] result is [-EFAULT]
    reduced modulo 256. *)
Lemma tpm_i2c_read_exhausted (buffer len : Z) (w : world) script :
  master_xfer (adapter (client (tpm_dev w))) = Some script ->
  (forall i, (i < Z.to_nat trapdoor_limit)%nat ->
             reply_rc (script (xfers w + i)%nat) <= 0) ->
  exists w',
    tpm_i2c_read buffer len w = Some (to_u8 (- EFAULT), w') /\
    xfers w' = (xfers w + Z.to_nat trapdoor_limit)%nat /\
    client (tpm_dev w') = client (tpm_dev w) /\
    trace w' =
      repeat (EvXfer (mk_msg (addr (client (tpm_dev w))) I2C_M_RD
                             (to_u16 len) buffer)) (Z.to_nat trapdoor_limit)
      ++ EvRetryRead buffer len :: trace w.
Proof.
  intros Hx Hall.
  destruct (tpm_i2c_read_spec buffer len w script Hx)
    as (rc & t' & w' & k & Hrun & Hxf & Hcl & Htr & Hlen & Hlast & Hfail
        & Hend).
  destruct Hend as [(H1 & H2 & Hk) | (H1 & H2 & H3)].
  - exfalso. specialize (Hall k Hk). lia.
  - exists w'. rewrite Hrun, H2, Z.leb_refl, <- H3.
    repeat split; assumption.
Qed.

(** The attempt number [k] (from 0) is the first with a positive answer:
    the loop stops there, after [k + 1] transfers, and the [u8] result is
    that answer reduced modulo 256. *)
Lemma tpm_i2c_read_first_positive (buffer len : Z) (w : world) script k :
  master_xfer (adapter (client (tpm_dev w))) = Some script ->
  (k < Z.to_nat trapdoor_limit)%nat ->
  (forall i, (i < k)%nat -> reply_rc (script (xfers w + i)%nat) <= 0) ->
  0 < reply_rc (script (xfers w + k)%nat) ->
  exists w',
    tpm_i2c_read buffer len w =
      Some (to_u8 (reply_rc (script (xfers w + k)%nat)), w') /\
    xfers w' = (xfers w + S k)%nat /\
    client (tpm_dev w') = client (tpm_dev w) /\
    trace w' =
      repeat (EvXfer (mk_msg (addr (client (tpm_dev w))) I2C_M_RD
                             (to_u16 len) buffer)) (S k)
      ++ EvRetryRead buffer len :: trace w.
Proof.
  intros Hx Hk Hbefore Hpos.
  destruct (tpm_i2c_read_spec buffer len w script Hx)
    as (rc & t' & w' & k' & Hrun & Hxf & Hcl & Htr & Hlen & Hlast & Hfail
        & Hend).
  assert (Hkk : k' = k).
  { destruct (Nat.lt_trichotomy k' k) as [Hlt | [Heq | Hgt]].
    - exfalso. specialize (Hbefore k' Hlt).
      destruct Hend as [(H1 & H2) | (H1 & H2 & H3)].
      + lia.
      + lia.
    - exact Heq.
    - exfalso. specialize (Hfail k Hgt). lia. }
  subst k'.
  destruct Hend as [(H1 & H2 & _) | (H1 & H2 & H3)]; [|lia].
  exists w'. rewrite Hrun.
  apply Z.leb_gt in H2. rewrite H2, Hlast.
  repeat split; assumption.
Qed.

(** ** The zero fill and the copies *)

Lemma memset_run (w : world) :
  memset 0 TPM_BUFSIZE w =
  Some (tt, with_buf (zeros TPM_BUFSIZE
                        ++ skipn (Z.to_nat TPM_BUFSIZE) (buf (tpm_dev w)))
                     (push (EvMemset 0 TPM_BUFSIZE) w)).
Proof.
  unfold memset, bind, log, gets, set_buf, with_buf, push. cbn [tpm_dev buf].
  rewrite store_0, zeros_length. reflexivity.
Qed.

Lemma copy_to_user_run (ubuf : list byte) (n : Z) (w : world) :
  copy_to_user ubuf 0 n w =
  Some ((n - Z.min n (Z.of_nat (length ubuf)),
         delivered ubuf n (buf (tpm_dev w))),
        push (EvCopyToUser 0 n) w).
Proof. reflexivity. Qed.

Lemma copy_from_user_run (ubuf : list byte) (n : Z) (w : world) :
  copy_from_user 0 ubuf n w =
  Some (n - Z.min n (Z.of_nat (length ubuf)),
        with_buf
          (store 0 (firstn (Z.to_nat (Z.min n (Z.of_nat (length ubuf)))) ubuf
                      ++ zeros (n - Z.min n (Z.of_nat (length ubuf))))
                   (buf (tpm_dev w)))
          (push (EvCopyFromUser 0 n) w)).
Proof. reflexivity. Qed.

Lemma zeros_nth (n : Z) (i : nat) (rest : list byte) :
  (i < Z.to_nat n)%nat -> nth i (zeros n ++ rest) x00 = x00.
Proof.
  intros Hi. unfold zeros. rewrite app_nth1 by (now rewrite repeat_length).
  apply nth_repeat.
Qed.

Lemma decode_expected_zeros (rest : list byte) :
  decode_expected (zeros TPM_BUFSIZE ++ rest) = 0.
Proof.
  rewrite decode_expected_eq.
  rewrite !zeros_nth by (unfold TPM_BUFSIZE; lia). reflexivity.
Qed.

(** ** The header phase *)

Lemma header_phase_run (w : world) :
  header_phase w =
  tpm_i2c_read 0 TPM_HEADER_SIZE
    (with_buf (zeros TPM_BUFSIZE
                 ++ skipn (Z.to_nat TPM_BUFSIZE) (buf (tpm_dev w)))
              (push (EvMemset 0 TPM_BUFSIZE) w)).
Proof. unfold header_phase, bind. now rewrite memset_run. Qed.

(** The header phase always returns.  It starts with the zero fill, calls
    [tpm_i2c_read] once, and leaves at least the whole array in memory. *)
Lemma header_phase_total (w : world) :
  exists rc w1 k,
    header_phase w = Some (rc, w1) /\
    xfers w1 = (xfers w + k)%nat /\
    client (tpm_dev w1) = client (tpm_dev w) /\
    trace w1 =
      repeat (EvXfer (read_msg w 0 TPM_HEADER_SIZE)) k
      ++ EvRetryRead 0 TPM_HEADER_SIZE :: EvMemset 0 TPM_BUFSIZE :: trace w /\
    (Z.to_nat TPM_BUFSIZE <= length (buf (tpm_dev w1)))%nat.
Proof.
  rewrite header_phase_run.
  destruct (tpm_i2c_read_total 0 TPM_HEADER_SIZE
              (with_buf (zeros TPM_BUFSIZE
                           ++ skipn (Z.to_nat TPM_BUFSIZE) (buf (tpm_dev w)))
                        (push (EvMemset 0 TPM_BUFSIZE) w)))
    as (rc & w1 & k & Hrun & Hxf & Hcl & Htr & Hlen).
  exists rc, w1, k. cbn [with_buf push tpm_dev xfers trace client buf] in *.
  repeat split; try assumption.
  etransitivity; [|exact Hlen].
  rewrite length_app, zeros_length. lia.
Qed.

(** [tpm_tis_i2c_read] from the end of its header phase: the second read
    when the decoded length is above [TPM_HEADER_SIZE], then the copy to
    the caller. *)
Lemma tpm_tis_i2c_read_unfold (ubuf : list byte) (count : Z) (w : world)
      (rc1 : Z) (w1 : world) :
  header_phase w = Some (rc1, w1) ->
  tpm_tis_i2c_read ubuf count w =
  match (if decode_expected (buf (tpm_dev w1)) <=? TPM_HEADER_SIZE
         then ret rc1
         else tpm_i2c_read 0 (decode_expected (buf (tpm_dev w1)))) w1 with
  | Some (_, w2) =>
      let expected := decode_expected (buf (tpm_dev w1)) in
      Some ((if expected <=? Z.of_nat (length ubuf)
             then expected else - EFAULT,
             delivered ubuf expected (buf (tpm_dev w2))),
            push (EvCopyToUser 0 expected) w2)
  | None => None
  end.
Proof.
  intros Hh. unfold header_phase, bind in Hh.
  unfold tpm_tis_i2c_read. unfold bind at 1.
  destruct (memset 0 TPM_BUFSIZE w) as [[[] wz]|]; [|discriminate].
  unfold bind at 1. rewrite Hh.
  unfold bind at 1. unfold gets at 1.
  unfold bind at 1.
  destruct ((if decode_expected (buf (tpm_dev w1)) <=? TPM_HEADER_SIZE
             then ret rc1
             else tpm_i2c_read 0 (decode_expected (buf (tpm_dev w1)))) w1)
    as [[rc2 w2]|]; [|reflexivity].
  unfold bind. rewrite copy_to_user_run.
  pose proof (decode_expected_range (buf (tpm_dev w1))) as Hr.
  destruct (decode_expected (buf (tpm_dev w1)) <=? Z.of_nat (length ubuf))
    eqn:Hfit.
  - apply Z.leb_le in Hfit. rewrite Z.min_l by exact Hfit.
    rewrite Z.sub_diag. reflexivity.
  - apply Z.leb_gt in Hfit. rewrite Z.min_r by lia.
    replace (_ - _ =? 0) with false; [reflexivity|].
    symmetry. apply Z.eqb_neq. lia.
Qed.

(** The whole of [tpm_tis_i2c_read] after its header phase.  With a decoded
    length of at most [TPM_HEADER_SIZE] nothing happens but the copy; above
    it, [tpm_i2c_read] is called once more, for that length and at the base
    of the array, before the copy.  The result is the decoded length when
    the caller's memory takes the copy and [-EFAULT] when it does not. *)
Lemma tpm_tis_i2c_read_shape (ubuf : list byte) (count : Z) (w : world)
      (rc1 : Z) (w1 : world) :
  header_phase w = Some (rc1, w1) ->
  exists w' k,
    tpm_tis_i2c_read ubuf count w =
      Some ((if decode_expected (buf (tpm_dev w1))
                 <=? Z.of_nat (length ubuf)
             then decode_expected (buf (tpm_dev w1)) else - EFAULT,
             delivered ubuf (decode_expected (buf (tpm_dev w1)))
                       (buf (tpm_dev w'))),
            w') /\
    trace w' =
      EvCopyToUser 0 (decode_expected (buf (tpm_dev w1)))
      :: (if decode_expected (buf (tpm_dev w1)) <=? TPM_HEADER_SIZE
          then []
          else repeat (EvXfer (read_msg w1 0
                                 (decode_expected (buf (tpm_dev w1))))) k
               ++ [EvRetryRead 0 (decode_expected (buf (tpm_dev w1)))])
      ++ trace w1 /\
    xfers w' =
      (xfers w1
       + (if (decode_expected (buf (tpm_dev w1)) <=? TPM_HEADER_SIZE)%Z
          then 0 else k))%nat /\
    (decode_expected (buf (tpm_dev w1)) <= TPM_HEADER_SIZE ->
     buf (tpm_dev w') = buf (tpm_dev w1)) /\
    (length (buf (tpm_dev w1)) <= length (buf (tpm_dev w')))%nat /\
    client (tpm_dev w') = client (tpm_dev w1).
Proof.
  intros Hh. rewrite (tpm_tis_i2c_read_unfold ubuf count w rc1 w1 Hh).
  destruct (decode_expected (buf (tpm_dev w1)) <=? TPM_HEADER_SIZE) eqn:Hshort.
  - exists (push (EvCopyToUser 0 (decode_expected (buf (tpm_dev w1)))) w1),
      0%nat.
    cbn [ret push tpm_dev buf xfers trace app].
    rewrite Nat.add_0_r. repeat split; auto.
  - destruct (tpm_i2c_read_total 0 (decode_expected (buf (tpm_dev w1))) w1)
      as (rc2 & w2 & k & Hrun & Hxf & Hcl & Htr & Hlen).
    rewrite Hrun.
    exists (push (EvCopyToUser 0 (decode_expected (buf (tpm_dev w1)))) w2), k.
    cbn [push tpm_dev buf xfers trace].
    repeat split; auto.
    + rewrite Htr. unfold read_msg. rewrite <- app_assoc. reflexivity.
    + apply Z.leb_gt in Hshort. intros Hle. lia.
Qed.

(** The events of a run of [tpm_tis_i2c_read], in order. *)
Lemma tpm_tis_i2c_read_events (ubuf : list byte) (count : Z) (w : world)
      (rc1 : Z) (w1 : world) r w' :
  header_phase w = Some (rc1, w1) ->
  tpm_tis_i2c_read ubuf count w = Some (r, w') ->
  exists k1 k2,
    since w w' =
      read_events (addr (client (tpm_dev w))) k1 k2
                  (decode_expected (buf (tpm_dev w1))) /\
    xfers w1 = (xfers w + k1)%nat /\
    xfers w' =
      (xfers w1
       + (if (decode_expected (buf (tpm_dev w1)) <=? TPM_HEADER_SIZE)%Z
          then 0 else k2))%nat.
Proof.
  intros Hh Hrun.
  destruct (header_phase_total w)
    as (rc & w1' & k1 & Hh' & Hxf1 & Hcl1 & Htr1 & _).
  rewrite Hh in Hh'. inversion Hh'; subst rc w1'. clear Hh'.
  destruct (tpm_tis_i2c_read_shape ubuf count w rc1 w1 Hh)
    as (w2 & k2 & Hrun' & Htr2 & Hxf2 & _).
  rewrite Hrun in Hrun'. inversion Hrun'; subst r w'. clear Hrun'.
  exists k1, k2. repeat split; try assumption.
  pose proof (decode_expected_range (buf (tpm_dev w1))) as Hr.
  rewrite Htr1 in Htr2.
  rewrite (since_app w w2
             (EvCopyToUser 0 (decode_expected (buf (tpm_dev w1)))
              :: (if decode_expected (buf (tpm_dev w1)) <=? TPM_HEADER_SIZE
                  then []
                  else repeat (EvXfer (read_msg w1 0
                                 (decode_expected (buf (tpm_dev w1))))) k2
                       ++ [EvRetryRead 0
                             (decode_expected (buf (tpm_dev w1)))])
              ++ repeat (EvXfer (read_msg w 0 TPM_HEADER_SIZE)) k1
              ++ [EvRetryRead 0 TPM_HEADER_SIZE; EvMemset 0 TPM_BUFSIZE])).
  2:{ rewrite Htr2. cbn [app]. rewrite <- !app_assoc. reflexivity. }
  cbn [rev]. rewrite !rev_app_distr. cbn [rev app].
  unfold read_events. do 2 f_equal.
  rewrite rev_repeat, <- app_assoc.
  change (read_msg w 0 TPM_HEADER_SIZE)
    with (mk_msg (addr (client (tpm_dev w))) I2C_M_RD TPM_HEADER_SIZE 0).
  apply (f_equal (app _)). apply (f_equal (fun l => l ++ _)).
  destruct (decode_expected (buf (tpm_dev w1)) <=? TPM_HEADER_SIZE).
  - reflexivity.
  - rewrite rev_app_distr, rev_repeat. cbn [rev app].
    unfold read_msg. rewrite Hcl1, to_u16_small by lia. reflexivity.
Qed.

Lemma read_events_calls (a : Z) (k1 k2 : nat) (expected : Z) :
  read_calls (read_events a k1 k2 expected) =
  (0, TPM_HEADER_SIZE)
  :: (if expected <=? TPM_HEADER_SIZE then [] else [(0, expected)]).
Proof.
  unfold read_events. cbn [read_calls].
  rewrite !read_calls_app, read_calls_xfers. cbn [app]. f_equal.
  destruct (expected <=? TPM_HEADER_SIZE); cbn [read_calls app].
  - reflexivity.
  - rewrite read_calls_xfers. reflexivity.
Qed.

Lemma tpm_i2c_read_no_data (buffer len : Z) (w : world) script rc w' :
  master_xfer (adapter (client (tpm_dev w))) = Some script ->
  (forall i, (i < Z.to_nat trapdoor_limit)%nat ->
             reply_data (script (xfers w + i)%nat) = []) ->
  tpm_i2c_read buffer len w = Some (rc, w') ->
  buf (tpm_dev w') = buf (tpm_dev w).
Proof.
  intros Hx Hnil Hrun.
  unfold tpm_i2c_read, bind, log, gets, push in Hrun.
  cbn [tpm_dev] in Hrun.
  rewrite Hx in Hrun.
  destruct (retry_loop _ _ _ _) as [[[rc0 t'] w0]|] eqn:Hloop;
    [|discriminate].
  apply retry_loop_no_data with (script := script) in Hloop.
  - cbn [tpm_dev] in Hloop.
    destruct (trapdoor_limit <=? t'); inversion Hrun; subst; exact Hloop.
  - exact Hx.
  - exact Hnil.
Qed.

Lemma decode_expected_bytes (m : list byte) (b4 b5 : byte) :
  nth_error m 4 = Some b4 -> nth_error m 5 = Some b5 ->
  decode_expected m = u8_val b4 * 256 + u8_val b5.
Proof.
  intros H4 H5. rewrite decode_expected_eq.
  now rewrite (nth_error_nth m 4 x00 H4), (nth_error_nth m 5 x00 H5).
Qed.

Lemma device_buffer_nth_error (w : world) (i : nat) :
  (i < Z.to_nat TPM_BUFSIZE)%nat ->
  nth_error (device_buffer w) i = nth_error (buf (tpm_dev w)) i.
Proof.
  intros Hi. unfold device_buffer. rewrite nth_error_firstn.
  apply Nat.ltb_lt in Hi. now rewrite Hi.
Qed.

Lemma delivered_nothing (ubuf m : list byte) : delivered ubuf 0 m = ubuf.
Proof.
  unfold delivered, load. rewrite Z.min_l by lia. reflexivity.
Qed.

Lemma delivered_fits (ubuf : list byte) (n : Z) (m : list byte) :
  n <= Z.of_nat (length ubuf) ->
  delivered ubuf n m = load 0 n m ++ skipn (Z.to_nat n) ubuf.
Proof. intros H. unfold delivered. now rewrite Z.min_l. Qed.

(** On an adapter whose transfers all report a positive result, each call
    of [tpm_i2c_read] is one raw transfer, so a run of [tpm_tis_i2c_read]
    performs one raw transfer for the header and one more exactly when the
    decoded length is above [TPM_HEADER_SIZE]. *)
Lemma read_events_short (a : Z) (k1 k2 k2' : nat) (expected : Z) :
  expected <= TPM_HEADER_SIZE ->
  read_events a k1 k2 expected = read_events a k1 k2' expected.
Proof.
  intros H. unfold read_events. apply Z.leb_le in H. now rewrite H.
Qed.

Lemma tpm_tis_i2c_read_ready (ubuf : list byte) (count : Z) (w : world)
      script (rc1 : Z) (w1 : world) r w' :
  master_xfer (adapter (client (tpm_dev w))) = Some script ->
  (forall n, 0 < reply_rc (script n)) ->
  header_phase w = Some (rc1, w1) ->
  tpm_tis_i2c_read ubuf count w = Some (r, w') ->
  since w w' =
    read_events (addr (client (tpm_dev w))) 1 1
                (decode_expected (buf (tpm_dev w1))).
Proof.
  intros Hx Hready Hh Hrun.
  destruct (tpm_tis_i2c_read_events ubuf count w rc1 w1 r w' Hh Hrun)
    as (k1 & k2 & Hev & Hx1 & Hx2).
  assert (Hk1 : k1 = 1%nat).
  { pose proof Hh as Hh'. rewrite header_phase_run in Hh'.
    destruct (tpm_i2c_read_first_positive 0 TPM_HEADER_SIZE
                (with_buf (zeros TPM_BUFSIZE
                             ++ skipn (Z.to_nat TPM_BUFSIZE)
                                  (buf (tpm_dev w)))
                          (push (EvMemset 0 TPM_BUFSIZE) w))
                script 0 Hx)
      as (w1' & Hr1 & Hxf & _); [unfold trapdoor_limit; lia | lia
                                | apply Hready |].
    rewrite Hr1 in Hh'. inversion Hh'; subst w1'.
    cbn [with_buf push xfers] in Hxf. lia. }
  subst k1. rewrite Hev.
  destruct (decode_expected (buf (tpm_dev w1)) <=? TPM_HEADER_SIZE) eqn:Hs.
  - apply read_events_short. now apply Z.leb_le.
  - f_equal.
    destruct (header_phase_total w) as (rc & w1' & k & Hh' & _ & Hcl & _).
    rewrite Hh in Hh'. inversion Hh'; subst rc w1'. clear Hh'.
    rewrite <- Hcl in Hx.
    rewrite (tpm_tis_i2c_read_unfold ubuf count w rc1 w1 Hh), Hs in Hrun.
    destruct (tpm_i2c_read_first_positive 0
                (decode_expected (buf (tpm_dev w1))) w1 script 0 Hx)
      as (w2 & Hr2 & Hxf & _); [unfold trapdoor_limit; lia | lia
                                | apply Hready |].
    rewrite Hr2 in Hrun. inversion Hrun; subst w'.
    cbn [push xfers] in Hx2. lia.
Qed.

(** ** The read operation *)

(** C2: whatever bytes [b4] and [b5] the array holds at offsets 4 and 5
    after the header read, [tpm_tis_i2c_read] decodes the length
    [b4 * 256 + b5] (big endian): this is the length it hands to
    [copy_to_user], its last action, and the value it returns when the copy
    succeeds.  The bytes [0x00, 0x00] decode to 0 and [0xff, 0xff] to
    65535. *)
Theorem header_length_decoding
        (ubuf : list byte) (count : Z) (w : world) (rc1 : Z) (w1 : world)
        (b4 b5 : byte) :
  header_phase w = Some (rc1, w1) ->
  nth_error (device_buffer w1) 4 = Some b4 ->
  nth_error (device_buffer w1) 5 = Some b5 ->
  decode_expected (buf (tpm_dev w1)) = u8_val b4 * 256 + u8_val b5 /\
  (exists ubuf' w',
      tpm_tis_i2c_read ubuf count w =
        Some ((if u8_val b4 * 256 + u8_val b5 <=? Z.of_nat (length ubuf)
               then u8_val b4 * 256 + u8_val b5 else - EFAULT, ubuf'),
              w') /\
      hd_error (trace w') =
        Some (EvCopyToUser 0 (u8_val b4 * 256 + u8_val b5))) /\
  decode_expected (header x00 x00) = 0 /\
  decode_expected (header xff xff) = 65535.
Proof.
  intros Hh H4 H5.
  rewrite device_buffer_nth_error in H4 by (unfold TPM_BUFSIZE; lia).
  rewrite device_buffer_nth_error in H5 by (unfold TPM_BUFSIZE; lia).
  pose proof (decode_expected_bytes _ _ _ H4 H5) as Hd.
  split; [exact Hd|]. split; [|split; reflexivity].
  destruct (tpm_tis_i2c_read_shape ubuf count w rc1 w1 Hh)
    as (w' & k & Hrun & Htr & _).
  rewrite Hd in Hrun, Htr.
  eexists _, w'. split; [exact Hrun|].
  rewrite Htr. reflexivity.
Qed.

(** C3: let [total_length] be the length decoded after the header read.
    When [total_length <= 6], [tpm_tis_i2c_read] calls [tpm_i2c_read] once,
    for the six header bytes, and performs no transfer after the header
    phase; when [total_length > 6] it calls it twice, the second time for
    [total_length] bytes at offset 0 of the array, every raw transfer of
    that call asking for [total_length] bytes there; on an adapter whose
    transfers all succeed these are exactly one and exactly two raw
    transfers.  In both cases it then copies [total_length] bytes from the
    base of the array to the caller: when the caller's memory takes them
    the function returns [total_length] (and [-EFAULT] when it does not). *)
Theorem read_one_or_two_bus_reads
        (ubuf : list byte) (count : Z) (w : world) (rc1 : Z) (w1 : world) :
  header_phase w = Some (rc1, w1) ->
  exists w' k1 k2,
    tpm_tis_i2c_read ubuf count w =
      Some ((if decode_expected (buf (tpm_dev w1))
                 <=? Z.of_nat (length ubuf)
             then decode_expected (buf (tpm_dev w1)) else - EFAULT,
             delivered ubuf (decode_expected (buf (tpm_dev w1)))
                       (buf (tpm_dev w'))),
            w') /\
    since w w' =
      read_events (addr (client (tpm_dev w))) k1 k2
                  (decode_expected (buf (tpm_dev w1))) /\
    read_calls (since w w') =
      (if decode_expected (buf (tpm_dev w1)) <=? TPM_HEADER_SIZE
       then [(0, TPM_HEADER_SIZE)]
       else [(0, TPM_HEADER_SIZE);
             (0, decode_expected (buf (tpm_dev w1)))]) /\
    xfers w' =
      (xfers w1
       + (if (decode_expected (buf (tpm_dev w1)) <=? TPM_HEADER_SIZE)%Z
          then 0 else k2))%nat /\
    (forall script,
        master_xfer (adapter (client (tpm_dev w))) = Some script ->
        (forall n, 0 < reply_rc (script n)) ->
        since w w' =
          read_events (addr (client (tpm_dev w))) 1 1
                      (decode_expected (buf (tpm_dev w1)))).
Proof.
  intros Hh.
  destruct (tpm_tis_i2c_read_shape ubuf count w rc1 w1 Hh)
    as (w' & k & Hrun & _).
  destruct (tpm_tis_i2c_read_events ubuf count w rc1 w1 _ w' Hh Hrun)
    as (k1 & k2 & Hev & Hx1 & Hx2).
  exists w', k1, k2.
  split; [exact Hrun|]. split; [exact Hev|]. split; [|split; [exact Hx2|]].
  - rewrite Hev, read_events_calls.
    destruct (decode_expected (buf (tpm_dev w1)) <=? TPM_HEADER_SIZE);
      reflexivity.
  - intros script Hx Hready.
    exact (tpm_tis_i2c_read_ready ubuf count w script rc1 w1 _ w'
             Hx Hready Hh Hrun).
Qed.

(** C8: [tpm_tis_i2c_read] returns, and for two values of [count] and the
    same world it yields the same result, the same bytes in the caller's
    memory and the same final world (memory, transfers performed and
    events). *)
Theorem read_ignores_count
        (ubuf : list byte) (count1 count2 : Z) (w : world) :
  exists r w',
    tpm_tis_i2c_read ubuf count1 w = Some (r, w') /\
    tpm_tis_i2c_read ubuf count2 w = Some (r, w').
Proof.
  destruct (header_phase_total w) as (rc1 & w1 & k & Hh & _).
  destruct (tpm_tis_i2c_read_shape ubuf count1 w rc1 w1 Hh)
    as (w' & k' & Hrun & _).
  eexists _, w'. split; exact Hrun.
Qed.

(** C9: when the adapter has a transfer routine and each of the 60000
    attempts of the header read fails without storing a byte, the header
    phase yields the truncated [-EFAULT] of [tpm_i2c_read], which
    [tpm_tis_i2c_read] ignores: it decodes the length 0 from the zeroed
    array, does not call [tpm_i2c_read] again, performs no further
    transfer, leaves the caller's memory as it is and returns 0. *)
Theorem header_failure_returns_zero
        (ubuf : list byte) (count : Z) (w : world) script :
  master_xfer (adapter (client (tpm_dev w))) = Some script ->
  (forall i, (i < Z.to_nat trapdoor_limit)%nat ->
             reply_rc (script (xfers w + i)%nat) <= 0 /\
             reply_data (script (xfers w + i)%nat) = []) ->
  exists w1 w',
    header_phase w = Some (to_u8 (- EFAULT), w1) /\
    decode_expected (buf (tpm_dev w1)) = 0 /\
    tpm_tis_i2c_read ubuf count w = Some ((0, ubuf), w') /\
    read_calls (since w w') = [(0, TPM_HEADER_SIZE)] /\
    xfers w' = (xfers w + Z.to_nat trapdoor_limit)%nat.
Proof.
  intros Hx Hall.
  pose proof (header_phase_run w) as Hhr.
  set (wz := with_buf _ _) in Hhr.
  destruct (tpm_i2c_read_exhausted 0 TPM_HEADER_SIZE wz script)
    as (w1 & Hrun1 & Hxf1 & _).
  { exact Hx. }
  { intros i Hi. apply Hall. exact Hi. }
  assert (Hbuf : buf (tpm_dev w1) = buf (tpm_dev wz)).
  { apply (tpm_i2c_read_no_data 0 TPM_HEADER_SIZE wz script
                                 (to_u8 (- EFAULT)) w1 Hx); [|exact Hrun1].
    intros i Hi. apply Hall. exact Hi. }
  rewrite Hrun1 in Hhr.
  assert (Hd : decode_expected (buf (tpm_dev w1)) = 0).
  { rewrite Hbuf. subst wz. cbn [with_buf tpm_dev buf].
    apply decode_expected_zeros. }
  destruct (tpm_tis_i2c_read_shape ubuf count w _ w1 Hhr)
    as (w' & k & Hrun & _).
  destruct (tpm_tis_i2c_read_events ubuf count w _ w1 _ w' Hhr Hrun)
    as (k1 & k2 & Hev & Hx1 & Hx2).
  rewrite Hd in Hrun, Hev, Hx2. rewrite delivered_nothing in Hrun.
  replace (0 <=? Z.of_nat (length ubuf)) with true in Hrun
    by (symmetry; apply Z.leb_le; lia).
  exists w1, w'.
  split; [exact Hhr|]. split; [exact Hd|]. split; [exact Hrun|]. split.
  - rewrite Hev. apply read_events_calls.
  - cbn in Hx2. rewrite Hx2, Nat.add_0_r, Hxf1. reflexivity.
Qed.

(** ** The write operation *)

Lemma skipn_repeat {A} (x : A) (n m : nat) :
  skipn n (repeat x m) = repeat x (m - n).
Proof.
  revert m. induction n as [|n IH]; intros m.
  - now rewrite Nat.sub_0_r.
  - destruct m as [|m]; [reflexivity|]. cbn. apply IH.
Qed.

(** Above [TPM_BUFSIZE] the write is refused before anything happens. *)
Lemma tpm_tis_i2c_write_too_long (ubuf : list byte) (count : Z) (w : world) :
  TPM_BUFSIZE < count ->
  tpm_tis_i2c_write ubuf count w = Some (- EINVAL, w).
Proof.
  intros H. unfold tpm_tis_i2c_write, bind, gets.
  apply Z.ltb_lt in H. now rewrite H.
Qed.

(** Up to [TPM_BUFSIZE]: the array is staged, and either the copy from the
    caller falls short ([-EFAULT]) or one transfer decides the result. *)
Lemma tpm_tis_i2c_write_unfold (ubuf : list byte) (count : Z) (w : world) :
  count <= TPM_BUFSIZE ->
  tpm_tis_i2c_write ubuf count w =
  if count <=? Z.of_nat (length ubuf)
  then match i2c_transfer (write_msg w count) (staged ubuf count w) with
       | Some (rc, w') => Some (if rc <=? 0 then - EIO else count, w')
       | None => None
       end
  else Some (- EFAULT, staged ubuf count w).
Proof.
  intros H. unfold tpm_tis_i2c_write. unfold bind at 1. unfold gets at 1.
  apply Z.ltb_ge in H. rewrite H.
  unfold bind at 1. rewrite memset_run.
  unfold bind at 1. rewrite copy_from_user_run.
  cbn [with_buf push tpm_dev buf client xfers slept trace].
  fold (staged ubuf count w).
  destruct (count <=? Z.of_nat (length ubuf)) eqn:Hfit.
  - apply Z.leb_le in Hfit.
    replace (count - Z.min count (Z.of_nat (length ubuf)) =? 0) with true
      by (symmetry; apply Z.eqb_eq; lia).
    cbn [negb]. unfold bind, write_msg.
    destruct (i2c_transfer _ _) as [[rc w']|]; [|reflexivity].
    destruct (rc <=? 0); reflexivity.
  - apply Z.leb_gt in Hfit.
    replace (count - Z.min count (Z.of_nat (length ubuf)) =? 0) with false
      by (symmetry; apply Z.eqb_neq; lia).
    reflexivity.
Qed.

(** The array once staged: the bytes copied from the caller, then zeros. *)
Lemma staged_device_buffer (ubuf : list byte) (count : Z) (w : world) :
  0 <= count <= TPM_BUFSIZE ->
  device_buffer (staged ubuf count w) =
  firstn (Z.to_nat (Z.min count (Z.of_nat (length ubuf)))) ubuf
  ++ zeros (TPM_BUFSIZE - Z.min count (Z.of_nat (length ubuf))).
Proof.
  intros Hc. unfold device_buffer, staged.
  cbn [with_buf push tpm_dev buf].
  set (k := Z.min count (Z.of_nat (length ubuf))).
  assert (Hk : 0 <= k <= count) by (subst k; lia).
  assert (Hkl : (Z.to_nat k <= length ubuf)%nat) by (subst k; lia).
  rewrite store_0.
  assert (Hlen : length (firstn (Z.to_nat k) ubuf ++ zeros (count - k))
                 = Z.to_nat count).
  { rewrite length_app, firstn_length_le, zeros_length by exact Hkl. lia. }
  rewrite Hlen, skipn_app. unfold zeros at 2. rewrite skipn_repeat.
  rewrite zeros_length.
  replace (Z.to_nat count - Z.to_nat TPM_BUFSIZE)%nat with 0%nat by lia.
  cbn [skipn]. rewrite app_assoc.
  assert (Hall : length ((firstn (Z.to_nat k) ubuf ++ zeros (count - k))
                         ++ repeat x00
                              (Z.to_nat TPM_BUFSIZE - Z.to_nat count))
                 = Z.to_nat TPM_BUFSIZE).
  { rewrite length_app, Hlen, repeat_length. lia. }
  rewrite firstn_app, Hall, Nat.sub_diag. cbn [firstn]. rewrite app_nil_r.
  rewrite firstn_all2 by lia.
  rewrite <- app_assoc. f_equal.
  unfold zeros. rewrite <- repeat_app. f_equal. lia.
Qed.

(** A write message leaves the memory as it is. *)
Lemma i2c_transfer_write_buf (count : Z) (w0 w : world) rc w' :
  i2c_transfer (write_msg w0 count) w = Some (rc, w') ->
  buf (tpm_dev w') = buf (tpm_dev w) /\
  client (tpm_dev w') = client (tpm_dev w) /\
  (xfers w' <= S (xfers w))%nat /\
  (trace w' = trace w \/ trace w' = EvXfer (write_msg w0 count) :: trace w).
Proof.
  unfold i2c_transfer.
  destruct (master_xfer (adapter (client (tpm_dev w)))) as [script|];
    intros H; inversion H; subst; cbn; auto.
Qed.

(** [tpm_tis_i2c_write] always returns.  Its events are none when the
    write is refused, and otherwise start with the zero fill and the copy
    from the caller, followed by at most the one transfer. *)
Lemma tpm_tis_i2c_write_total (ubuf : list byte) (count : Z) (w : world) :
  exists r w',
    tpm_tis_i2c_write ubuf count w = Some (r, w') /\
    (since w w' =
       (if TPM_BUFSIZE <? count then []
        else [EvMemset 0 TPM_BUFSIZE; EvCopyFromUser 0 count]) \/
     since w w' =
       [EvMemset 0 TPM_BUFSIZE; EvCopyFromUser 0 count;
        EvXfer (write_msg w count)]) /\
    (count <= TPM_BUFSIZE ->
     buf (tpm_dev w') = buf (tpm_dev (staged ubuf count w))).
Proof.
  destruct (TPM_BUFSIZE <? count) eqn:Hc.
  - apply Z.ltb_lt in Hc.
    rewrite (tpm_tis_i2c_write_too_long ubuf count w Hc).
    exists (- EINVAL), w. split; [reflexivity|]. split.
    + left. apply (since_app w w []). reflexivity.
    + intros Hle. lia.
  - apply Z.ltb_ge in Hc.
    rewrite (tpm_tis_i2c_write_unfold ubuf count w Hc).
    destruct (count <=? Z.of_nat (length ubuf)).
    + destruct (i2c_transfer (write_msg w count) (staged ubuf count w))
        as [[rc w']|] eqn:Hx.
      * apply i2c_transfer_write_buf in Hx.
        destruct Hx as (Hb & _ & _ & Htr).
        eexists _, w'. split; [reflexivity|]. split; [|intros _; exact Hb].
        destruct Htr as [Htr|Htr].
        -- left.
           apply (since_app w w'
                    [EvCopyFromUser 0 count; EvMemset 0 TPM_BUFSIZE]).
           rewrite Htr. reflexivity.
        -- right.
           apply (since_app w w'
                    [EvXfer (write_msg w count); EvCopyFromUser 0 count;
                     EvMemset 0 TPM_BUFSIZE]).
           rewrite Htr. reflexivity.
      * exfalso. destruct (i2c_transfer_rc (write_msg w count)
                             (staged ubuf count w)) as (w' & Hw').
        congruence.
    + eexists _, _. split; [reflexivity|]. split; [|intros _; reflexivity].
      left.
      apply (since_app w (staged ubuf count w)
               [EvCopyFromUser 0 count; EvMemset 0 TPM_BUFSIZE]).
      reflexivity.
Qed.

Lemma next_rc_staged (ubuf : list byte) (count : Z) (w : world) :
  next_rc (staged ubuf count w) = next_rc w.
Proof. reflexivity. Qed.

(** The result of a write that fits the array and whose copy from the
    caller succeeds is decided by the one transfer alone. *)
Lemma tpm_tis_i2c_write_result (ubuf : list byte) (count : Z) (w : world) :
  count <= TPM_BUFSIZE ->
  count <= Z.of_nat (length ubuf) ->
  exists w',
    tpm_tis_i2c_write ubuf count w =
      Some (if next_rc w <=? 0 then - EIO else count, w') /\
    (xfers w' <= S (xfers w))%nat /\
    buf (tpm_dev w') = buf (tpm_dev (staged ubuf count w)).
Proof.
  intros Hc Hfit.
  rewrite (tpm_tis_i2c_write_unfold ubuf count w Hc).
  apply Z.leb_le in Hfit. rewrite Hfit.
  destruct (i2c_transfer_rc (write_msg w count) (staged ubuf count w))
    as (w' & Hx).
  rewrite Hx, next_rc_staged. exists w'. split; [reflexivity|].
  apply i2c_transfer_write_buf in Hx. destruct Hx as (Hb & _ & Hn & _).
  split; [exact Hn | exact Hb].
Qed.

Lemma device_buffer_eq (w w' : world) :
  buf (tpm_dev w') = buf (tpm_dev w) -> device_buffer w' = device_buffer w.
Proof. unfold device_buffer. now intros ->. Qed.

(** What is left in the array by a write of at most [TPM_BUFSIZE] bytes
    whose copy from the caller succeeds. *)
Lemma tpm_tis_i2c_write_buffer (ubuf : list byte) (count : Z) (w : world)
      r w' :
  0 <= count <= TPM_BUFSIZE ->
  count <= Z.of_nat (length ubuf) ->
  tpm_tis_i2c_write ubuf count w = Some (r, w') ->
  device_buffer w' = firstn (Z.to_nat count) ubuf
                     ++ zeros (TPM_BUFSIZE - count).
Proof.
  intros Hc Hfit Hrun.
  destruct (tpm_tis_i2c_write_result ubuf count w (proj2 Hc) Hfit)
    as (w2 & Hrun' & _ & Hb).
  rewrite Hrun in Hrun'. inversion Hrun'; subst.
  rewrite (device_buffer_eq _ _ Hb), staged_device_buffer by exact Hc.
  now rewrite Z.min_l by exact Hfit.
Qed.

(** The zero fill discards what the array held. *)
Lemma memset_forgets (stale : list byte) (w : world) :
  length stale = Z.to_nat TPM_BUFSIZE ->
  memset 0 TPM_BUFSIZE
    (with_buf (stale ++ skipn (Z.to_nat TPM_BUFSIZE) (buf (tpm_dev w))) w)
  = memset 0 TPM_BUFSIZE w.
Proof.
  intros Hlen. rewrite !memset_run. unfold with_buf, push.
  cbn [tpm_dev buf client xfers slept trace].
  rewrite skipn_app, Hlen, Nat.sub_diag, skipn_all2 by lia.
  reflexivity.
Qed.

(** C4: for every [count] above 1024 [tpm_tis_i2c_write] returns [-EINVAL]
    and leaves the world as it found it: no transfer is performed and the
    array keeps its bytes.  With [count = 1024], a caller whose 1024 bytes
    can be read and a transfer that reports a positive result, it returns
    1024. *)
Theorem write_size_boundary :
  (forall (ubuf : list byte) (count : Z) (w : world),
      TPM_BUFSIZE < count ->
      tpm_tis_i2c_write ubuf count w = Some (- EINVAL, w)) /\
  (forall (ubuf : list byte) (w : world),
      TPM_BUFSIZE <= Z.of_nat (length ubuf) ->
      0 < next_rc w ->
      exists w', tpm_tis_i2c_write ubuf TPM_BUFSIZE w
                 = Some (TPM_BUFSIZE, w')).
Proof.
  split.
  - exact tpm_tis_i2c_write_too_long.
  - intros ubuf w Hfit Hrc.
    destruct (tpm_tis_i2c_write_result ubuf TPM_BUFSIZE w (Z.le_refl _) Hfit)
      as (w' & Hrun & _).
    exists w'. rewrite Hrun.
    replace (next_rc w <=? 0) with false
      by (symmetry; apply Z.leb_gt; exact Hrc).
    reflexivity.
Qed.

(** C6: a write of [count <= 1024] bytes that the caller's memory holds
    reaches its one raw transfer; when that transfer reports a result that
    is not positive the function returns [-EIO], and when it reports a
    positive result the function returns exactly [count].  No other value,
    so no partial byte count, is returned. *)
Theorem write_all_or_nothing (ubuf : list byte) (count : Z) (w : world) :
  0 <= count <= TPM_BUFSIZE ->
  count <= Z.of_nat (length ubuf) ->
  exists w',
    tpm_tis_i2c_write ubuf count w =
      Some (if next_rc w <=? 0 then - EIO else count, w') /\
    (exists wx, i2c_transfer (write_msg w count) (staged ubuf count w)
                = Some (next_rc w, wx)) /\
    (xfers w' <= S (xfers w))%nat.
Proof.
  intros Hc Hfit.
  destruct (tpm_tis_i2c_write_result ubuf count w (proj2 Hc) Hfit)
    as (w' & Hrun & Hn & _).
  exists w'. split; [exact Hrun|]. split; [|exact Hn].
  destruct (i2c_transfer_rc (write_msg w count) (staged ubuf count w))
    as (wx & Hx).
  exists wx. rewrite Hx, next_rc_staged. reflexivity.
Qed.

(** The zero fill and the 1024 bytes of the array.  The first thing
    [tpm_tis_i2c_read] does, and the first thing a [tpm_tis_i2c_write] that
    is not refused does, is to zero the 1024 bytes of the array (a refused
    write does not touch it); the zero fill leaves 1024 zero bytes.  After a
    write of [count <= 1024] bytes the array holds the caller's [count]
    bytes followed by zeros, whatever it held before, so also after an
    earlier write.  A read does not depend on what the 1024 bytes of the
    array held before.  Nothing is said here of the memory behind the
    array, which the zero fill does not reach. *)
Lemma array_zeroed_before_use :
  (forall (w : world) (u : unit) (w' : world),
      memset 0 TPM_BUFSIZE w = Some (u, w') ->
      device_buffer w' = zeros TPM_BUFSIZE) /\
  (forall (ubuf : list byte) (count : Z) (w : world) r w',
      tpm_tis_i2c_read ubuf count w = Some (r, w') ->
      hd_error (since w w') = Some (EvMemset 0 TPM_BUFSIZE)) /\
  (forall (ubuf : list byte) (count : Z) (w : world) r w',
      tpm_tis_i2c_write ubuf count w = Some (r, w') ->
      if TPM_BUFSIZE <? count
      then since w w' = []
      else hd_error (since w w') = Some (EvMemset 0 TPM_BUFSIZE)) /\
  (forall (ubuf : list byte) (count : Z) (w : world) r w',
      0 <= count <= TPM_BUFSIZE ->
      count <= Z.of_nat (length ubuf) ->
      tpm_tis_i2c_write ubuf count w = Some (r, w') ->
      device_buffer w' = firstn (Z.to_nat count) ubuf
                         ++ zeros (TPM_BUFSIZE - count)) /\
  (forall (ubuf1 ubuf2 : list byte) (count1 count2 : Z) (w : world)
          r1 w1 r2 w2,
      tpm_tis_i2c_write ubuf1 count1 w = Some (r1, w1) ->
      0 <= count2 <= TPM_BUFSIZE ->
      count2 <= Z.of_nat (length ubuf2) ->
      tpm_tis_i2c_write ubuf2 count2 w1 = Some (r2, w2) ->
      device_buffer w2 = firstn (Z.to_nat count2) ubuf2
                         ++ zeros (TPM_BUFSIZE - count2)) /\
  (forall (ubuf stale : list byte) (count : Z) (w : world),
      length stale = Z.to_nat TPM_BUFSIZE ->
      tpm_tis_i2c_read ubuf count
        (with_buf (stale ++ skipn (Z.to_nat TPM_BUFSIZE) (buf (tpm_dev w))) w)
      = tpm_tis_i2c_read ubuf count w).
Proof.
  split; [|split; [|split; [|split; [|split]]]].
  - intros w u w' Hrun. rewrite memset_run in Hrun.
    replace w' with
      (with_buf (zeros TPM_BUFSIZE
                   ++ skipn (Z.to_nat TPM_BUFSIZE) (buf (tpm_dev w)))
                (push (EvMemset 0 TPM_BUFSIZE) w)) by congruence.
    unfold device_buffer, with_buf. cbn [tpm_dev buf].
    rewrite firstn_app, zeros_length, Nat.sub_diag. cbn [firstn].
    rewrite app_nil_r. apply firstn_all2. rewrite zeros_length. lia.
  - intros ubuf count w r w' Hrun.
    destruct (header_phase_total w) as (rc1 & w1 & k & Hh & _).
    destruct (tpm_tis_i2c_read_events ubuf count w rc1 w1 r w' Hh Hrun)
      as (k1 & k2 & Hev & _).
    rewrite Hev. reflexivity.
  - intros ubuf count w r w' Hrun.
    destruct (tpm_tis_i2c_write_total ubuf count w)
      as (r0 & w0 & Hrun' & Hev & _).
    rewrite Hrun in Hrun'. inversion Hrun'; subst r0 w0.
    destruct (TPM_BUFSIZE <? count) eqn:Hc.
    + destruct Hev as [Hev|Hev]; [exact Hev|].
      exfalso. apply Z.ltb_lt in Hc.
      rewrite (tpm_tis_i2c_write_too_long ubuf count w Hc) in Hrun.
      inversion Hrun; subst. rewrite (since_app w' w' []) in Hev
        by reflexivity. discriminate.
    + destruct Hev as [Hev|Hev]; rewrite Hev; reflexivity.
  - exact tpm_tis_i2c_write_buffer.
  - intros ubuf1 ubuf2 count1 count2 w r1 w1 r2 w2 _ Hc Hfit Hrun.
    exact (tpm_tis_i2c_write_buffer ubuf2 count2 w1 r2 w2 Hc Hfit Hrun).
  - intros ubuf stale count w Hlen.
    unfold tpm_tis_i2c_read. unfold bind at 1.
    rewrite (memset_forgets stale w Hlen). reflexivity.
Qed.

(** ** Stale bytes behind the array *)

Lemma outcome_run {A} (m : M A) (w : world) (a : A) :
  outcome (m w) = Some a -> exists w', m w = Some (a, w').
Proof.
  unfold outcome. destruct (m w) as [[a' w']|]; [|discriminate].
  intros H. exists w'. congruence.
Qed.

(** C7: the zero fill does not keep stale data out of a later read.  The
    chip [chip_1026_once] announces 1026 bytes and sends them, the last two
    being [0xee]; the read fails with [-EFAULT] because the caller's memory
    takes only 64 bytes, and leaves the two bytes [0xee] behind the 1024
    byte array.  The next read starts with the zero fill of 1024 bytes, is
    told 1026 bytes again and gets no answer to its second read; it returns
    1026 and hands the caller the header, zeros up to index 1023 and, at
    indices 1024 and 1025, the two bytes [0xee] of the failed read.  With
    the memory behind the array as it was before the failed read, the same
    read hands over [0xaa] there: the outcome of a read depends on what an
    earlier operation left. *)
Theorem stale_bytes_reach_later_read :
  tpm_tis_i2c_read caller_64 64 (boot chip_1026_once)
  = Some ((- EFAULT, header x04 x02 ++ repeat x55 58), after_failed_read) /\
  skipn (Z.to_nat TPM_BUFSIZE) (buf (tpm_dev after_failed_read))
  = [xee; xee] ++ repeat xaa 6 /\
  (exists w2,
      tpm_tis_i2c_read caller_2048 2048 after_failed_read
      = Some ((1026,
               header x04 x02 ++ zeros 1018 ++ [xee; xee] ++ zeros 1022),
              w2) /\
      hd_error (since after_failed_read w2)
      = Some (EvMemset 0 TPM_BUFSIZE)) /\
  (exists w2,
      tpm_tis_i2c_read caller_2048 2048
        (with_buf (buf (tpm_dev (boot chip_1026_once))) after_failed_read)
      = Some ((1026,
               header x04 x02 ++ zeros 1018 ++ [xaa; xaa] ++ zeros 1022),
              w2)).
Proof.
  split; [vm_compute; reflexivity|].
  split; [vm_compute; reflexivity|].
  split.
  - destruct (outcome_run (tpm_tis_i2c_read caller_2048 2048)
                after_failed_read
                (1026,
                 header x04 x02 ++ zeros 1018 ++ [xee; xee] ++ zeros 1022))
      as (w2 & Hrun); [vm_compute; reflexivity|].
    exists w2. split; [exact Hrun|].
    exact (proj1 (proj2 array_zeroed_before_use) _ _ _ _ _ Hrun).
  - apply outcome_run. vm_compute. reflexivity.
Qed.

(** ** Accesses and the capacity of the array *)

Lemma forallb_repeat {A} (f : A -> bool) (x : A) (k : nat) :
  f x = true -> forallb f (repeat x k) = true.
Proof. intros H. induction k; cbn; [reflexivity|]. now rewrite H. Qed.

Lemma read_events_in_bounds (a : Z) (k1 k2 : nat) (expected : Z) :
  0 <= expected <= 65535 ->
  forallb in_bounds (read_events a k1 k2 expected)
  = (expected <=? TPM_BUFSIZE).
Proof.
  intros He. unfold read_events. cbn [forallb].
  rewrite !forallb_app. cbn [forallb].
  rewrite forallb_repeat by reflexivity.
  change (in_bounds (EvMemset 0 TPM_BUFSIZE)) with true.
  change (in_bounds (EvRetryRead 0 TPM_HEADER_SIZE)) with true.
  change (in_bounds (EvCopyToUser 0 expected))
    with (0 + expected <=? TPM_BUFSIZE).
  cbn [andb]. rewrite andb_true_r, Z.add_0_l.
  destruct (expected <=? TPM_HEADER_SIZE) eqn:Hs.
  - reflexivity.
  - cbn [forallb].
    change (in_bounds (EvRetryRead 0 expected)) with true. cbn [andb].
    destruct (expected <=? TPM_BUFSIZE) eqn:Hb.
    + rewrite forallb_repeat; [reflexivity|].
      unfold in_bounds. cbn [extent msg_buf msg_len]. now rewrite Z.add_0_l.
    + apply andb_false_r.
Qed.

(** The accesses of a read stay inside the array exactly when the decoded
    length is at most [TPM_BUFSIZE]. *)
Lemma tpm_tis_i2c_read_bounds (ubuf : list byte) (count : Z) (w : world)
      (rc1 : Z) (w1 : world) r w' :
  header_phase w = Some (rc1, w1) ->
  tpm_tis_i2c_read ubuf count w = Some (r, w') ->
  forallb in_bounds (since w w')
  = (decode_expected (buf (tpm_dev w1)) <=? TPM_BUFSIZE).
Proof.
  intros Hh Hrun.
  destruct (tpm_tis_i2c_read_events ubuf count w rc1 w1 r w' Hh Hrun)
    as (k1 & k2 & Hev & _).
  rewrite Hev. apply read_events_in_bounds. apply decode_expected_range.
Qed.

(** The accesses of a write always stay inside the array. *)
Lemma tpm_tis_i2c_write_bounds (ubuf : list byte) (count : Z) (w : world)
      r w' :
  0 <= count ->
  tpm_tis_i2c_write ubuf count w = Some (r, w') ->
  forallb in_bounds (since w w') = true.
Proof.
  intros Hc Hrun.
  destruct (tpm_tis_i2c_write_total ubuf count w)
    as (r0 & w0 & Hrun' & Hev & _).
  rewrite Hrun in Hrun'. inversion Hrun'; subst r0 w0.
  destruct (TPM_BUFSIZE <? count) eqn:Hlong.
  - destruct Hev as [Hev|Hev].
    + rewrite Hev. reflexivity.
    + exfalso. apply Z.ltb_lt in Hlong.
      rewrite (tpm_tis_i2c_write_too_long ubuf count w Hlong) in Hrun.
      inversion Hrun; subst.
      rewrite (since_app w' w' []) in Hev by reflexivity. discriminate.
  - apply Z.ltb_ge in Hlong.
    assert (Hcopy : in_bounds (EvCopyFromUser 0 count) = true).
    { unfold in_bounds. cbn [extent]. apply Z.leb_le. lia. }
    assert (Hxfer : in_bounds (EvXfer (write_msg w count)) = true).
    { unfold in_bounds, write_msg. cbn [extent msg_buf msg_len].
      rewrite to_u16_small by (unfold TPM_BUFSIZE in *; lia).
      apply Z.leb_le. lia. }
    destruct Hev as [Hev|Hev]; rewrite Hev; cbn [forallb];
      rewrite ?Hcopy, ?Hxfer; reflexivity.
Qed.

(** C1: the chip [chip_1025] announces 1025 bytes in the length field of
    its header.  [tpm_tis_i2c_read] then asks the adapter to store 1025
    bytes at offset 0 of the 1024 byte array and copies 1025 bytes from
    there to the caller, who receives at index 1024 the byte that lies
    behind the array: the accesses of this read do not stay in bounds. *)
Theorem read_overruns_buffer :
  exists r w',
    tpm_tis_i2c_read caller_2048 2048 (boot chip_1025) = Some (r, w') /\
    decode_expected (buf (tpm_dev (after_header (boot chip_1025)))) = 1025 /\
    In (EvXfer (mk_msg 41 I2C_M_RD 1025 0)) (since (boot chip_1025) w') /\
    In (EvCopyToUser 0 1025) (since (boot chip_1025) w') /\
    forallb in_bounds (since (boot chip_1025) w') = false /\
    fst r = 1025 /\
    nth 1024 (snd r) x00 = xaa.
Proof.
  eexists _, _. split; [vm_compute; reflexivity|].
  split; [vm_compute; reflexivity|].
  split; [vm_compute; tauto|].
  split; [vm_compute; tauto|].
  repeat split; vm_compute; reflexivity.
Qed.

(** ** The status of the bounded-retry read *)

(** C5: on the chip that never acknowledges, all 60000 attempts are made
    and [tpm_i2c_read] then returns 242, the [-EFAULT] of line 104 reduced
    to the return type [u8]: a positive value, not the error code
    [-EFAULT]. *)
Theorem retry_exhaustion_result :
  exists w',
    tpm_i2c_read 0 TPM_HEADER_SIZE (boot chip_nack) = Some (242, w') /\
    Z.of_nat (xfers w') = trapdoor_limit /\
    242 <> - EFAULT /\
    0 < 242.
Proof.
  destruct (tpm_i2c_read_exhausted 0 TPM_HEADER_SIZE (boot chip_nack)
              (fun _ => mk_reply (-6) []))
    as (w' & Hrun & Hxf & _).
  { reflexivity. }
  { intros i _. cbn. lia. }
  exists w'. split; [exact Hrun|]. split.
  - rewrite Hxf. change (xfers (boot chip_nack)) with 0%nat.
    rewrite Nat.add_0_l, Z2Nat.id; [reflexivity|]. unfold trapdoor_limit. lia.
  - split; [discriminate | reflexivity].
Qed.

(** C10: [tpm_i2c_read] returns a [u8], so [-EOPNOTSUPP] leaves it as 161
    and [-EFAULT] as 242, both positive.  An adapter without a transfer
    routine ([w_ns]) makes it return 161; an adapter whose 60000 attempts
    all fail ([w_fail]) makes it return 242, which is also what it returns
    when the first attempt succeeds with the result 242 ([w_ok]). *)
Theorem retry_read_status_truncated
        (buffer len : Z) (w_ns w_fail w_ok : world) s_fail s_ok :
  master_xfer (adapter (client (tpm_dev w_ns))) = None ->
  master_xfer (adapter (client (tpm_dev w_fail))) = Some s_fail ->
  (forall i, (i < Z.to_nat trapdoor_limit)%nat ->
             reply_rc (s_fail (xfers w_fail + i)%nat) <= 0) ->
  master_xfer (adapter (client (tpm_dev w_ok))) = Some s_ok ->
  reply_rc (s_ok (xfers w_ok)) = 242 ->
  to_u8 (- EOPNOTSUPP) = 161 /\
  to_u8 (- EFAULT) = 242 /\
  0 < to_u8 (- EOPNOTSUPP) /\
  0 < to_u8 (- EFAULT) /\
  (exists w', tpm_i2c_read buffer len w_ns = Some (161, w')) /\
  (exists w', tpm_i2c_read buffer len w_fail = Some (242, w')) /\
  (exists w', tpm_i2c_read buffer len w_ok = Some (242, w')).
Proof.
  intros Hns Hfail Hall Hok Hrc.
  repeat (split; [reflexivity|]).
  split; [|split].
  - rewrite (tpm_i2c_read_unsupported buffer len w_ns Hns). eauto.
  - destruct (tpm_i2c_read_exhausted buffer len w_fail s_fail Hfail Hall)
      as (w' & Hrun & _).
    exists w'. exact Hrun.
  - destruct (tpm_i2c_read_first_positive buffer len w_ok s_ok 0 Hok)
      as (w' & Hrun & _).
    + unfold trapdoor_limit. lia.
    + intros i Hi. lia.
    + rewrite Nat.add_0_r, Hrc. lia.
    + exists w'. rewrite Nat.add_0_r, Hrc in Hrun. exact Hrun.
Qed.

(** ** Runs on concrete devices *)

(** A response of six bytes: one call of [tpm_i2c_read], one raw transfer,
    six bytes for the caller. *)
Example short_response_single_read :
  exists w',
    tpm_tis_i2c_read caller_64 64 (boot chip_6)
    = Some ((6, header x00 x06 ++ zeros 58), w') /\
    since (boot chip_6) w'
    = [EvMemset 0 1024; EvRetryRead 0 6; EvXfer (mk_msg 41 1 6 0);
       EvCopyToUser 0 6].
Proof. eexists. split; vm_compute; reflexivity. Qed.

(** A response of thirty bytes: the second read asks for all thirty bytes
    at the base of the array, and the caller gets them. *)
Example long_response_two_reads :
  exists w',
    tpm_tis_i2c_read caller_64 64 (boot chip_30)
    = Some ((30, header x00 x1e ++ repeat x07 24 ++ zeros 34), w') /\
    since (boot chip_30) w'
    = [EvMemset 0 1024; EvRetryRead 0 6; EvXfer (mk_msg 41 1 6 0);
       EvRetryRead 0 30; EvXfer (mk_msg 41 1 30 0); EvCopyToUser 0 30].
Proof. eexists. split; vm_compute; reflexivity. Qed.

(** A caller whose memory cannot take the response gets [-EFAULT]. *)
Example read_into_short_memory :
  exists ubuf' w',
    tpm_tis_i2c_read (zeros 10) 64 (boot chip_30)
    = Some ((- EFAULT, ubuf'), w').
Proof. eexists _, _. vm_compute. reflexivity. Qed.

(** A write of 1025 bytes is refused and changes nothing. *)
Example write_1025_refused :
  tpm_tis_i2c_write (zeros 1025) 1025 (boot chip_30)
  = Some (- EINVAL, boot chip_30).
Proof. reflexivity. Qed.

(** A write of four bytes: one transfer of four bytes, the array holds the
    request and zeros. *)
Example write_request_4 :
  exists w',
    tpm_tis_i2c_write request_4 4 (boot chip_30) = Some (4, w') /\
    since (boot chip_30) w'
    = [EvMemset 0 1024; EvCopyFromUser 0 4; EvXfer (mk_msg 41 0 4 0)] /\
    device_buffer w' = request_4 ++ zeros 1020.
Proof. eexists. repeat split; vm_compute; reflexivity. Qed.

(** The same write on the chip that never acknowledges: [-EIO]. *)
Example write_request_4_nack :
  exists w', tpm_tis_i2c_write request_4 4 (boot chip_nack)
             = Some (- EIO, w').
Proof. eexists. vm_compute. reflexivity. Qed.

(** A write whose four bytes cannot all be read from the caller. *)
Example write_unreadable_request :
  exists w', tpm_tis_i2c_write [x01; x02] 4 (boot chip_30)
             = Some (- EFAULT, w') /\
             xfers w' = 0%nat.
Proof. eexists. split; vm_compute; reflexivity. Qed.

(** ** The theorems at concrete devices *)

Lemma header_phase_after (w : world) :
  header_phase w = Some (header_status w, after_header w).
Proof.
  unfold header_status, after_header.
  destruct (header_phase_total w) as (rc & w1 & k & Hh & _).
  now rewrite Hh.
Qed.

(** [header_length_decoding] on the chip that sends the length field
    [0xffff]. *)
Lemma header_length_decoding_witness :
  header_phase (boot chip_ffff)
  = Some (header_status (boot chip_ffff), after_header (boot chip_ffff)) /\
  nth_error (device_buffer (after_header (boot chip_ffff))) 4 = Some xff /\
  nth_error (device_buffer (after_header (boot chip_ffff))) 5 = Some xff /\
  decode_expected (buf (tpm_dev (after_header (boot chip_ffff)))) = 65535.
Proof.
  assert (H1 : header_phase (boot chip_ffff)
               = Some (header_status (boot chip_ffff),
                       after_header (boot chip_ffff)))
    by (vm_compute; reflexivity).
  assert (H2 : nth_error (device_buffer (after_header (boot chip_ffff))) 4
               = Some xff) by (vm_compute; reflexivity).
  assert (H3 : nth_error (device_buffer (after_header (boot chip_ffff))) 5
               = Some xff) by (vm_compute; reflexivity).
  split; [exact H1|]. split; [exact H2|]. split; [exact H3|].
  exact (proj1 (header_length_decoding caller_64 64 (boot chip_ffff)
                  _ _ xff xff H1 H2 H3)).
Defined.

(** [read_one_or_two_bus_reads] on the chip that announces and sends 30
    bytes, for a caller that can take 64: two calls, two raw transfers, the
    second for 30 bytes at offset 0, and 30 bytes returned. *)
Lemma read_one_or_two_bus_reads_witness :
  header_phase (boot chip_30)
  = Some (header_status (boot chip_30), after_header (boot chip_30)) /\
  exists w',
    tpm_tis_i2c_read caller_64 64 (boot chip_30)
    = Some ((30, load 0 30 (buf (tpm_dev w')) ++ skipn 30 caller_64), w') /\
    read_calls (since (boot chip_30) w') = [(0, 6); (0, 30)] /\
    raw_xfers (since (boot chip_30) w')
    = [mk_msg 41 I2C_M_RD 6 0; mk_msg 41 I2C_M_RD 30 0].
Proof.
  assert (H1 : header_phase (boot chip_30)
               = Some (header_status (boot chip_30),
                       after_header (boot chip_30)))
    by (vm_compute; reflexivity).
  assert (Hd : decode_expected (buf (tpm_dev (after_header (boot chip_30))))
               = 30) by (vm_compute; reflexivity).
  assert (Hfit : 30 <= Z.of_nat (length caller_64))
    by (vm_compute; discriminate).
  split; [exact H1|].
  destruct (read_one_or_two_bus_reads caller_64 64 (boot chip_30) _ _ H1)
    as (w' & k1 & k2 & Hrun & _ & Hcalls & _ & Hready).
  rewrite Hd in Hrun, Hcalls.
  rewrite (delivered_fits _ _ _ Hfit) in Hrun.
  apply Z.leb_le in Hfit. rewrite Hfit in Hrun.
  exists w'. split; [exact Hrun|]. split; [exact Hcalls|].
  rewrite (Hready _ eq_refl) by (intros [|n]; reflexivity).
  rewrite Hd. reflexivity.
Defined.

(** [write_size_boundary] at 1025 and at 1024 bytes. *)
Lemma write_size_boundary_witness :
  (TPM_BUFSIZE < 1025 /\
   tpm_tis_i2c_write request_4 1025 (boot chip_30)
   = Some (- EINVAL, boot chip_30)) /\
  (TPM_BUFSIZE <= Z.of_nat (length (zeros 1024)) /\
   0 < next_rc (boot chip_30) /\
   exists w', tpm_tis_i2c_write (zeros 1024) TPM_BUFSIZE (boot chip_30)
              = Some (TPM_BUFSIZE, w')).
Proof.
  assert (H1 : TPM_BUFSIZE < 1025) by reflexivity.
  assert (H2 : TPM_BUFSIZE <= Z.of_nat (length (zeros 1024)))
    by (vm_compute; discriminate).
  assert (H3 : 0 < next_rc (boot chip_30)) by reflexivity.
  split.
  - split; [exact H1|].
    exact (proj1 write_size_boundary request_4 1025 (boot chip_30) H1).
  - split; [exact H2|]. split; [exact H3|].
    exact (proj2 write_size_boundary (zeros 1024) (boot chip_30) H2 H3).
Defined.

(** [write_all_or_nothing] on the chip that never acknowledges: the four
    byte request is answered by [-EIO]. *)
Lemma write_all_or_nothing_witness :
  0 <= 4 <= TPM_BUFSIZE /\
  4 <= Z.of_nat (length request_4) /\
  exists w', tpm_tis_i2c_write request_4 4 (boot chip_nack)
             = Some (- EIO, w').
Proof.
  assert (H1 : 0 <= 4 <= TPM_BUFSIZE) by (unfold TPM_BUFSIZE; lia).
  assert (H2 : 4 <= Z.of_nat (length request_4)) by (cbn; lia).
  split; [exact H1|]. split; [exact H2|].
  destruct (write_all_or_nothing request_4 4 (boot chip_nack) H1 H2)
    as (w' & Hrun & _).
  exists w'. exact Hrun.
Defined.

(** [array_zeroed_before_use]: a four byte write into an array full of
    [0xff] leaves the request and 1020 zeros, and a read from that array
    is the read from the booted device. *)
Lemma array_zeroed_before_use_example :
  (0 <= 4 <= TPM_BUFSIZE /\
   4 <= Z.of_nat (length request_4) /\
   exists r w',
     tpm_tis_i2c_write request_4 4
       (with_buf (repeat xff 1024) (boot chip_30)) = Some (r, w') /\
     device_buffer w' = request_4 ++ zeros 1020) /\
  (length (repeat xff 1024) = Z.to_nat TPM_BUFSIZE /\
   tpm_tis_i2c_read caller_64 64
     (with_buf (repeat xff 1024
                  ++ skipn (Z.to_nat TPM_BUFSIZE)
                       (buf (tpm_dev (boot chip_30))))
               (boot chip_30))
   = tpm_tis_i2c_read caller_64 64 (boot chip_30)).
Proof.
  assert (H1 : 0 <= 4 <= TPM_BUFSIZE) by (unfold TPM_BUFSIZE; lia).
  assert (H2 : 4 <= Z.of_nat (length request_4)) by (cbn; lia).
  assert (H3 : length (repeat xff 1024) = Z.to_nat TPM_BUFSIZE)
    by (vm_compute; reflexivity).
  split.
  - split; [exact H1|]. split; [exact H2|].
    destruct (tpm_tis_i2c_write_total request_4 4
                (with_buf (repeat xff 1024) (boot chip_30)))
      as (r & w' & Hrun & _).
    exists r, w'. split; [exact Hrun|].
    exact (proj1 (proj2 (proj2 (proj2 array_zeroed_before_use)))
             request_4 4 _ r w' H1 H2 Hrun).
  - split; [exact H3|].
    exact (proj2 (proj2 (proj2 (proj2 (proj2 array_zeroed_before_use))))
             caller_64 (repeat xff 1024) 64 (boot chip_30) H3).
Defined.

(** [header_failure_returns_zero] on the chip that never acknowledges. *)
Lemma header_failure_returns_zero_witness :
  master_xfer (adapter (client (tpm_dev (boot chip_nack))))
  = Some (fun _ => mk_reply (-6) []) /\
  (forall i, (i < Z.to_nat trapdoor_limit)%nat ->
             reply_rc (mk_reply (-6) []) <= 0 /\
             reply_data (mk_reply (-6) []) = []) /\
  exists w1 w',
    header_phase (boot chip_nack) = Some (to_u8 (- EFAULT), w1) /\
    decode_expected (buf (tpm_dev w1)) = 0 /\
    tpm_tis_i2c_read caller_64 64 (boot chip_nack)
    = Some ((0, caller_64), w') /\
    read_calls (since (boot chip_nack) w') = [(0, TPM_HEADER_SIZE)] /\
    xfers w' = (xfers (boot chip_nack) + Z.to_nat trapdoor_limit)%nat.
Proof.
  assert (H1 : master_xfer (adapter (client (tpm_dev (boot chip_nack))))
               = Some (fun _ => mk_reply (-6) [])) by reflexivity.
  assert (H2 : forall i, (i < Z.to_nat trapdoor_limit)%nat ->
                         reply_rc (mk_reply (-6) []) <= 0 /\
                         reply_data (mk_reply (-6) []) = []).
  { intros i _. split; [cbn; lia | reflexivity]. }
  split; [exact H1|]. split; [exact H2|].
  exact (header_failure_returns_zero caller_64 64 (boot chip_nack)
           (fun _ => mk_reply (-6) []) H1 H2).
Defined.

(** [retry_read_status_truncated] on an adapter without a transfer
    routine, on the chip that never acknowledges and on a chip whose first
    transfer reports 242. *)
Lemma retry_read_status_truncated_witness :
  master_xfer (adapter (client (tpm_dev (boot no_xfer)))) = None /\
  master_xfer (adapter (client (tpm_dev (boot chip_nack))))
  = Some (fun _ => mk_reply (-6) []) /\
  (forall i, (i < Z.to_nat trapdoor_limit)%nat ->
             reply_rc (mk_reply (-6) []) <= 0) /\
  master_xfer (adapter (client (tpm_dev (boot (chip_rc 242)))))
  = Some (fun _ => mk_reply 242 []) /\
  reply_rc (mk_reply 242 []) = 242 /\
  (exists w', tpm_i2c_read 0 TPM_HEADER_SIZE (boot no_xfer)
              = Some (161, w')) /\
  (exists w', tpm_i2c_read 0 TPM_HEADER_SIZE (boot chip_nack)
              = Some (242, w')) /\
  (exists w', tpm_i2c_read 0 TPM_HEADER_SIZE (boot (chip_rc 242))
              = Some (242, w')).
Proof.
  assert (H1 : master_xfer (adapter (client (tpm_dev (boot no_xfer))))
               = None) by reflexivity.
  assert (H2 : master_xfer (adapter (client (tpm_dev (boot chip_nack))))
               = Some (fun _ => mk_reply (-6) [])) by reflexivity.
  assert (H3 : forall i, (i < Z.to_nat trapdoor_limit)%nat ->
                         reply_rc (mk_reply (-6) []) <= 0)
    by (intros i _; cbn; lia).
  assert (H4 : master_xfer (adapter (client (tpm_dev (boot (chip_rc 242)))))
               = Some (fun _ => mk_reply 242 [])) by reflexivity.
  assert (H5 : reply_rc (mk_reply 242 []) = 242) by reflexivity.
  split; [exact H1|]. split; [exact H2|]. split; [exact H3|].
  split; [exact H4|]. split; [exact H5|].
  exact (proj2 (proj2 (proj2 (proj2
           (retry_read_status_truncated 0 TPM_HEADER_SIZE
              (boot no_xfer) (boot chip_nack) (boot (chip_rc 242))
              (fun _ => mk_reply (-6) []) (fun _ => mk_reply 242 [])
              H1 H2 H3 H4 H5))))).
Defined.

(** * Further properties

    ** The retry loop: transfers, sleeps and memory *)

Lemma world_eq (d d' : tpm_i2c_atmel_dev) (x x' : nat) (s s' : Z)
      (t t' : list event) :
  d = d' -> x = x' -> s = s' -> t = t' ->
  mk_world d x s t = mk_world d' x' s' t'.
Proof. now intros -> -> -> ->. Qed.

Section RetryLoopWorld.

Variable msg1 : i2c_msg.

(** The loop, when attempt [k] is the first to succeed and the failed ones
    stored nothing: the final world in full. *)
Lemma retry_loop_answer :
  forall (k fuel : nat) (t : Z) (w : world) script,
    master_xfer (adapter (client (tpm_dev w))) = Some script ->
    (k < fuel)%nat ->
    0 <= t -> t + Z.of_nat k < trapdoor_limit ->
    (forall i, (i < k)%nat ->
               reply_rc (script (xfers w + i)%nat) <= 0 /\
               reply_data (script (xfers w + i)%nat) = []) ->
    0 < reply_rc (script (xfers w + k)%nat) ->
    retry_loop fuel msg1 t w =
    Some ((reply_rc (script (xfers w + k)%nat), t + Z.of_nat k),
          mk_world
            (mk_dev (client (tpm_dev w))
                    (deliver msg1 (script (xfers w + k)%nat)
                             (buf (tpm_dev w))))
            (xfers w + S k) (slept w + 5 * Z.of_nat k)
            (repeat (EvXfer msg1) (S k) ++ trace w)).
Proof.
  induction k as [|k IH]; intros fuel t w script Hx Hfuel Ht Hlim Hfail Hpos.
  - destruct fuel as [|fuel]; [lia|].
    cbn [retry_loop]. unfold bind at 1.
    rewrite (i2c_transfer_some msg1 w script Hx).
    rewrite Nat.add_0_r in Hpos. apply Z.ltb_lt in Hpos. rewrite Hpos.
    unfold ret. rewrite !Nat.add_0_r. do 2 f_equal.
    + f_equal. cbn. lia.
    + apply world_eq; try reflexivity; cbn; lia.
  - destruct fuel as [|fuel]; [lia|].
    cbn [retry_loop]. unfold bind at 1.
    rewrite (i2c_transfer_some msg1 w script Hx).
    destruct (Hfail 0%nat) as [Hrc0 Hd0]; [lia|].
    rewrite Nat.add_0_r in Hrc0, Hd0.
    apply Z.ltb_ge in Hrc0. rewrite Hrc0.
    rewrite to_u32_small by (unfold trapdoor_limit in Hlim; lia).
    unfold bind at 1. unfold msleep at 1.
    cbn [tpm_dev xfers slept trace].
    replace (t + 1 <? trapdoor_limit) with true
      by (symmetry; apply Z.ltb_lt; lia).
    rewrite (deliver_no_data _ _ _ Hd0).
    rewrite (IH fuel (t + 1) _ script); cbn [tpm_dev client buf xfers];
      try assumption; try lia.
    + replace (S (xfers w) + k)%nat with (xfers w + S k)%nat by lia.
      do 2 f_equal.
      * f_equal. lia.
      * apply world_eq; cbn [slept trace]; try reflexivity; try lia.
        change (repeat (EvXfer msg1) (S (S k)))
          with (EvXfer msg1 :: repeat (EvXfer msg1) (S k)).
        rewrite (repeat_cons (S k)), <- app_assoc. reflexivity.
    + intros i Hi.
      replace (S (xfers w) + i)%nat with (xfers w + S i)%nat by lia.
      apply Hfail. lia.
    + replace (S (xfers w) + k)%nat with (xfers w + S k)%nat by lia.
      exact Hpos.
Qed.

(** Each failed attempt is followed by one sleep of 5 ms: whatever the
    adapter with a transfer routine answers, the time slept is 5 ms for
    each transfer but a final successful one. *)
Lemma retry_loop_slept :
  forall (fuel : nat) (t : Z) (w : world) script rc t' w',
    master_xfer (adapter (client (tpm_dev w))) = Some script ->
    retry_loop fuel msg1 t w = Some ((rc, t'), w') ->
    slept w' - slept w
    = 5 * (Z.of_nat (xfers w') - Z.of_nat (xfers w)
           - (if 0 <? rc then 1 else 0)).
Proof.
  induction fuel as [|fuel IH]; intros t w script rc t' w' Hx Hrun.
  - discriminate.
  - cbn [retry_loop] in Hrun. unfold bind at 1 in Hrun.
    rewrite (i2c_transfer_some msg1 w script Hx) in Hrun.
    destruct (0 <? reply_rc (script (xfers w))) eqn:Hrc.
    + inversion Hrun; subst. rewrite Hrc. cbn [slept xfers]. lia.
    + unfold bind at 1 in Hrun. unfold msleep at 1 in Hrun.
      cbn [tpm_dev xfers slept trace] in Hrun.
      destruct (to_u32 (t + 1) <? trapdoor_limit).
      * apply IH with (script := script) in Hrun; [|exact Hx].
        cbn [slept xfers] in Hrun. lia.
      * inversion Hrun; subst. rewrite Hrc. cbn [slept xfers]. lia.
Qed.

(** A message for at most [TPM_BUFSIZE] bytes at the base of the array
    leaves the memory behind the array as it is, whatever the adapter
    answers. *)
Lemma retry_loop_frame :
  forall (fuel : nat) (t : Z) (w : world) r w',
    msg_buf msg1 = 0 -> 0 <= msg_len msg1 <= TPM_BUFSIZE ->
    retry_loop fuel msg1 t w = Some (r, w') ->
    skipn (Z.to_nat TPM_BUFSIZE) (buf (tpm_dev w'))
    = skipn (Z.to_nat TPM_BUFSIZE) (buf (tpm_dev w)).
Proof.
  assert (Hstep : forall (r : xfer_reply) (m : list byte),
             msg_buf msg1 = 0 -> 0 <= msg_len msg1 <= TPM_BUFSIZE ->
             skipn (Z.to_nat TPM_BUFSIZE) (deliver msg1 r m)
             = skipn (Z.to_nat TPM_BUFSIZE) m).
  { intros r m Hb Hl. unfold deliver.
    destruct (Z.testbit (msg_flags msg1) 0); [|reflexivity].
    rewrite Hb, store_0.
    set (d := firstn (Z.to_nat (msg_len msg1)) (reply_data r)).
    assert (Hd : (length d <= Z.to_nat TPM_BUFSIZE)%nat).
    { subst d. rewrite length_firstn. lia. }
    rewrite skipn_app, (skipn_all2 d Hd), skipn_skipn. cbn [app].
    f_equal. lia. }
  induction fuel as [|fuel IH]; intros t w r w' Hb Hl Hrun.
  - discriminate.
  - cbn [retry_loop] in Hrun. unfold bind at 1 in Hrun.
    unfold i2c_transfer in Hrun.
    destruct (master_xfer (adapter (client (tpm_dev w)))) as [script|].
    + destruct (0 <? reply_rc (script (xfers w))).
      * inversion Hrun; subst. cbn [tpm_dev buf]. now apply Hstep.
      * unfold bind at 1 in Hrun. unfold msleep at 1 in Hrun.
        cbn [tpm_dev xfers slept trace] in Hrun.
        destruct (to_u32 (t + 1) <? trapdoor_limit).
        -- apply IH in Hrun; try assumption. rewrite Hrun.
           cbn [tpm_dev buf]. now apply Hstep.
        -- inversion Hrun; subst. cbn [tpm_dev buf]. now apply Hstep.
    + destruct (0 <? - EOPNOTSUPP).
      * inversion Hrun; subst. reflexivity.
      * unfold bind at 1 in Hrun. unfold msleep at 1 in Hrun.
        destruct (to_u32 (t + 1) <? trapdoor_limit).
        -- apply IH in Hrun; assumption.
        -- inversion Hrun; subst. reflexivity.
Qed.

End RetryLoopWorld.

(** The loop, when no attempt succeeds and none stores a byte: it stops
    when [trapdoor] reaches the limit, with the memory as it was. *)
Lemma retry_loop_give_up (msg1 : i2c_msg) :
  forall (j fuel : nat) (t : Z) (w : world) script,
    master_xfer (adapter (client (tpm_dev w))) = Some script ->
    (j < fuel)%nat ->
    0 <= t -> t + Z.of_nat (S j) = trapdoor_limit ->
    (forall i, (i <= j)%nat ->
               reply_rc (script (xfers w + i)%nat) <= 0 /\
               reply_data (script (xfers w + i)%nat) = []) ->
    retry_loop fuel msg1 t w =
    Some ((reply_rc (script (xfers w + j)%nat), trapdoor_limit),
          mk_world
            (mk_dev (client (tpm_dev w)) (buf (tpm_dev w)))
            (xfers w + S j) (slept w + 5 * Z.of_nat (S j))
            (repeat (EvXfer msg1) (S j) ++ trace w)).
Proof.
  induction j as [|j IH]; intros fuel t w script Hx Hfuel Ht Hlim Hfail.
  - destruct fuel as [|fuel]; [lia|].
    cbn [retry_loop]. unfold bind at 1.
    rewrite (i2c_transfer_some msg1 w script Hx).
    destruct (Hfail 0%nat) as [Hrc0 Hd0]; [lia|].
    rewrite Nat.add_0_r in Hrc0, Hd0.
    apply Z.ltb_ge in Hrc0. rewrite Hrc0.
    rewrite to_u32_small by (unfold trapdoor_limit in Hlim; lia).
    unfold bind at 1. unfold msleep at 1.
    cbn [tpm_dev xfers slept trace].
    replace (t + 1 <? trapdoor_limit) with false
      by (symmetry; apply Z.ltb_ge; lia).
    rewrite (deliver_no_data _ _ _ Hd0). unfold ret.
    rewrite Nat.add_0_r. do 2 f_equal.
    + f_equal. lia.
    + apply world_eq; try reflexivity; cbn; lia.
  - destruct fuel as [|fuel]; [lia|].
    cbn [retry_loop]. unfold bind at 1.
    rewrite (i2c_transfer_some msg1 w script Hx).
    destruct (Hfail 0%nat) as [Hrc0 Hd0]; [lia|].
    rewrite Nat.add_0_r in Hrc0, Hd0.
    apply Z.ltb_ge in Hrc0. rewrite Hrc0.
    rewrite to_u32_small by (unfold trapdoor_limit in Hlim; lia).
    unfold bind at 1. unfold msleep at 1.
    cbn [tpm_dev xfers slept trace].
    replace (t + 1 <? trapdoor_limit) with true
      by (symmetry; apply Z.ltb_lt; lia).
    rewrite (deliver_no_data _ _ _ Hd0).
    rewrite (IH fuel (t + 1) _ script); cbn [tpm_dev client buf xfers];
      try assumption; try lia.
    + replace (S (xfers w) + j)%nat with (xfers w + S j)%nat by lia.
      do 2 f_equal.
      apply world_eq; cbn [slept trace]; try reflexivity; try lia.
      change (repeat (EvXfer msg1) (S (S j)))
        with (EvXfer msg1 :: repeat (EvXfer msg1) (S j)).
      rewrite (repeat_cons (S j)), <- app_assoc. reflexivity.
    + intros i Hi.
      replace (S (xfers w) + i)%nat with (xfers w + S i)%nat by lia.
      apply Hfail. lia.
Qed.

(** ** The bounded-retry read: the world it leaves *)

Lemma tpm_i2c_read_answer (buffer len : Z) (w : world) script (k : nat) :
  master_xfer (adapter (client (tpm_dev w))) = Some script ->
  answers_at script (xfers w) k ->
  tpm_i2c_read buffer len w =
  Some (to_u8 (reply_rc (script (xfers w + k)%nat)),
        after_read w buffer len k (script (xfers w + k)%nat)).
Proof.
  intros Hx (Hk & Hfail & Hpos).
  unfold tpm_i2c_read, bind, log, gets, push. cbn [tpm_dev]. rewrite Hx.
  rewrite (retry_loop_answer _ k (Z.to_nat trapdoor_limit) 0 _ script);
    cbn [tpm_dev client buf xfers slept trace];
    try assumption; try (unfold trapdoor_limit in *; lia).
  replace (trapdoor_limit <=? 0 + Z.of_nat k) with false
    by (symmetry; apply Z.leb_gt; unfold trapdoor_limit in *; lia).
  reflexivity.
Qed.

Lemma tpm_i2c_read_giving_up (buffer len : Z) (w : world) script :
  master_xfer (adapter (client (tpm_dev w))) = Some script ->
  never_answers script (xfers w) ->
  tpm_i2c_read buffer len w =
  Some (to_u8 (- EFAULT), after_giving_up w buffer len).
Proof.
  intros Hx Hnever.
  unfold tpm_i2c_read, bind, log, gets, push. cbn [tpm_dev]. rewrite Hx.
  rewrite (retry_loop_give_up _ (Z.to_nat trapdoor_limit - 1)
             (Z.to_nat trapdoor_limit) 0 _ script);
    cbn [tpm_dev client buf xfers slept trace];
    try assumption; try (unfold trapdoor_limit in *; lia).
  - rewrite Z.leb_refl.
    replace (S (Z.to_nat trapdoor_limit - 1)) with (Z.to_nat trapdoor_limit)
      by (unfold trapdoor_limit; lia).
    rewrite Z2Nat.id by (unfold trapdoor_limit; lia).
    reflexivity.
  - intros i Hi. apply Hnever. unfold trapdoor_limit in *. lia.
Qed.

(** The account of a call of [tpm_i2c_read]: result, transfers and sleep. *)
Lemma retry_read_budget_aux (buffer len : Z) (w : world) script :
  master_xfer (adapter (client (tpm_dev w))) = Some script ->
  exists rc w' (n failed : nat),
    tpm_i2c_read buffer len w = Some (rc, w') /\
    0 <= rc <= 255 /\
    xfers w' = (xfers w + n)%nat /\
    (1 <= n <= Z.to_nat trapdoor_limit)%nat /\
    slept w' = slept w + 5 * Z.of_nat failed /\
    ((failed = n /\ n = Z.to_nat trapdoor_limit /\ rc = to_u8 (- EFAULT)) \/
     S failed = n) /\
    slept w' <= slept w + 300000.
Proof.
  intros Hx.
  pose proof (retry_loop_spec
                (mk_msg (addr (client (tpm_dev w))) I2C_M_RD (to_u16 len)
                        buffer)
                (Z.to_nat trapdoor_limit) 0
                (push (EvRetryRead buffer len) w) script Hx) as Hspec.
  destruct Hspec as (rc & t' & w' & k & Hrun & Hxf & _ & _ & _ & _ & _ & Hend);
    [unfold trapdoor_limit; lia | unfold trapdoor_limit; lia |].
  pose proof (retry_loop_slept _ _ _ (push (EvRetryRead buffer len) w)
                script rc t' w' Hx Hrun) as Hs.
  cbn [push xfers slept] in Hxf, Hs.
  assert (Hres : tpm_i2c_read buffer len w =
                 Some (if trapdoor_limit <=? t'
                       then to_u8 (- EFAULT) else to_u8 rc, w')).
  { unfold tpm_i2c_read, bind, log, gets, push. cbn [tpm_dev]. rewrite Hx.
    unfold push in Hrun. rewrite Hrun.
    destruct (trapdoor_limit <=? t'); reflexivity. }
  assert (Hu8 : forall z, 0 <= to_u8 z <= 255).
  { intros z. unfold to_u8.
    pose proof (Z.mod_pos_bound z (2 ^ 8)). lia. }
  destruct Hend as [(Hpos & Hteq & Ht') | (Hneg & Ht' & Hk)].
  - exists (to_u8 rc), w', (S k), k.
    assert (Hk : (S k <= Z.to_nat trapdoor_limit)%nat)
      by (unfold trapdoor_limit in *; lia).
    apply Z.leb_gt in Ht'. rewrite Ht' in Hres.
    apply Z.ltb_lt in Hpos. rewrite Hpos in Hs.
    split; [exact Hres|]. split; [apply Hu8|]. split; [exact Hxf|].
    split; [lia|]. split; [lia|]. split; [right; reflexivity|].
    unfold trapdoor_limit in *. lia.
  - exists (to_u8 (- EFAULT)), w', (S k), (S k).
    rewrite Ht', Z.leb_refl in Hres.
    replace (0 <? rc) with false in Hs by (symmetry; apply Z.ltb_ge; lia).
    split; [exact Hres|]. split; [apply Hu8|]. split; [exact Hxf|].
    split; [unfold trapdoor_limit in *; lia|]. split; [lia|].
    split; [left; repeat split; lia|].
    unfold trapdoor_limit in *. lia.
Qed.

Lemma failed_attempts_all (script : nat -> xfer_reply) (n from : nat) :
  (forall i, (i < n)%nat -> reply_rc (script (from + i)%nat) <= 0) ->
  failed_attempts script from n = n.
Proof.
  revert from. induction n as [|n IH]; intros from Hfail; [reflexivity|].
  cbn [failed_attempts].
  pose proof (Hfail 0%nat ltac:(lia)) as H0. rewrite Nat.add_0_r in H0.
  replace (0 <? reply_rc (script from)) with false
    by (symmetry; apply Z.ltb_ge; exact H0).
  rewrite IH; [reflexivity|].
  intros i Hi. replace (S from + i)%nat with (from + S i)%nat by lia.
  apply Hfail. lia.
Qed.

Lemma failed_attempts_but_last (script : nat -> xfer_reply) (k from : nat) :
  (forall i, (i < k)%nat -> reply_rc (script (from + i)%nat) <= 0) ->
  0 < reply_rc (script (from + k)%nat) ->
  failed_attempts script from (S k) = k.
Proof.
  revert from. induction k as [|k IH]; intros from Hfail Hpos.
  - cbn [failed_attempts]. rewrite Nat.add_0_r in Hpos.
    apply Z.ltb_lt in Hpos. rewrite Hpos. reflexivity.
  - change (failed_attempts script from (S (S k)))
      with ((if (0 <? reply_rc (script from))%Z then 0 else 1)
            + failed_attempts script (S from) (S k))%nat.
    pose proof (Hfail 0%nat ltac:(lia)) as H0. rewrite Nat.add_0_r in H0.
    replace (0 <? reply_rc (script from)) with false
      by (symmetry; apply Z.ltb_ge; exact H0).
    rewrite IH; [reflexivity| |].
    + intros i Hi. replace (S from + i)%nat with (from + S i)%nat by lia.
      apply Hfail. lia.
    + replace (S from + k)%nat with (from + S k)%nat by lia. exact Hpos.
Qed.

(** X1: on an adapter with a transfer routine, whatever it answers, a call
    of [tpm_i2c_read] returns a value between 0 and 255 (never a negative
    error code) after [n] raw transfers, at least one and at most 60000.
    It tries again exactly as long as the adapter fails: every attempt
    before the last one failed, and the last one either succeeded, and its
    result reduced to [u8] is returned, or failed as well, and then it was
    attempt 60000 and 242 is returned.  The time slept is 5 ms for each of
    the [n] attempts that failed and nothing else: 5 ms times [n - 1] when
    the last attempt succeeded, 300000 ms, the most it can be, when the
    call gave up. *)
Theorem retry_read_budget (buffer len : Z) (w : world) script :
  master_xfer (adapter (client (tpm_dev w))) = Some script ->
  exists rc w' (n : nat),
    tpm_i2c_read buffer len w = Some (rc, w') /\
    0 <= rc <= 255 /\
    (1 <= n <= Z.to_nat trapdoor_limit)%nat /\
    xfers w' = (xfers w + n)%nat /\
    (forall i, (S i < n)%nat -> reply_rc (script (xfers w + i)%nat) <= 0) /\
    ((0 < reply_rc (script (xfers w + (n - 1))%nat) /\
      rc = to_u8 (reply_rc (script (xfers w + (n - 1))%nat)) /\
      slept w' = slept w + 5 * (Z.of_nat n - 1)) \/
     (reply_rc (script (xfers w + (n - 1))%nat) <= 0 /\
      n = Z.to_nat trapdoor_limit /\
      rc = to_u8 (- EFAULT) /\
      slept w' = slept w + 5 * trapdoor_limit)) /\
    slept w' = slept w + 5 * Z.of_nat (failed_attempts script (xfers w) n) /\
    slept w <= slept w' <= slept w + 300000.
Proof.
  intros Hx.
  pose proof (retry_loop_spec
                (mk_msg (addr (client (tpm_dev w))) I2C_M_RD (to_u16 len)
                        buffer)
                (Z.to_nat trapdoor_limit) 0
                (push (EvRetryRead buffer len) w) script Hx) as Hspec.
  destruct Hspec
    as (rc & t' & w' & k & Hrun & Hxf & _ & _ & _ & Hlast & Hfail & Hend);
    [unfold trapdoor_limit; lia | unfold trapdoor_limit; lia |].
  pose proof (retry_loop_slept _ _ _ (push (EvRetryRead buffer len) w)
                script rc t' w' Hx Hrun) as Hs.
  cbn [push xfers slept] in Hxf, Hs, Hlast, Hfail.
  assert (Hres : tpm_i2c_read buffer len w =
                 Some (if trapdoor_limit <=? t'
                       then to_u8 (- EFAULT) else to_u8 rc, w')).
  { unfold tpm_i2c_read, bind, log, gets, push. cbn [tpm_dev]. rewrite Hx.
    unfold push in Hrun. rewrite Hrun.
    destruct (trapdoor_limit <=? t'); reflexivity. }
  assert (Hu8 : forall z, 0 <= to_u8 z <= 255).
  { intros z. unfold to_u8.
    pose proof (Z.mod_pos_bound z (2 ^ 8)). lia. }
  assert (Hbefore : forall i, (S i < S k)%nat ->
                              reply_rc (script (xfers w + i)%nat) <= 0).
  { intros i Hi. apply Hfail. lia. }
  destruct Hend as [(Hpos & Hteq & Ht') | (Hneg & Ht' & Hk)].
  - exists (to_u8 rc), w', (S k).
    replace (S k - 1)%nat with k by lia. rewrite <- Hlast.
    apply Z.leb_gt in Ht'. rewrite Ht' in Hres.
    assert (Hposb : (0 <? rc) = true) by (apply Z.ltb_lt; exact Hpos).
    rewrite Hposb in Hs.
    rewrite (failed_attempts_but_last script k (xfers w) Hfail)
      by (rewrite <- Hlast; exact Hpos).
    apply Z.leb_gt in Ht'.
    split; [exact Hres|]. split; [apply Hu8|].
    split; [unfold trapdoor_limit in *; lia|]. split; [exact Hxf|].
    split; [exact Hbefore|].
    split; [left; repeat split; [exact Hpos | lia] |].
    unfold trapdoor_limit in *. split; lia.
  - exists (to_u8 (- EFAULT)), w', (S k).
    replace (S k - 1)%nat with k by lia. rewrite <- Hlast.
    rewrite Ht', Z.leb_refl in Hres.
    replace (0 <? rc) with false in Hs by (symmetry; apply Z.ltb_ge; lia).
    rewrite (failed_attempts_all script (S k) (xfers w)).
    + split; [exact Hres|]. split; [apply Hu8|].
      split; [unfold trapdoor_limit in *; lia|]. split; [exact Hxf|].
      split; [exact Hbefore|].
      split; [right; repeat split; unfold trapdoor_limit in *; lia |].
      unfold trapdoor_limit in *. split; lia.
    + intros i Hi. destruct (Nat.eq_dec i k) as [->|Hne].
      * rewrite <- Hlast. exact Hneg.
      * apply Hfail. lia.
Qed.

Lemma read_msg_deliver (w : world) (buffer len : Z) (r : xfer_reply)
      (m : list byte) :
  0 <= len <= 65535 ->
  deliver (read_msg w buffer len) r m
  = store buffer (firstn (Z.to_nat len) (reply_data r)) m.
Proof.
  intros Hl. unfold deliver, read_msg. cbn [msg_flags msg_buf msg_len].
  rewrite to_u16_small by lia. reflexivity.
Qed.

(** X2: when none of the 60000 attempts gets a positive answer (and none
    stores a byte), [tpm_i2c_read] has made exactly 60000 transfers and
    slept exactly 300000 ms, the five minutes of the comment on line 79,
    before it returns its truncated [-EFAULT]; the memory is as before. *)
Theorem giving_up_takes_five_minutes
        (buffer len : Z) (w : world) script :
  master_xfer (adapter (client (tpm_dev w))) = Some script ->
  never_answers script (xfers w) ->
  exists w',
    tpm_i2c_read buffer len w = Some (to_u8 (- EFAULT), w') /\
    Z.of_nat (xfers w') = Z.of_nat (xfers w) + 60000 /\
    slept w' = slept w + 5 * 60 * 1000 /\
    buf (tpm_dev w') = buf (tpm_dev w) /\
    raw_xfers (since w w')
    = repeat (read_msg w buffer len) (Z.to_nat trapdoor_limit).
Proof.
  intros Hx Hnever.
  exists (after_giving_up w buffer len).
  split; [exact (tpm_i2c_read_giving_up buffer len w script Hx Hnever)|].
  unfold after_giving_up. cbn [xfers slept tpm_dev buf].
  split; [unfold trapdoor_limit; lia|].
  split; [unfold trapdoor_limit; lia|]. split; [reflexivity|].
  rewrite (since_app w _
             (repeat (EvXfer (read_msg w buffer len))
                     (Z.to_nat trapdoor_limit)
              ++ [EvRetryRead buffer len]))
    by (cbn [trace]; now rewrite <- app_assoc).
  rewrite rev_app_distr, rev_repeat. cbn [rev app raw_xfers].
  apply raw_xfers_repeat.
Qed.

(** X3: when attempt number [k] (from 0) is the first with a positive
    answer and the failed ones stored nothing, [tpm_i2c_read] makes [k + 1]
    transfers, sleeps [5 * k] ms, returns the answer modulo 256, and the
    memory holds at [buffer] the first [len] bytes the device sent in that
    answer (fewer if it sent fewer), the rest as before. *)
Theorem answer_after_failures
        (buffer len : Z) (w : world) script (k : nat) :
  master_xfer (adapter (client (tpm_dev w))) = Some script ->
  answers_at script (xfers w) k ->
  0 <= len <= 65535 ->
  exists w',
    tpm_i2c_read buffer len w
    = Some (to_u8 (reply_rc (script (xfers w + k)%nat)), w') /\
    xfers w' = (xfers w + S k)%nat /\
    slept w' = slept w + 5 * Z.of_nat k /\
    buf (tpm_dev w')
    = store buffer
            (firstn (Z.to_nat len) (reply_data (script (xfers w + k)%nat)))
            (buf (tpm_dev w)).
Proof.
  intros Hx Hans Hl.
  exists (after_read w buffer len k (script (xfers w + k)%nat)).
  split; [exact (tpm_i2c_read_answer buffer len w script k Hx Hans)|].
  unfold after_read. cbn [xfers slept tpm_dev buf].
  repeat split. apply read_msg_deliver. exact Hl.
Qed.

(** ** The read operation: what reaches the caller *)

Lemma zeroed_run (w : world) :
  memset 0 TPM_BUFSIZE w = Some (tt, zeroed w).
Proof. apply memset_run. Qed.

Lemma header_phase_zeroed (w : world) :
  header_phase w = tpm_i2c_read 0 TPM_HEADER_SIZE (zeroed w).
Proof. apply header_phase_run. Qed.

(** The memory after a header read that stored the six bytes of [hdr]. *)
Lemma header_stored (hdr rest : list byte) :
  (6 <= length hdr)%nat ->
  store 0 (firstn (Z.to_nat TPM_HEADER_SIZE) hdr)
        (zeros TPM_BUFSIZE ++ rest)
  = firstn 6 hdr ++ zeros (TPM_BUFSIZE - TPM_HEADER_SIZE) ++ rest.
Proof.
  intros Hlen. rewrite store_0.
  change (Z.to_nat TPM_HEADER_SIZE) with 6%nat.
  rewrite firstn_length_le by exact Hlen.
  apply (f_equal (app (firstn 6 hdr))).
  rewrite skipn_app, zeros_length. unfold zeros at 1.
  rewrite skipn_repeat.
  replace (6 - Z.to_nat TPM_BUFSIZE)%nat with 0%nat
    by (unfold TPM_BUFSIZE; lia).
  reflexivity.
Qed.

Lemma decode_expected_prefix (hdr rest : list byte) :
  (6 <= length hdr)%nat ->
  decode_expected (firstn 6 hdr ++ rest) = decode_expected hdr.
Proof.
  intros Hlen. rewrite !decode_expected_eq.
  rewrite !app_nth1 by (rewrite firstn_length_le by exact Hlen; lia).
  rewrite !nth_firstn. reflexivity.
Qed.

(** The header phase when attempt [k1] answers: its world, and the length
    then decoded, which is the one written in the bytes received. *)
Lemma header_phase_answer (w : world) script (k1 : nat) :
  master_xfer (adapter (client (tpm_dev w))) = Some script ->
  answers_at script (xfers w) k1 ->
  (6 <= length (reply_data (script (xfers w + k1)%nat)))%nat ->
  exists w1,
    header_phase w
    = Some (to_u8 (reply_rc (script (xfers w + k1)%nat)), w1) /\
    client (tpm_dev w1) = client (tpm_dev w) /\
    xfers w1 = (xfers w + S k1)%nat /\
    slept w1 = slept w + 5 * Z.of_nat k1 /\
    buf (tpm_dev w1)
    = firstn 6 (reply_data (script (xfers w + k1)%nat))
      ++ zeros (TPM_BUFSIZE - TPM_HEADER_SIZE)
      ++ skipn (Z.to_nat TPM_BUFSIZE) (buf (tpm_dev w)) /\
    decode_expected (buf (tpm_dev w1))
    = decode_expected (reply_data (script (xfers w + k1)%nat)).
Proof.
  intros Hx Hans Hlen.
  exists (after_read (zeroed w) 0 TPM_HEADER_SIZE k1
                     (script (xfers w + k1)%nat)).
  assert (Hbuf : buf (tpm_dev (after_read (zeroed w) 0 TPM_HEADER_SIZE k1
                                 (script (xfers w + k1)%nat)))
                 = firstn 6 (reply_data (script (xfers w + k1)%nat))
                   ++ zeros (TPM_BUFSIZE - TPM_HEADER_SIZE)
                   ++ skipn (Z.to_nat TPM_BUFSIZE) (buf (tpm_dev w))).
  { unfold after_read. cbn [tpm_dev buf].
    rewrite read_msg_deliver by (unfold TPM_HEADER_SIZE; lia).
    unfold zeroed, with_buf. cbn [tpm_dev buf].
    apply header_stored. exact Hlen. }
  split.
  { rewrite header_phase_zeroed.
    exact (tpm_i2c_read_answer 0 TPM_HEADER_SIZE (zeroed w) script k1
             Hx Hans). }
  split; [reflexivity|]. split; [reflexivity|]. split; [reflexivity|].
  split; [exact Hbuf|].
  rewrite Hbuf. apply decode_expected_prefix. exact Hlen.
Qed.

Lemma load_0 (n : Z) (m : list byte) : load 0 n m = firstn (Z.to_nat n) m.
Proof. reflexivity. Qed.

Lemma firstn_store_0 (n : nat) (data m : list byte) :
  (n <= length data)%nat ->
  firstn n (store 0 (firstn n data) m) = firstn n data.
Proof.
  intros Hn. rewrite store_0, firstn_app.
  rewrite firstn_length_le by exact Hn.
  rewrite Nat.sub_diag. cbn [firstn]. rewrite app_nil_r.
  apply firstn_all2. rewrite firstn_length_le by exact Hn. lia.
Qed.

Lemma firstn_repeat {A} (x : A) (n m : nat) :
  (n <= m)%nat -> firstn n (repeat x m) = repeat x n.
Proof.
  revert m. induction n as [|n IH]; intros m Hn; [reflexivity|].
  destruct m as [|m]; [lia|]. cbn. f_equal. apply IH. lia.
Qed.

(** The first [n] bytes of an array that holds six header bytes, then
    zeros. *)
Lemma firstn_header_zeros (hdr rest : list byte) (n : Z) :
  (6 <= length hdr)%nat ->
  TPM_HEADER_SIZE <= n <= TPM_BUFSIZE ->
  firstn (Z.to_nat n)
         (firstn 6 hdr ++ zeros (TPM_BUFSIZE - TPM_HEADER_SIZE) ++ rest)
  = firstn 6 hdr ++ zeros (n - TPM_HEADER_SIZE).
Proof.
  intros Hlen Hn. unfold TPM_HEADER_SIZE, TPM_BUFSIZE in *.
  rewrite firstn_app, firstn_firstn, firstn_length_le by exact Hlen.
  replace (Init.Nat.min (Z.to_nat n) 6) with 6%nat by lia.
  apply (f_equal (app (firstn 6 hdr))).
  rewrite firstn_app. unfold zeros.
  rewrite firstn_repeat, repeat_length by lia.
  replace (Z.to_nat n - 6 - Z.to_nat (1024 - 6))%nat with 0%nat by lia.
  cbn [firstn]. rewrite app_nil_r. f_equal. lia.
Qed.

(** A run whose header read and second read are both answered: the
    second answer lies at the base of the memory. *)
Lemma long_response_run
      (ubuf : list byte) (count : Z) (w : world) script (k1 k2 : nat) :
  master_xfer (adapter (client (tpm_dev w))) = Some script ->
  answers_at script (xfers w) k1 ->
  answers_at script (xfers w + S k1) k2 ->
  (6 <= length (reply_data (script (xfers w + k1)%nat)))%nat ->
  TPM_HEADER_SIZE
  < decode_expected (reply_data (script (xfers w + k1)%nat)) ->
  decode_expected (reply_data (script (xfers w + k1)%nat))
  <= Z.of_nat (length (reply_data (script (xfers w + S k1 + k2)%nat))) ->
  exists w',
    tpm_tis_i2c_read ubuf count w
    = Some ((if decode_expected (reply_data (script (xfers w + k1)%nat))
                <=? Z.of_nat (length ubuf)
             then decode_expected (reply_data (script (xfers w + k1)%nat))
             else - EFAULT,
             delivered ubuf
               (decode_expected (reply_data (script (xfers w + k1)%nat)))
               (buf (tpm_dev w'))),
            w') /\
    xfers w' = (xfers w + S k1 + S k2)%nat /\
    slept w' = slept w + 5 * Z.of_nat (k1 + k2) /\
    firstn (Z.to_nat
              (decode_expected (reply_data (script (xfers w + k1)%nat))))
           (buf (tpm_dev w'))
    = firstn (Z.to_nat
                (decode_expected (reply_data (script (xfers w + k1)%nat))))
             (reply_data (script (xfers w + S k1 + k2)%nat)).
Proof.
  intros Hx Hans1 Hans2 Hlen Hlong Hbody.
  set (hdr := reply_data (script (xfers w + k1)%nat)) in *.
  set (body := reply_data (script (xfers w + S k1 + k2)%nat)) in *.
  set (total := decode_expected hdr) in *.
  destruct (header_phase_answer w script k1 Hx Hans1 Hlen)
    as (w1 & Hh & Hcl & Hxf1 & Hs1 & Hbuf1 & Hdec).
  fold hdr in Hdec. fold total in Hdec.
  pose proof (decode_expected_range hdr) as Hrange. fold total in Hrange.
  rewrite (tpm_tis_i2c_read_unfold ubuf count w _ w1 Hh), Hdec.
  replace (total <=? TPM_HEADER_SIZE) with false
    by (symmetry; apply Z.leb_gt; exact Hlong).
  assert (Hx1 : master_xfer (adapter (client (tpm_dev w1))) = Some script)
    by (now rewrite Hcl).
  rewrite <- Hxf1 in Hans2.
  rewrite (tpm_i2c_read_answer 0 total w1 script k2 Hx1 Hans2).
  cbv zeta.
  assert (Hb2 : firstn (Z.to_nat total)
                  (buf (tpm_dev (after_read w1 0 total k2
                                   (script (xfers w1 + k2)%nat))))
                = firstn (Z.to_nat total) body).
  { unfold after_read. cbn [tpm_dev buf].
    rewrite read_msg_deliver by lia.
    rewrite Hxf1. fold body. apply firstn_store_0. lia. }
  exists (push (EvCopyToUser 0 total)
               (after_read w1 0 total k2 (script (xfers w1 + k2)%nat))).
  split; [reflexivity|]. split; [|split].
  - cbn [push after_read xfers]. rewrite Hxf1. reflexivity.
  - cbn [push after_read slept]. rewrite Hs1. lia.
  - exact Hb2.
Qed.

(** X4: a device that answers the header read (after [k1] failed attempts)
    with a header [hdr] announcing [total > 6] bytes, and then answers the
    second read (after [k2] failed attempts) with at least [total] bytes
    [body]: the caller, whose memory takes [total] bytes, receives exactly
    the first [total] bytes of [body] and the return value [total]; the
    bytes of the first answer are not part of what is delivered.  The read
    made [k1 + k2 + 2] transfers and slept [5 * (k1 + k2)] ms. *)
Theorem response_delivered
        (ubuf : list byte) (count : Z) (w : world) script (k1 k2 : nat) :
  master_xfer (adapter (client (tpm_dev w))) = Some script ->
  answers_at script (xfers w) k1 ->
  answers_at script (xfers w + S k1) k2 ->
  let hdr := reply_data (script (xfers w + k1)%nat) in
  let body := reply_data (script (xfers w + S k1 + k2)%nat) in
  let total := decode_expected hdr in
  (6 <= length hdr)%nat ->
  TPM_HEADER_SIZE < total ->
  total <= Z.of_nat (length body) ->
  total <= Z.of_nat (length ubuf) ->
  exists w',
    tpm_tis_i2c_read ubuf count w
    = Some ((total,
             firstn (Z.to_nat total) body ++ skipn (Z.to_nat total) ubuf),
            w') /\
    xfers w' = (xfers w + S k1 + S k2)%nat /\
    slept w' = slept w + 5 * Z.of_nat (k1 + k2).
Proof.
  intros Hx Hans1 Hans2 hdr body total Hlen Hlong Hbody Hfit.
  destruct (long_response_run ubuf count w script k1 k2
              Hx Hans1 Hans2 Hlen Hlong Hbody)
    as (w' & Hrun & Hxf & Hs & Hb).
  fold hdr in Hrun, Hb. fold body in Hb. fold total in Hrun, Hb.
  exists w'. split; [|split; assumption].
  rewrite Hrun, (delivered_fits _ _ _ Hfit), load_0, Hb.
  apply Z.leb_le in Hfit. now rewrite Hfit.
Qed.

(** X11: when the header announces more than 1024 bytes and the device
    sends them, the second read stores all of them at the base of the
    array: the bytes of the response from index 1024 on replace what lay
    in memory behind the array. *)
Theorem response_overwrites_behind_array
        (ubuf : list byte) (count : Z) (w : world) script (k1 k2 : nat) :
  master_xfer (adapter (client (tpm_dev w))) = Some script ->
  answers_at script (xfers w) k1 ->
  answers_at script (xfers w + S k1) k2 ->
  let hdr := reply_data (script (xfers w + k1)%nat) in
  let body := reply_data (script (xfers w + S k1 + k2)%nat) in
  let total := decode_expected hdr in
  (6 <= length hdr)%nat ->
  TPM_BUFSIZE < total ->
  total <= Z.of_nat (length body) ->
  exists r w',
    tpm_tis_i2c_read ubuf count w = Some (r, w') /\
    load TPM_BUFSIZE (total - TPM_BUFSIZE) (buf (tpm_dev w'))
    = skipn (Z.to_nat TPM_BUFSIZE) (firstn (Z.to_nat total) body) /\
    Z.of_nat (length (load TPM_BUFSIZE (total - TPM_BUFSIZE)
                           (buf (tpm_dev w'))))
    = total - TPM_BUFSIZE.
Proof.
  intros Hx Hans1 Hans2 hdr body total Hlen Hlong Hbody.
  destruct (long_response_run ubuf count w script k1 k2
              Hx Hans1 Hans2 Hlen) as (w' & Hrun & _ & _ & Hb).
  { fold hdr. fold total. unfold TPM_BUFSIZE, TPM_HEADER_SIZE in *. lia. }
  { exact Hbody. }
  fold hdr in Hrun, Hb. fold body in Hb. fold total in Hrun, Hb.
  eexists _, w'. split; [exact Hrun|].
  assert (Hload : load TPM_BUFSIZE (total - TPM_BUFSIZE) (buf (tpm_dev w'))
                  = skipn (Z.to_nat TPM_BUFSIZE)
                          (firstn (Z.to_nat total) body)).
  { unfold load. rewrite <- Hb, skipn_firstn_comm.
    apply (f_equal (fun n => firstn n _)).
    unfold TPM_BUFSIZE in *. lia. }
  split; [exact Hload|].
  rewrite Hload, length_skipn, firstn_length_le by lia.
  unfold TPM_BUFSIZE in *. lia.
Qed.

(** X5: when the header the device sends announces a length [total] of at
    most six bytes, the caller receives the first [total] bytes of that
    header after the one header read, and no second read is attempted. *)
Theorem short_response_delivered
        (ubuf : list byte) (count : Z) (w : world) script (k1 : nat) :
  master_xfer (adapter (client (tpm_dev w))) = Some script ->
  answers_at script (xfers w) k1 ->
  let hdr := reply_data (script (xfers w + k1)%nat) in
  let total := decode_expected hdr in
  (6 <= length hdr)%nat ->
  total <= TPM_HEADER_SIZE ->
  total <= Z.of_nat (length ubuf) ->
  exists w',
    tpm_tis_i2c_read ubuf count w
    = Some ((total,
             firstn (Z.to_nat total) hdr ++ skipn (Z.to_nat total) ubuf),
            w') /\
    xfers w' = (xfers w + S k1)%nat /\
    read_calls (since w w') = [(0, TPM_HEADER_SIZE)].
Proof.
  intros Hx Hans1 hdr total Hlen Hshort Hfit.
  destruct (header_phase_answer w script k1 Hx Hans1 Hlen)
    as (w1 & Hh & Hcl & Hxf1 & Hs1 & Hbuf1 & Hdec).
  fold hdr in Hdec, Hbuf1. fold total in Hdec.
  pose proof (decode_expected_range hdr) as Hrange. fold total in Hrange.
  destruct (tpm_tis_i2c_read_shape ubuf count w _ w1 Hh)
    as (w' & k & Hrun & _ & Hxf & Hsame & _).
  destruct (tpm_tis_i2c_read_events ubuf count w _ w1 _ w' Hh Hrun)
    as (k1' & k2' & Hev & _).
  rewrite Hdec in Hrun, Hxf, Hsame, Hev.
  exists w'. split; [|split].
  - rewrite Hrun, (delivered_fits _ _ _ Hfit), load_0, (Hsame Hshort), Hbuf1.
    apply Z.leb_le in Hfit. rewrite Hfit. do 3 f_equal.
    rewrite firstn_app, firstn_firstn.
    rewrite firstn_length_le by exact Hlen.
    replace (Z.to_nat total - 6)%nat with 0%nat
      by (unfold TPM_HEADER_SIZE in Hshort; lia).
    cbn [firstn]. rewrite app_nil_r.
    apply (f_equal (fun l => l ++ skipn (Z.to_nat total) ubuf)).
    apply (f_equal (fun n => firstn n hdr)).
    unfold TPM_HEADER_SIZE in Hshort. lia.
  - apply Z.leb_le in Hshort. rewrite Hshort in Hxf. lia.
  - rewrite Hev, read_events_calls.
    apply Z.leb_le in Hshort. now rewrite Hshort.
Qed.

(** X6: a failure of the second read is not reported either.  When the
    header announces [total] bytes (above 6, at most 1024) and the 60000
    attempts of the second read all fail, [tpm_tis_i2c_read] still returns
    [total], and the caller receives the six header bytes followed by
    [total - 6] zero bytes, after 300000 ms of sleep in the second read. *)
Theorem body_failure_not_reported
        (ubuf : list byte) (count : Z) (w : world) script (k1 : nat) :
  master_xfer (adapter (client (tpm_dev w))) = Some script ->
  answers_at script (xfers w) k1 ->
  never_answers script (xfers w + S k1) ->
  let hdr := reply_data (script (xfers w + k1)%nat) in
  let total := decode_expected hdr in
  (6 <= length hdr)%nat ->
  TPM_HEADER_SIZE < total <= TPM_BUFSIZE ->
  total <= Z.of_nat (length ubuf) ->
  exists w',
    tpm_tis_i2c_read ubuf count w
    = Some ((total,
             firstn 6 hdr ++ zeros (total - TPM_HEADER_SIZE)
             ++ skipn (Z.to_nat total) ubuf),
            w') /\
    slept w' = slept w + 5 * Z.of_nat k1 + 300000.
Proof.
  intros Hx Hans1 Hnever hdr total Hlen Htotal Hfit.
  destruct (header_phase_answer w script k1 Hx Hans1 Hlen)
    as (w1 & Hh & Hcl & Hxf1 & Hs1 & Hbuf1 & Hdec).
  fold hdr in Hdec, Hbuf1. fold total in Hdec.
  rewrite (tpm_tis_i2c_read_unfold ubuf count w _ w1 Hh), Hdec.
  replace (total <=? TPM_HEADER_SIZE) with false
    by (symmetry; apply Z.leb_gt; lia).
  assert (Hx1 : master_xfer (adapter (client (tpm_dev w1))) = Some script)
    by (now rewrite Hcl).
  rewrite <- Hxf1 in Hnever.
  rewrite (tpm_i2c_read_giving_up 0 total w1 script Hx1 Hnever).
  cbv zeta. eexists. split.
  - rewrite (delivered_fits _ _ _ Hfit).
    cbn [push after_giving_up tpm_dev buf]. rewrite load_0, Hbuf1.
    apply Z.leb_le in Hfit. rewrite Hfit.
    rewrite firstn_header_zeros by (exact Hlen || lia).
    rewrite <- app_assoc. reflexivity.
  - cbn [push after_giving_up slept]. rewrite Hs1.
    unfold trapdoor_limit. lia.
Qed.

(** ** An adapter without a transfer routine *)

(** X7: on an adapter that has no transfer routine, [tpm_tis_i2c_read]
    does not fail: it makes no transfer, does not sleep, drops the
    [-EOPNOTSUPP] of the header read, returns 0 and leaves the caller's
    memory alone, the array being zeroed.  [tpm_tis_i2c_write] of a
    request that fits reports the same condition as [-EIO], also without
    any transfer. *)
Theorem no_transfer_routine
        (ubuf : list byte) (count : Z) (w : world) :
  master_xfer (adapter (client (tpm_dev w))) = None ->
  (exists w',
      tpm_tis_i2c_read ubuf count w = Some ((0, ubuf), w') /\
      xfers w' = xfers w /\ slept w' = slept w /\
      device_buffer w' = zeros TPM_BUFSIZE /\
      since w w'
      = [EvMemset 0 TPM_BUFSIZE; EvRetryRead 0 TPM_HEADER_SIZE;
         EvCopyToUser 0 0]) /\
  (count <= TPM_BUFSIZE -> count <= Z.of_nat (length ubuf) ->
   exists w',
     tpm_tis_i2c_write ubuf count w = Some (- EIO, w') /\
     xfers w' = xfers w /\ raw_xfers (since w w') = []).
Proof.
  intros Hx. split.
  - assert (Hh : header_phase w
                 = Some (to_u8 (- EOPNOTSUPP),
                         push (EvRetryRead 0 TPM_HEADER_SIZE) (zeroed w))).
    { rewrite header_phase_zeroed.
      apply tpm_i2c_read_unsupported. exact Hx. }
    assert (Hd : decode_expected
                   (buf (tpm_dev (push (EvRetryRead 0 TPM_HEADER_SIZE)
                                       (zeroed w)))) = 0)
      by apply decode_expected_zeros.
    rewrite (tpm_tis_i2c_read_unfold ubuf count w _ _ Hh), Hd.
    cbn [Z.leb Z.compare TPM_HEADER_SIZE]. unfold ret.
    exists (push (EvCopyToUser 0 0)
                 (push (EvRetryRead 0 TPM_HEADER_SIZE) (zeroed w))).
    split; [|split; [reflexivity|split; [reflexivity|split]]].
    + cbv zeta. rewrite delivered_nothing.
      replace (0 <=? Z.of_nat (length ubuf)) with true
        by (symmetry; apply Z.leb_le; lia).
      reflexivity.
    + unfold device_buffer, zeroed, with_buf, push. cbn [tpm_dev buf].
      rewrite firstn_app, zeros_length, Nat.sub_diag. cbn [firstn].
      rewrite app_nil_r. apply firstn_all2. rewrite zeros_length. lia.
    + apply (since_app w _
               [EvCopyToUser 0 0; EvRetryRead 0 TPM_HEADER_SIZE;
                EvMemset 0 TPM_BUFSIZE]).
      reflexivity.
  - intros Hc Hfit.
    rewrite (tpm_tis_i2c_write_unfold ubuf count w Hc).
    apply Z.leb_le in Hfit. rewrite Hfit.
    rewrite (i2c_transfer_none (write_msg w count) (staged ubuf count w))
      by exact Hx.
    exists (staged ubuf count w). split; [reflexivity|].
    split; [reflexivity|].
    rewrite (since_app w _
               [EvCopyFromUser 0 count; EvMemset 0 TPM_BUFSIZE])
      by reflexivity.
    reflexivity.
Qed.

(** ** What a read can return and cost *)

Lemma tpm_i2c_read_cost (buffer len : Z) (w : world) :
  exists rc w',
    tpm_i2c_read buffer len w = Some (rc, w') /\
    Z.of_nat (xfers w) <= Z.of_nat (xfers w')
    <= Z.of_nat (xfers w) + trapdoor_limit /\
    slept w <= slept w' <= slept w + 300000.
Proof.
  destruct (master_xfer (adapter (client (tpm_dev w)))) as [script|] eqn:Hx.
  - destruct (retry_read_budget_aux buffer len w script Hx)
      as (rc & w' & n & failed & Hrun & _ & Hxf & Hn & Hs & _ & Hmax).
    exists rc, w'. split; [exact Hrun|].
    unfold trapdoor_limit in *. split; lia.
  - rewrite (tpm_i2c_read_unsupported buffer len w Hx).
    eexists _, _. split; [reflexivity|]. cbn [push xfers slept].
    unfold trapdoor_limit. split; lia.
Qed.

(** X8: whatever the adapter does, [tpm_tis_i2c_read] returns either
    [-EFAULT] or a length between 0 and 65535 that the caller's memory
    takes; it can return [-EFAULT] only to a caller whose memory takes
    fewer than 65535 bytes, so no failure of the bus is ever reported.  A
    read makes at most 120000 transfers and sleeps at most 600000 ms. *)
Theorem read_result_and_cost (ubuf : list byte) (count : Z) (w : world) :
  exists r ubuf' w',
    tpm_tis_i2c_read ubuf count w = Some ((r, ubuf'), w') /\
    ((r = - EFAULT /\ Z.of_nat (length ubuf) < 65535) \/
     (0 <= r <= 65535 /\ r <= Z.of_nat (length ubuf))) /\
    Z.of_nat (xfers w) <= Z.of_nat (xfers w')
    <= Z.of_nat (xfers w) + 120000 /\
    slept w <= slept w' <= slept w + 600000.
Proof.
  destruct (tpm_i2c_read_cost 0 TPM_HEADER_SIZE (zeroed w))
    as (rc1 & w1 & Hr1 & Hx1 & Hs1).
  rewrite <- header_phase_zeroed in Hr1.
  cbn [zeroed with_buf push xfers slept] in Hx1, Hs1.
  rewrite (tpm_tis_i2c_read_unfold ubuf count w rc1 w1 Hr1).
  pose proof (decode_expected_range (buf (tpm_dev w1))) as Hrange.
  set (e := decode_expected (buf (tpm_dev w1))) in *.
  assert (Hres : (if e <=? Z.of_nat (length ubuf) then e else - EFAULT)
                 = - EFAULT /\ Z.of_nat (length ubuf) < 65535 \/
                 0 <= (if e <=? Z.of_nat (length ubuf) then e else - EFAULT)
                 <= 65535 /\
                 (if e <=? Z.of_nat (length ubuf) then e else - EFAULT)
                 <= Z.of_nat (length ubuf)).
  { destruct (e <=? Z.of_nat (length ubuf)) eqn:Hfit.
    - apply Z.leb_le in Hfit. right. lia.
    - apply Z.leb_gt in Hfit. left. split; [reflexivity | lia]. }
  destruct (e <=? TPM_HEADER_SIZE).
  - unfold ret. cbv zeta. eexists _, _, _. split; [reflexivity|].
    split; [exact Hres|]. cbn [push xfers slept].
    unfold trapdoor_limit in *. split; lia.
  - destruct (tpm_i2c_read_cost 0 e w1) as (rc2 & w2 & Hr2 & Hx2 & Hs2).
    rewrite Hr2. cbv zeta. eexists _, _, _. split; [reflexivity|].
    split; [exact Hres|]. cbn [push xfers slept].
    unfold trapdoor_limit in *. split; lia.
Qed.

(** ** The memory behind the array *)

Lemma store_frame (n : nat) (data m : list byte) :
  (length data <= n)%nat ->
  skipn n (store 0 data m) = skipn n m.
Proof.
  intros Hd. rewrite store_0, skipn_app, (skipn_all2 data Hd), skipn_skipn.
  cbn [app]. f_equal. lia.
Qed.

Lemma tpm_i2c_read_frame (len : Z) (w : world) rc w' :
  0 <= len <= TPM_BUFSIZE ->
  tpm_i2c_read 0 len w = Some (rc, w') ->
  skipn (Z.to_nat TPM_BUFSIZE) (buf (tpm_dev w'))
  = skipn (Z.to_nat TPM_BUFSIZE) (buf (tpm_dev w)).
Proof.
  intros Hl Hrun.
  unfold tpm_i2c_read, bind, log, gets, push in Hrun.
  cbn [tpm_dev] in Hrun.
  destruct (master_xfer (adapter (client (tpm_dev w)))).
  - destruct (retry_loop _ _ _ _) as [[[rc0 t'] w0]|] eqn:Hloop;
      [|discriminate].
    apply retry_loop_frame in Hloop.
    + cbn [tpm_dev] in Hloop.
      destruct (trapdoor_limit <=? t'); inversion Hrun; subst; exact Hloop.
    + reflexivity.
    + cbn [msg_len].
      rewrite to_u16_small by (unfold TPM_BUFSIZE in Hl; lia). exact Hl.
  - inversion Hrun; subst. reflexivity.
Qed.

(** X9: a read whose decoded length is at most 1024 leaves the memory
    behind the array exactly as it was, whatever the adapter answers and
    however many bytes it sends. *)
Theorem read_keeps_memory_behind_array
        (ubuf : list byte) (count : Z) (w : world) rc1 w1 r w' :
  header_phase w = Some (rc1, w1) ->
  decode_expected (buf (tpm_dev w1)) <= TPM_BUFSIZE ->
  tpm_tis_i2c_read ubuf count w = Some (r, w') ->
  skipn (Z.to_nat TPM_BUFSIZE) (buf (tpm_dev w'))
  = skipn (Z.to_nat TPM_BUFSIZE) (buf (tpm_dev w)).
Proof.
  intros Hh Hle Hrun.
  pose proof (decode_expected_range (buf (tpm_dev w1))) as Hrange.
  assert (H1 : skipn (Z.to_nat TPM_BUFSIZE) (buf (tpm_dev w1))
               = skipn (Z.to_nat TPM_BUFSIZE) (buf (tpm_dev w))).
  { pose proof Hh as Hh'. rewrite header_phase_zeroed in Hh'.
    apply tpm_i2c_read_frame in Hh';
      [|unfold TPM_HEADER_SIZE, TPM_BUFSIZE; lia].
    rewrite Hh'. unfold zeroed, with_buf, push. cbn [tpm_dev buf].
    apply (store_frame _ (zeros TPM_BUFSIZE)).
    rewrite zeros_length. lia. }
  rewrite (tpm_tis_i2c_read_unfold ubuf count w rc1 w1 Hh) in Hrun.
  destruct (decode_expected (buf (tpm_dev w1)) <=? TPM_HEADER_SIZE).
  - unfold ret in Hrun. inversion Hrun; subst. exact H1.
  - destruct (tpm_i2c_read 0 (decode_expected (buf (tpm_dev w1))) w1)
      as [[rc2 w2]|] eqn:Hr2; [|discriminate].
    apply tpm_i2c_read_frame in Hr2; [|lia].
    inversion Hrun; subst. cbn [push tpm_dev buf]. now rewrite Hr2.
Qed.

(** X10: a write, whatever [count] and the caller's memory are, leaves the
    memory behind the array exactly as it was. *)
Theorem write_keeps_memory_behind_array
        (ubuf : list byte) (count : Z) (w : world) r w' :
  tpm_tis_i2c_write ubuf count w = Some (r, w') ->
  skipn (Z.to_nat TPM_BUFSIZE) (buf (tpm_dev w'))
  = skipn (Z.to_nat TPM_BUFSIZE) (buf (tpm_dev w)).
Proof.
  intros Hrun.
  destruct (Z.lt_ge_cases TPM_BUFSIZE count) as [Hlong|Hc].
  - rewrite (tpm_tis_i2c_write_too_long ubuf count w Hlong) in Hrun.
    inversion Hrun; subst. reflexivity.
  - destruct (tpm_tis_i2c_write_total ubuf count w)
      as (r0 & w0 & Hrun' & _ & Hb).
    rewrite Hrun in Hrun'. inversion Hrun'; subst r0 w0.
    rewrite (Hb Hc). unfold staged, with_buf, push. cbn [tpm_dev buf].
    rewrite store_frame.
    + apply (store_frame _ (zeros TPM_BUFSIZE)).
      rewrite zeros_length. lia.
    + rewrite length_app, length_firstn, zeros_length.
      unfold TPM_BUFSIZE in *. lia.
Qed.

(** ** The write operation: copy failure and the single attempt *)

(** X12: when the caller's memory holds fewer than the [count <= 1024]
    bytes asked for, [tpm_tis_i2c_write] returns [-EFAULT] without any
    transfer, and leaves in the array the bytes it could read followed by
    zeros. *)
Theorem write_copy_failure (ubuf : list byte) (count : Z) (w : world) :
  count <= TPM_BUFSIZE ->
  Z.of_nat (length ubuf) < count ->
  exists w',
    tpm_tis_i2c_write ubuf count w = Some (- EFAULT, w') /\
    xfers w' = xfers w /\
    raw_xfers (since w w') = [] /\
    device_buffer w'
    = ubuf ++ zeros (TPM_BUFSIZE - Z.of_nat (length ubuf)).
Proof.
  intros Hc Hshort.
  rewrite (tpm_tis_i2c_write_unfold ubuf count w Hc).
  replace (count <=? Z.of_nat (length ubuf)) with false
    by (symmetry; apply Z.leb_gt; exact Hshort).
  exists (staged ubuf count w). split; [reflexivity|].
  split; [reflexivity|]. split.
  - rewrite (since_app w _
               [EvCopyFromUser 0 count; EvMemset 0 TPM_BUFSIZE])
      by reflexivity.
    reflexivity.
  - rewrite staged_device_buffer by lia.
    rewrite Z.min_r by lia. rewrite Nat2Z.id, firstn_all. reflexivity.
Qed.

(** X13: a write that reaches the bus makes exactly one raw transfer, of
    the message [{addr, 0, count, tpm_dev.buf}], and never sleeps: unlike
    the read it is not retried when the transfer fails. *)
Theorem write_single_attempt
        (ubuf : list byte) (count : Z) (w : world) script :
  master_xfer (adapter (client (tpm_dev w))) = Some script ->
  0 <= count <= TPM_BUFSIZE ->
  count <= Z.of_nat (length ubuf) ->
  exists w',
    tpm_tis_i2c_write ubuf count w
    = Some (if reply_rc (script (xfers w)) <=? 0 then - EIO else count,
            w') /\
    xfers w' = S (xfers w) /\
    slept w' = slept w /\
    since w w'
    = [EvMemset 0 TPM_BUFSIZE; EvCopyFromUser 0 count;
       EvXfer (mk_msg (addr (client (tpm_dev w))) 0 count 0)].
Proof.
  intros Hx Hc Hfit.
  rewrite (tpm_tis_i2c_write_unfold ubuf count w (proj2 Hc)).
  apply Z.leb_le in Hfit. rewrite Hfit.
  rewrite (i2c_transfer_some (write_msg w count) (staged ubuf count w)
             script) by exact Hx.
  eexists. split; [reflexivity|]. split; [reflexivity|].
  split; [reflexivity|].
  rewrite (since_app w _
             [EvXfer (write_msg w count); EvCopyFromUser 0 count;
              EvMemset 0 TPM_BUFSIZE]) by reflexivity.
  unfold write_msg. rewrite to_u16_small by (unfold TPM_BUFSIZE in Hc; lia).
  reflexivity.
Qed.

(** ** Module load and unload *)

Module LifecycleFacts.
Import Lifecycle.

(** Both records are opened, so that every projection computes. *)
Ltac open_records k s :=
  destruct k as [arc ad nd mrc];
  destruct s as [drv refs devs miscs cl mem cs];
  cbn [add_driver_rc adapter_3 new_device_ok misc_register_rc] in *;
  subst.

Ltac run_init :=
  cbn [tpm_tis_i2c_init i2c_add_driver i2c_get_adapter i2c_new_device
       i2c_put_adapter i2c_del_driver misc_register memset_buf set_client
       printk call Z.eqb negb fst snd drivers adapter_refs devices
       misc_devices dev_client dev_buf calls app
       add_driver_rc adapter_3 new_device_ok misc_register_rc].

Ltac run_exit :=
  cbn [tpm_tis_i2c_init i2c_add_driver i2c_get_adapter i2c_new_device
       i2c_put_adapter misc_register memset_buf set_client
       Z.eqb negb app
       add_driver_rc adapter_3 new_device_ok misc_register_rc
       tpm_tis_i2c_exit misc_deregister i2c_unregister_device
       i2c_del_driver printk call fst snd drivers adapter_refs devices
       misc_devices dev_client dev_buf calls].

(** X14: when the four kernel services succeed, [tpm_tis_i2c_init]
    returns 0 with the driver, the client (address [0x29] on adapter 3)
    and the misc device [tpm0] registered, the reference on the adapter
    given back, and the 1024 bytes of the array zeroed, the memory behind
    them untouched; the file operations then start in a world whose array
    is zero. *)
Theorem init_success (k : kernel) (s : module_state) (a : i2c_adapter) :
  add_driver_rc k = 0 ->
  adapter_3 k = Some a ->
  new_device_ok k = true ->
  misc_register_rc k = 0 ->
  fst (tpm_tis_i2c_init k s) = 0 /\
  drivers (snd (tpm_tis_i2c_init k s)) = drivers s + 1 /\
  adapter_refs (snd (tpm_tis_i2c_init k s)) = adapter_refs s /\
  devices (snd (tpm_tis_i2c_init k s)) = devices s + 1 /\
  misc_devices (snd (tpm_tis_i2c_init k s)) = misc_devices s + 1 /\
  dev_client (snd (tpm_tis_i2c_init k s)) = Some (mk_client 41 a) /\
  firstn (Z.to_nat TPM_BUFSIZE) (dev_buf (snd (tpm_tis_i2c_init k s)))
  = zeros TPM_BUFSIZE /\
  skipn (Z.to_nat TPM_BUFSIZE) (dev_buf (snd (tpm_tis_i2c_init k s)))
  = skipn (Z.to_nat TPM_BUFSIZE) (dev_buf s) /\
  calls (snd (tpm_tis_i2c_init k s))
  = [MiscRegister tis_device_name; PutAdapter; NewDevice 41 client_type;
     GetAdapter 3; AddDriver] ++ calls s /\
  exists w0,
    device_world (snd (tpm_tis_i2c_init k s)) = Some w0 /\
    device_buffer w0 = zeros TPM_BUFSIZE /\
    addr (client (tpm_dev w0)) = 41 /\
    adapter (client (tpm_dev w0)) = a.
Proof.
  intros Hadd Hadap Hnew Hmisc.
  assert (Hz : forall m : list byte,
             firstn (Z.to_nat TPM_BUFSIZE) (store 0 (zeros TPM_BUFSIZE) m)
             = zeros TPM_BUFSIZE).
  { intros m. rewrite store_0, firstn_app, zeros_length, Nat.sub_diag.
    cbn [firstn]. rewrite app_nil_r. apply firstn_all2.
    rewrite zeros_length. lia. }
  open_records k s. run_init.
  split; [reflexivity|]. split; [reflexivity|]. split; [lia|].
  split; [reflexivity|]. split; [reflexivity|]. split; [reflexivity|].
  split; [apply Hz|]. split.
  { apply (store_frame _ (zeros TPM_BUFSIZE)). rewrite zeros_length. lia. }
  split; [reflexivity|].
  unfold device_world. cbn [dev_client dev_buf].
  eexists. split; [reflexivity|].
  split; [|split; reflexivity].
  unfold device_buffer. cbn [tpm_dev buf]. apply Hz.
Qed.

(** X15: when any of the four kernel services fails, [tpm_tis_i2c_init]
    leaves no misc device registered and does not touch the memory at
    [tpm_dev.buf]. *)
Theorem init_failure_registers_no_device (k : kernel) (s : module_state) :
  add_driver_rc k <> 0 \/ adapter_3 k = None \/
  new_device_ok k = false \/ misc_register_rc k <> 0 ->
  misc_devices (snd (tpm_tis_i2c_init k s)) = misc_devices s /\
  dev_buf (snd (tpm_tis_i2c_init k s)) = dev_buf s.
Proof.
  intros Hfail. open_records k s.
  unfold tpm_tis_i2c_init, i2c_add_driver.
  cbn [add_driver_rc].
  destruct (arc =? 0) eqn:Hadd; cbn [negb];
    [|split; reflexivity].
  destruct ad as [a|]; [|split; reflexivity].
  destruct nd; [|split; reflexivity].
  unfold misc_register. cbn [misc_register_rc].
  destruct (mrc =? 0) eqn:Hmisc; cbn [negb];
    [|split; reflexivity].
  exfalso. apply Z.eqb_eq in Hadd, Hmisc.
  destruct Hfail as [H|[H|[H|H]]]; congruence.
Qed.

(** X16: when the client cannot be created, [tpm_tis_i2c_init] deletes the
    driver again but returns the 0 of [i2c_add_driver]: the load is
    reported as a success although [tpm_dev.client] is null, no misc
    device exists, and the reference taken on the adapter is not given
    back. *)
Theorem init_without_client_returns_zero
        (k : kernel) (s : module_state) (a : i2c_adapter) :
  add_driver_rc k = 0 ->
  adapter_3 k = Some a ->
  new_device_ok k = false ->
  fst (tpm_tis_i2c_init k s) = 0 /\
  drivers (snd (tpm_tis_i2c_init k s)) = drivers s /\
  adapter_refs (snd (tpm_tis_i2c_init k s)) = adapter_refs s + 1 /\
  devices (snd (tpm_tis_i2c_init k s)) = devices s /\
  misc_devices (snd (tpm_tis_i2c_init k s)) = misc_devices s /\
  dev_client (snd (tpm_tis_i2c_init k s)) = None /\
  device_world (snd (tpm_tis_i2c_init k s)) = None.
Proof.
  intros Hadd Hadap Hnew. open_records k s. run_init.
  unfold device_world. cbn [dev_client].
  repeat split; lia.
Qed.

(** X17: when [misc_register] fails, [tpm_tis_i2c_init] returns its error
    but undoes nothing: the driver and the client stay registered. *)
Theorem init_misc_failure_keeps_driver_and_client
        (k : kernel) (s : module_state) (a : i2c_adapter) :
  add_driver_rc k = 0 ->
  adapter_3 k = Some a ->
  new_device_ok k = true ->
  misc_register_rc k <> 0 ->
  fst (tpm_tis_i2c_init k s) = misc_register_rc k /\
  drivers (snd (tpm_tis_i2c_init k s)) = drivers s + 1 /\
  devices (snd (tpm_tis_i2c_init k s)) = devices s + 1 /\
  adapter_refs (snd (tpm_tis_i2c_init k s)) = adapter_refs s /\
  misc_devices (snd (tpm_tis_i2c_init k s)) = misc_devices s /\
  dev_client (snd (tpm_tis_i2c_init k s)) = Some (mk_client 41 a).
Proof.
  intros Hadd Hadap Hnew Hmisc. open_records k s.
  unfold tpm_tis_i2c_init, misc_register. run_init.
  cbn [misc_register_rc].
  apply Z.eqb_neq in Hmisc. rewrite Hmisc. run_init.
  repeat split; lia.
Qed.

(** X18: when [i2c_add_driver] fails, or the adapter 3 does not exist,
    [tpm_tis_i2c_init] returns a value other than 0 (the result of
    [i2c_add_driver], or [-ENODEV]) and leaves nothing registered: every
    count, the client pointer and the memory are as before. *)
Theorem init_early_failure_is_clean (k : kernel) (s : module_state) :
  add_driver_rc k <> 0 \/ adapter_3 k = None ->
  fst (tpm_tis_i2c_init k s)
  = (if add_driver_rc k =? 0 then - ENODEV else add_driver_rc k) /\
  fst (tpm_tis_i2c_init k s) <> 0 /\
  drivers (snd (tpm_tis_i2c_init k s)) = drivers s /\
  adapter_refs (snd (tpm_tis_i2c_init k s)) = adapter_refs s /\
  devices (snd (tpm_tis_i2c_init k s)) = devices s /\
  misc_devices (snd (tpm_tis_i2c_init k s)) = misc_devices s /\
  dev_client (snd (tpm_tis_i2c_init k s)) = dev_client s /\
  dev_buf (snd (tpm_tis_i2c_init k s)) = dev_buf s.
Proof.
  intros Hfail.
  destruct k as [arc ad nd mrc];
    destruct s as [drv refs devs miscs cl mem cs];
    cbn [add_driver_rc adapter_3] in *.
  unfold tpm_tis_i2c_init, i2c_add_driver. cbn [add_driver_rc].
  destruct (arc =? 0) eqn:Hadd; cbn [negb].
  - destruct Hfail as [H|H]; [apply Z.eqb_eq in Hadd; contradiction|].
    subst ad. run_init.
    repeat split; first [lia | discriminate].
  - apply Z.eqb_neq in Hadd. run_init.
    repeat split; first [lia | exact Hadd].
Qed.

(** X19: after a load in which the four kernel services succeeded,
    [tpm_tis_i2c_exit] removes what the load registered: the counts of
    drivers, clients, misc devices and adapter references are those from
    before the load. *)
Theorem exit_undoes_successful_init
        (k : kernel) (s : module_state) (a : i2c_adapter) :
  add_driver_rc k = 0 ->
  adapter_3 k = Some a ->
  new_device_ok k = true ->
  misc_register_rc k = 0 ->
  drivers (tpm_tis_i2c_exit (snd (tpm_tis_i2c_init k s))) = drivers s /\
  devices (tpm_tis_i2c_exit (snd (tpm_tis_i2c_init k s))) = devices s /\
  misc_devices (tpm_tis_i2c_exit (snd (tpm_tis_i2c_init k s)))
  = misc_devices s /\
  adapter_refs (tpm_tis_i2c_exit (snd (tpm_tis_i2c_init k s)))
  = adapter_refs s.
Proof.
  intros Hadd Hadap Hnew Hmisc. open_records k s. run_exit.
  repeat split; lia.
Qed.

(** X20: the load that could not create the client returned 0, so the
    module is unloaded through [tpm_tis_i2c_exit], which then deregisters
    a misc device that was never registered, hands a null client to
    [i2c_unregister_device] and deletes the driver a second time: the
    counts of drivers and misc devices end one below their value before
    the load, and the adapter reference is still held. *)
Theorem exit_after_init_without_client
        (k : kernel) (s : module_state) (a : i2c_adapter) :
  add_driver_rc k = 0 ->
  adapter_3 k = Some a ->
  new_device_ok k = false ->
  fst (tpm_tis_i2c_init k s) = 0 /\
  drivers (tpm_tis_i2c_exit (snd (tpm_tis_i2c_init k s))) = drivers s - 1 /\
  misc_devices (tpm_tis_i2c_exit (snd (tpm_tis_i2c_init k s)))
  = misc_devices s - 1 /\
  adapter_refs (tpm_tis_i2c_exit (snd (tpm_tis_i2c_init k s)))
  = adapter_refs s + 1 /\
  In (UnregisterDevice None)
     (calls (tpm_tis_i2c_exit (snd (tpm_tis_i2c_init k s)))).
Proof.
  intros Hadd Hadap Hnew. open_records k s. run_exit.
  repeat split; try lia.
  right. right. left. reflexivity.
Qed.

(** X21: [tpm_tis_i2c_probe] turns every failure of the SMBus read into
    [-ENODEV] and otherwise returns the byte read: its result is negative
    exactly when the read failed, and it is 0 only when the byte read is
    0. *)
Theorem probe_result (smbus_read_byte : Z) :
  (smbus_read_byte < 0 -> tpm_tis_i2c_probe smbus_read_byte = - ENODEV) /\
  (0 <= smbus_read_byte ->
   tpm_tis_i2c_probe smbus_read_byte = smbus_read_byte) /\
  (tpm_tis_i2c_probe smbus_read_byte < 0 <-> smbus_read_byte < 0) /\
  (tpm_tis_i2c_probe smbus_read_byte = 0 <-> smbus_read_byte = 0).
Proof.
  unfold tpm_tis_i2c_probe, ENODEV.
  destruct (smbus_read_byte <? 0) eqn:Hneg.
  - apply Z.ltb_lt in Hneg. repeat split; intros; lia.
  - apply Z.ltb_ge in Hneg. repeat split; intros; lia.
Qed.

End LifecycleFacts.

(** ** The further properties at concrete devices *)

Lemma never_answers_nack (from : nat) :
  never_answers (script_of chip_nack) from.
Proof. intros i _. split; [cbn; lia | reflexivity]. Qed.

Lemma answers_at_slow_header : answers_at (script_of chip_slow) 0 2.
Proof.
  split; [unfold trapdoor_limit; lia|]. split.
  - intros [|[|i]] Hi; try lia; split; cbn; (lia || reflexivity).
  - cbn. lia.
Qed.

Lemma answers_at_slow_body : answers_at (script_of chip_slow) (0 + 3) 2.
Proof.
  split; [unfold trapdoor_limit; lia|]. split.
  - intros [|[|i]] Hi; try lia; split; cbn; (lia || reflexivity).
  - cbn. lia.
Qed.

Lemma answers_at_once (first then_ : list byte) :
  answers_at (script_of (chip first then_)) 0 0.
Proof.
  split; [unfold trapdoor_limit; lia|]. split.
  - intros i Hi. lia.
  - cbn. lia.
Qed.

Lemma answers_at_once_again (first then_ : list byte) :
  answers_at (script_of (chip first then_)) (0 + 1) 0.
Proof.
  split; [unfold trapdoor_limit; lia|]. split.
  - intros i Hi. lia.
  - cbn. lia.
Qed.

(** [retry_read_budget] on the chip that never acknowledges. *)
Lemma retry_read_budget_witness :
  master_xfer (adapter (client (tpm_dev (boot chip_nack))))
  = Some (script_of chip_nack) /\
  exists rc w' (n : nat),
    tpm_i2c_read 0 TPM_HEADER_SIZE (boot chip_nack) = Some (rc, w') /\
    0 <= rc <= 255 /\
    (1 <= n <= Z.to_nat trapdoor_limit)%nat /\
    xfers w' = (xfers (boot chip_nack) + n)%nat /\
    (forall i, (S i < n)%nat ->
               reply_rc (script_of chip_nack
                           (xfers (boot chip_nack) + i)%nat) <= 0) /\
    ((0 < reply_rc (script_of chip_nack
                      (xfers (boot chip_nack) + (n - 1))%nat) /\
      rc = to_u8 (reply_rc (script_of chip_nack
                              (xfers (boot chip_nack) + (n - 1))%nat)) /\
      slept w' = slept (boot chip_nack) + 5 * (Z.of_nat n - 1)) \/
     (reply_rc (script_of chip_nack
                  (xfers (boot chip_nack) + (n - 1))%nat) <= 0 /\
      n = Z.to_nat trapdoor_limit /\
      rc = to_u8 (- EFAULT) /\
      slept w' = slept (boot chip_nack) + 5 * trapdoor_limit)) /\
    slept w' = slept (boot chip_nack)
               + 5 * Z.of_nat (failed_attempts (script_of chip_nack)
                                 (xfers (boot chip_nack)) n) /\
    slept (boot chip_nack) <= slept w' <= slept (boot chip_nack) + 300000.
Proof.
  split; [reflexivity|].
  exact (retry_read_budget 0 TPM_HEADER_SIZE (boot chip_nack)
           (script_of chip_nack) eq_refl).
Defined.

(** [giving_up_takes_five_minutes] on the chip that never acknowledges. *)
Lemma giving_up_takes_five_minutes_witness :
  master_xfer (adapter (client (tpm_dev (boot chip_nack))))
  = Some (script_of chip_nack) /\
  never_answers (script_of chip_nack) (xfers (boot chip_nack)) /\
  exists w',
    tpm_i2c_read 0 TPM_HEADER_SIZE (boot chip_nack) = Some (242, w') /\
    Z.of_nat (xfers w') = 60000 /\
    slept w' = 300000.
Proof.
  split; [reflexivity|]. split; [apply never_answers_nack|].
  destruct (giving_up_takes_five_minutes 0 TPM_HEADER_SIZE (boot chip_nack)
              (script_of chip_nack) eq_refl (never_answers_nack _))
    as (w' & Hrun & Hxf & Hs & _).
  exists w'. split; [exact Hrun|]. split; [exact Hxf | exact Hs].
Defined.

(** [answer_after_failures] on the chip that fails twice first. *)
Lemma answer_after_failures_witness :
  master_xfer (adapter (client (tpm_dev (boot chip_slow))))
  = Some (script_of chip_slow) /\
  answers_at (script_of chip_slow) (xfers (boot chip_slow)) 2 /\
  0 <= TPM_HEADER_SIZE <= 65535 /\
  exists w',
    tpm_i2c_read 0 TPM_HEADER_SIZE (boot chip_slow) = Some (1, w') /\
    xfers w' = 3%nat /\
    slept w' = 10 /\
    buf (tpm_dev w')
    = store 0 (header x00 x08) (buf (tpm_dev (boot chip_slow))).
Proof.
  assert (Hl : 0 <= TPM_HEADER_SIZE <= 65535)
    by (unfold TPM_HEADER_SIZE; lia).
  split; [reflexivity|]. split; [exact answers_at_slow_header|].
  split; [exact Hl|].
  exact (answer_after_failures 0 TPM_HEADER_SIZE (boot chip_slow)
           (script_of chip_slow) 2 eq_refl answers_at_slow_header Hl).
Defined.

(** [response_delivered] on the chip that fails twice before each of its
    answers: the eight bytes announced reach the caller after 20 ms. *)
Lemma response_delivered_witness :
  master_xfer (adapter (client (tpm_dev (boot chip_slow))))
  = Some (script_of chip_slow) /\
  answers_at (script_of chip_slow) (xfers (boot chip_slow)) 2 /\
  answers_at (script_of chip_slow) (xfers (boot chip_slow) + 3) 2 /\
  exists w',
    tpm_tis_i2c_read caller_64 64 (boot chip_slow)
    = Some ((8, header x00 x08 ++ [x11; x22] ++ zeros 56), w') /\
    xfers w' = 6%nat /\
    slept w' = 20.
Proof.
  split; [reflexivity|]. split; [exact answers_at_slow_header|].
  split; [exact answers_at_slow_body|].
  refine (response_delivered caller_64 64 (boot chip_slow)
            (script_of chip_slow) 2 2 eq_refl answers_at_slow_header
            answers_at_slow_body _ _ _ _).
  - cbn. lia.
  - reflexivity.
  - cbn. lia.
  - vm_compute. discriminate.
Defined.

(** [short_response_delivered] on the chip whose response is its header. *)
Lemma short_response_delivered_witness :
  master_xfer (adapter (client (tpm_dev (boot chip_6))))
  = Some (script_of chip_6) /\
  answers_at (script_of chip_6) (xfers (boot chip_6)) 0 /\
  exists w',
    tpm_tis_i2c_read caller_64 64 (boot chip_6)
    = Some ((6, header x00 x06 ++ zeros 58), w') /\
    xfers w' = 1%nat /\
    read_calls (since (boot chip_6) w') = [(0, TPM_HEADER_SIZE)].
Proof.
  split; [reflexivity|]. split; [apply answers_at_once|].
  refine (short_response_delivered caller_64 64 (boot chip_6)
            (script_of chip_6) 0 eq_refl (answers_at_once _ _) _ _ _).
  - cbn. lia.
  - vm_compute. discriminate.
  - vm_compute. discriminate.
Defined.

(** [body_failure_not_reported] on the chip that sends a header announcing
    30 bytes and then stays silent: 30 is returned, with 24 zero bytes. *)
Lemma body_failure_not_reported_witness :
  master_xfer (adapter (client (tpm_dev (boot (chip_header_only x00 x1e)))))
  = Some (script_of (chip_header_only x00 x1e)) /\
  answers_at (script_of (chip_header_only x00 x1e)) 0 0 /\
  never_answers (script_of (chip_header_only x00 x1e)) (0 + 1) /\
  exists w',
    tpm_tis_i2c_read caller_64 64 (boot (chip_header_only x00 x1e))
    = Some ((30, header x00 x1e ++ zeros 24 ++ zeros 34), w') /\
    slept w' = 300000.
Proof.
  assert (H1 : answers_at (script_of (chip_header_only x00 x1e)) 0 0).
  { split; [unfold trapdoor_limit; lia|]. split.
    - intros i Hi. lia.
    - cbn. lia. }
  assert (H2 : never_answers (script_of (chip_header_only x00 x1e)) (0 + 1)).
  { intros i _. split; [cbn; lia | reflexivity]. }
  split; [reflexivity|]. split; [exact H1|]. split; [exact H2|].
  refine (body_failure_not_reported caller_64 64
            (boot (chip_header_only x00 x1e))
            (script_of (chip_header_only x00 x1e)) 0 eq_refl H1 H2 _ _ _).
  - cbn. lia.
  - split; [vm_compute; reflexivity | vm_compute; discriminate].
  - vm_compute. discriminate.
Defined.

(** [no_transfer_routine] on the adapter without a routine. *)
Lemma no_transfer_routine_witness :
  master_xfer (adapter (client (tpm_dev (boot no_xfer)))) = None /\
  (exists w',
      tpm_tis_i2c_read caller_64 64 (boot no_xfer)
      = Some ((0, caller_64), w') /\
      xfers w' = 0%nat) /\
  (exists w',
      tpm_tis_i2c_write request_4 4 (boot no_xfer) = Some (- EIO, w') /\
      xfers w' = 0%nat).
Proof.
  split; [reflexivity|].
  destruct (no_transfer_routine caller_64 64 (boot no_xfer) eq_refl)
    as [(w' & Hrun & Hxf & _) _].
  destruct (no_transfer_routine request_4 4 (boot no_xfer) eq_refl)
    as [_ Hw].
  destruct Hw as (w2 & Hrun2 & Hxf2 & _);
    [unfold TPM_BUFSIZE; lia | cbn; lia |].
  split; [exists w' | exists w2]; split; assumption.
Defined.

(** [read_keeps_memory_behind_array] on the chip that sends 30 bytes. *)
Lemma read_keeps_memory_behind_array_witness :
  header_phase (boot chip_30)
  = Some (header_status (boot chip_30), after_header (boot chip_30)) /\
  decode_expected (buf (tpm_dev (after_header (boot chip_30))))
  <= TPM_BUFSIZE /\
  exists r w',
    tpm_tis_i2c_read caller_64 64 (boot chip_30) = Some (r, w') /\
    skipn (Z.to_nat TPM_BUFSIZE) (buf (tpm_dev w')) = repeat xaa 8.
Proof.
  assert (H1 : header_phase (boot chip_30)
               = Some (header_status (boot chip_30),
                       after_header (boot chip_30)))
    by (vm_compute; reflexivity).
  assert (H2 : decode_expected (buf (tpm_dev (after_header (boot chip_30))))
               <= TPM_BUFSIZE) by (vm_compute; discriminate).
  split; [exact H1|]. split; [exact H2|].
  destruct (tpm_tis_i2c_read_shape caller_64 64 (boot chip_30) _ _ H1)
    as (w' & k & Hrun & _).
  eexists _, w'. split; [exact Hrun|].
  exact (read_keeps_memory_behind_array caller_64 64 (boot chip_30)
           _ _ _ w' H1 H2 Hrun).
Defined.

(** [write_keeps_memory_behind_array] for a four byte request. *)
Lemma write_keeps_memory_behind_array_witness :
  exists r w',
    tpm_tis_i2c_write request_4 4 (boot chip_30) = Some (r, w') /\
    skipn (Z.to_nat TPM_BUFSIZE) (buf (tpm_dev w')) = repeat xaa 8.
Proof.
  destruct (tpm_tis_i2c_write_total request_4 4 (boot chip_30))
    as (r & w' & Hrun & _).
  exists r, w'. split; [exact Hrun|].
  exact (write_keeps_memory_behind_array request_4 4 (boot chip_30)
           r w' Hrun).
Defined.

(** [response_overwrites_behind_array] on the chip that sends 1026 bytes:
    its last two bytes replace the first two bytes behind the array. *)
Lemma response_overwrites_behind_array_witness :
  master_xfer (adapter (client (tpm_dev (boot chip_1026))))
  = Some (script_of chip_1026) /\
  answers_at (script_of chip_1026) (xfers (boot chip_1026)) 0 /\
  answers_at (script_of chip_1026) (xfers (boot chip_1026) + 1) 0 /\
  exists r w',
    tpm_tis_i2c_read caller_64 64 (boot chip_1026) = Some (r, w') /\
    load TPM_BUFSIZE 2 (buf (tpm_dev w')) = [xee; xee].
Proof.
  split; [reflexivity|]. split; [apply answers_at_once|].
  split; [apply answers_at_once_again|].
  destruct (response_overwrites_behind_array caller_64 64 (boot chip_1026)
              (script_of chip_1026) 0 0 eq_refl
              (answers_at_once _ _) (answers_at_once_again _ _))
    as (r & w' & Hrun & Hload & _).
  - cbn. lia.
  - vm_compute. reflexivity.
  - vm_compute. discriminate.
  - exists r, w'. split; [exact Hrun|].
    etransitivity; [exact Hload|]. vm_compute. reflexivity.
Defined.

(** [write_copy_failure] for a caller that holds two of four bytes. *)
Lemma write_copy_failure_witness :
  4 <= TPM_BUFSIZE /\
  Z.of_nat (length [x01; x02]) < 4 /\
  exists w',
    tpm_tis_i2c_write [x01; x02] 4 (boot chip_30) = Some (- EFAULT, w') /\
    xfers w' = 0%nat /\
    raw_xfers (since (boot chip_30) w') = [] /\
    device_buffer w' = [x01; x02] ++ zeros 1022.
Proof.
  assert (H1 : 4 <= TPM_BUFSIZE) by (unfold TPM_BUFSIZE; lia).
  assert (H2 : Z.of_nat (length [x01; x02]) < 4) by (cbn; lia).
  split; [exact H1|]. split; [exact H2|].
  exact (write_copy_failure [x01; x02] 4 (boot chip_30) H1 H2).
Defined.

(** [write_single_attempt] on the chip that never acknowledges. *)
Lemma write_single_attempt_witness :
  master_xfer (adapter (client (tpm_dev (boot chip_nack))))
  = Some (script_of chip_nack) /\
  0 <= 4 <= TPM_BUFSIZE /\
  4 <= Z.of_nat (length request_4) /\
  exists w',
    tpm_tis_i2c_write request_4 4 (boot chip_nack) = Some (- EIO, w') /\
    xfers w' = 1%nat /\
    slept w' = 0 /\
    since (boot chip_nack) w'
    = [EvMemset 0 TPM_BUFSIZE; EvCopyFromUser 0 4;
       EvXfer (mk_msg 41 0 4 0)].
Proof.
  assert (H1 : 0 <= 4 <= TPM_BUFSIZE) by (unfold TPM_BUFSIZE; lia).
  assert (H2 : 4 <= Z.of_nat (length request_4)) by (cbn; lia).
  split; [reflexivity|]. split; [exact H1|]. split; [exact H2|].
  exact (write_single_attempt request_4 4 (boot chip_nack)
           (script_of chip_nack) eq_refl H1 H2).
Defined.

(** [init_success] on a kernel where every service succeeds. *)
Lemma init_success_witness :
  Lifecycle.add_driver_rc (Lifecycle.kernel_ok chip_30) = 0 /\
  Lifecycle.adapter_3 (Lifecycle.kernel_ok chip_30) = Some chip_30 /\
  Lifecycle.new_device_ok (Lifecycle.kernel_ok chip_30) = true /\
  Lifecycle.misc_register_rc (Lifecycle.kernel_ok chip_30) = 0 /\
  fst (Lifecycle.tpm_tis_i2c_init (Lifecycle.kernel_ok chip_30)
         Lifecycle.unloaded) = 0 /\
  Lifecycle.device_world
    (snd (Lifecycle.tpm_tis_i2c_init (Lifecycle.kernel_ok chip_30)
            Lifecycle.unloaded))
  = Some (boot chip_30).
Proof.
  do 4 (split; [reflexivity|]).
  destruct (LifecycleFacts.init_success (Lifecycle.kernel_ok chip_30)
              Lifecycle.unloaded chip_30 eq_refl eq_refl eq_refl eq_refl)
    as (Hrc & _).
  split; [exact Hrc|]. vm_compute. reflexivity.
Defined.

(** [init_failure_registers_no_device] when the adapter is missing. *)
Lemma init_failure_registers_no_device_witness :
  (Lifecycle.add_driver_rc Lifecycle.kernel_no_adapter <> 0 \/
   Lifecycle.adapter_3 Lifecycle.kernel_no_adapter = None \/
   Lifecycle.new_device_ok Lifecycle.kernel_no_adapter = false \/
   Lifecycle.misc_register_rc Lifecycle.kernel_no_adapter <> 0) /\
  Lifecycle.misc_devices
    (snd (Lifecycle.tpm_tis_i2c_init Lifecycle.kernel_no_adapter
            Lifecycle.unloaded)) = 0 /\
  Lifecycle.dev_buf
    (snd (Lifecycle.tpm_tis_i2c_init Lifecycle.kernel_no_adapter
            Lifecycle.unloaded))
  = Lifecycle.dev_buf Lifecycle.unloaded.
Proof.
  assert (H : Lifecycle.add_driver_rc Lifecycle.kernel_no_adapter <> 0 \/
              Lifecycle.adapter_3 Lifecycle.kernel_no_adapter = None \/
              Lifecycle.new_device_ok Lifecycle.kernel_no_adapter = false \/
              Lifecycle.misc_register_rc Lifecycle.kernel_no_adapter <> 0)
    by (right; left; reflexivity).
  split; [exact H|].
  exact (LifecycleFacts.init_failure_registers_no_device
           Lifecycle.kernel_no_adapter Lifecycle.unloaded H).
Defined.

(** [init_without_client_returns_zero] when the client is not created. *)
Lemma init_without_client_returns_zero_witness :
  Lifecycle.add_driver_rc (Lifecycle.kernel_no_client chip_30) = 0 /\
  Lifecycle.adapter_3 (Lifecycle.kernel_no_client chip_30) = Some chip_30 /\
  Lifecycle.new_device_ok (Lifecycle.kernel_no_client chip_30) = false /\
  fst (Lifecycle.tpm_tis_i2c_init (Lifecycle.kernel_no_client chip_30)
         Lifecycle.unloaded) = 0 /\
  Lifecycle.dev_client
    (snd (Lifecycle.tpm_tis_i2c_init (Lifecycle.kernel_no_client chip_30)
            Lifecycle.unloaded)) = None /\
  Lifecycle.adapter_refs
    (snd (Lifecycle.tpm_tis_i2c_init (Lifecycle.kernel_no_client chip_30)
            Lifecycle.unloaded)) = 1.
Proof.
  do 3 (split; [reflexivity|]).
  destruct (LifecycleFacts.init_without_client_returns_zero
              (Lifecycle.kernel_no_client chip_30) Lifecycle.unloaded
              chip_30 eq_refl eq_refl eq_refl)
    as (Hrc & _ & Hrefs & _ & _ & Hcl & _).
  split; [exact Hrc|]. split; [exact Hcl | exact Hrefs].
Defined.

(** [init_misc_failure_keeps_driver_and_client] when [misc_register]
    answers [-EBUSY]. *)
Lemma init_misc_failure_keeps_driver_and_client_witness :
  Lifecycle.add_driver_rc (Lifecycle.kernel_no_misc chip_30) = 0 /\
  Lifecycle.adapter_3 (Lifecycle.kernel_no_misc chip_30) = Some chip_30 /\
  Lifecycle.new_device_ok (Lifecycle.kernel_no_misc chip_30) = true /\
  Lifecycle.misc_register_rc (Lifecycle.kernel_no_misc chip_30) <> 0 /\
  fst (Lifecycle.tpm_tis_i2c_init (Lifecycle.kernel_no_misc chip_30)
         Lifecycle.unloaded) = -16 /\
  Lifecycle.drivers
    (snd (Lifecycle.tpm_tis_i2c_init (Lifecycle.kernel_no_misc chip_30)
            Lifecycle.unloaded)) = 1 /\
  Lifecycle.devices
    (snd (Lifecycle.tpm_tis_i2c_init (Lifecycle.kernel_no_misc chip_30)
            Lifecycle.unloaded)) = 1.
Proof.
  assert (H4 : Lifecycle.misc_register_rc (Lifecycle.kernel_no_misc chip_30)
               <> 0) by discriminate.
  do 3 (split; [reflexivity|]). split; [exact H4|].
  destruct (LifecycleFacts.init_misc_failure_keeps_driver_and_client
              (Lifecycle.kernel_no_misc chip_30) Lifecycle.unloaded
              chip_30 eq_refl eq_refl eq_refl H4)
    as (Hrc & Hd & Hc & _).
  split; [exact Hrc|]. split; [exact Hd | exact Hc].
Defined.

(** [init_early_failure_is_clean] when the adapter is missing. *)
Lemma init_early_failure_is_clean_witness :
  (Lifecycle.add_driver_rc Lifecycle.kernel_no_adapter <> 0 \/
   Lifecycle.adapter_3 Lifecycle.kernel_no_adapter = None) /\
  fst (Lifecycle.tpm_tis_i2c_init Lifecycle.kernel_no_adapter
         Lifecycle.unloaded) = - Lifecycle.ENODEV /\
  Lifecycle.drivers
    (snd (Lifecycle.tpm_tis_i2c_init Lifecycle.kernel_no_adapter
            Lifecycle.unloaded)) = 0.
Proof.
  assert (H : Lifecycle.add_driver_rc Lifecycle.kernel_no_adapter <> 0 \/
              Lifecycle.adapter_3 Lifecycle.kernel_no_adapter = None)
    by (right; reflexivity).
  split; [exact H|].
  destruct (LifecycleFacts.init_early_failure_is_clean
              Lifecycle.kernel_no_adapter Lifecycle.unloaded H)
    as (Hrc & _ & Hd & _).
  split; [exact Hrc | exact Hd].
Defined.

(** [exit_undoes_successful_init] on a kernel where every service
    succeeds. *)
Lemma exit_undoes_successful_init_witness :
  Lifecycle.add_driver_rc (Lifecycle.kernel_ok chip_30) = 0 /\
  Lifecycle.adapter_3 (Lifecycle.kernel_ok chip_30) = Some chip_30 /\
  Lifecycle.new_device_ok (Lifecycle.kernel_ok chip_30) = true /\
  Lifecycle.misc_register_rc (Lifecycle.kernel_ok chip_30) = 0 /\
  Lifecycle.drivers
    (Lifecycle.tpm_tis_i2c_exit
       (snd (Lifecycle.tpm_tis_i2c_init (Lifecycle.kernel_ok chip_30)
               Lifecycle.unloaded))) = 0 /\
  Lifecycle.devices
    (Lifecycle.tpm_tis_i2c_exit
       (snd (Lifecycle.tpm_tis_i2c_init (Lifecycle.kernel_ok chip_30)
               Lifecycle.unloaded))) = 0.
Proof.
  do 4 (split; [reflexivity|]).
  destruct (LifecycleFacts.exit_undoes_successful_init
              (Lifecycle.kernel_ok chip_30) Lifecycle.unloaded chip_30
              eq_refl eq_refl eq_refl eq_refl)
    as (Hd & Hc & _).
  split; [exact Hd | exact Hc].
Defined.

(** [exit_after_init_without_client] when the client is not created. *)
Lemma exit_after_init_without_client_witness :
  Lifecycle.add_driver_rc (Lifecycle.kernel_no_client chip_30) = 0 /\
  Lifecycle.adapter_3 (Lifecycle.kernel_no_client chip_30) = Some chip_30 /\
  Lifecycle.new_device_ok (Lifecycle.kernel_no_client chip_30) = false /\
  Lifecycle.drivers
    (Lifecycle.tpm_tis_i2c_exit
       (snd (Lifecycle.tpm_tis_i2c_init (Lifecycle.kernel_no_client chip_30)
               Lifecycle.unloaded))) = -1 /\
  Lifecycle.misc_devices
    (Lifecycle.tpm_tis_i2c_exit
       (snd (Lifecycle.tpm_tis_i2c_init (Lifecycle.kernel_no_client chip_30)
               Lifecycle.unloaded))) = -1.
Proof.
  do 3 (split; [reflexivity|]).
  destruct (LifecycleFacts.exit_after_init_without_client
              (Lifecycle.kernel_no_client chip_30) Lifecycle.unloaded
              chip_30 eq_refl eq_refl eq_refl)
    as (_ & Hd & Hm & _).
  split; [exact Hd | exact Hm].
Defined.
